(** * Backup Long-Open Tabs: a shallow embedding of the extension's scripts

    The development follows the scripts of the extension: the background
    script (tab tracking, reconciliation pass, alarm handling, scheduling,
    messages, start-up), the options page (settings form), the tab-log
    dashboard (merged view of open and logged tabs, caption, export, the
    add/remove button) and the popup (dates).

    Conventions of the embedding:
    - a JavaScript number that the code only uses as an integer (a
      timestamp in milliseconds, a count, a setting typed into a number
      field) is a [Z]; a number that may be [NaN] is a [JsNum];
    - a property that may be missing ([undefined]) is an [option];
    - a string is a [string], one character per UTF-16 code unit;
    - an object used as a dictionary is a [gmap string _]; the key of a
      host tab identifier [n] is its decimal rendering [pretty n], as
      property access [obj[n]] converts the number;
    - the host (browser) is an input: the clock readings, the list of open
      tabs and whether a storage write is accepted are arguments. *)

From Stdlib Require Import ZArith QArith String Ascii List Bool Lia.
From stdpp Require Import gmap strings list fin_maps pretty.

Close Scope Q_scope.
Open Scope string_scope.
Open Scope list_scope.
Open Scope Z_scope.

(** ** JavaScript primitives used by the scripts *)

Module JS.

(** A number that can be [NaN] (the result of arithmetic on
    [undefined], of [Number] or [parseInt] on a non-numeric string). *)
Inductive JsNum : Type :=
| Num (z : Z)
| NaN.

(** [x * k] where [x] may be [undefined]. *)
Definition mul_undefined (x : option Z) (k : Z) : JsNum :=
  match x with
  | Some z => Num (z * k)
  | None => NaN
  end.

Definition jsnum_mul (x : JsNum) (k : Z) : JsNum :=
  match x with
  | Num z => Num (z * k)
  | NaN => NaN
  end.

(** Truthiness of a possibly missing number: [undefined], [0] are falsy. *)
Definition truthy_num (o : option Z) : option Z :=
  match o with
  | Some z => if z =? 0 then None else Some z
  | None => None
  end.

(** Truthiness of a possibly missing string: [undefined] and the empty
    string are falsy. *)
Definition truthy_str (o : option string) : option string :=
  match o with
  | Some "" => None
  | Some s => Some s
  | None => None
  end.

Definition is_truthy_str (o : option string) : bool :=
  match truthy_str o with
  | Some _ => true
  | None => false
  end.

(** [a || b] for numbers, [b] always defined. *)
Definition or_num (a : option Z) (b : Z) : Z :=
  match truthy_num a with
  | Some z => z
  | None => b
  end.

(** [a || b] for strings, [b] always defined. *)
Definition or_str (a : option string) (b : string) : string :=
  match truthy_str a with
  | Some s => s
  | None => b
  end.

(** [s.startsWith(p)] *)
Definition startsWith (s p : string) : bool := String.prefix p s.

(** [s.length] *)
Definition length (s : string) : Z := Z.of_nat (String.length s).

(** [s.substring(0, n)]: a negative [n] counts as [0], an [n] beyond the
    end as the length. *)
Definition substring0 (s : string) (n : Z) : string :=
  String.substring 0 (Z.to_nat n) s.

End JS.

Import JS.

(** ** Data model *)

(** A tab as the host reports it.  [createdAt] and [lastModified] are not
    part of the host's tab type, but the scripts read them, so they are
    optional here. *)
Module Tab.
Record t : Type := mk {
  id : Z;
  url : option string;
  title : option string;
  incognito : bool;
  pinned : bool;
  favIconUrl : option string;
  createdAt : option Z;
  lastAccessed : option Z;
  lastModified : option Z
}.
End Tab.

(** A persisted record of [tabData].  The record is an open JavaScript
    object; the fields are the ones the scripts write. *)
Module TrackedTab.
Record t : Type := mk {
  title : option string;
  url : option string;
  createdAt : option Z;
  lastUpdated : option Z;
  favIconUrl : option string;
  domain : option string
}.
End TrackedTab.

(** The merged settings object of the background script.  [backupInterval]
    is read by the scripts but is not among the defaults. *)
Module Settings.
Record t : Type := mk {
  minDays : Z;
  maxTabs : Z;
  autoBackupEnabled : bool;
  backupTime : string;
  backupDays : list string;
  toleranceHours : Z;
  excludePrivate : bool;
  excludePinned : bool;
  maxTitleLength : Z;
  theme : string;
  backupInterval : option Z
}.
End Settings.

(** A stored (partial) settings object: every key may be missing. *)
Module Partial.
Record t : Type := mk {
  minDays : option Z;
  maxTabs : option Z;
  autoBackupEnabled : option bool;
  backupTime : option string;
  backupDays : option (list string);
  toleranceHours : option Z;
  excludePrivate : option bool;
  excludePinned : option bool;
  maxTitleLength : option Z;
  theme : option string;
  backupInterval : option Z
}.

Definition empty : t :=
  mk None None None None None None None None None None None.
End Partial.

(** [{ ...base, ...over }] on settings objects. *)
Definition spread (base : Settings.t) (over : Partial.t) : Settings.t :=
  {| Settings.minDays := default (Settings.minDays base) (Partial.minDays over);
     Settings.maxTabs := default (Settings.maxTabs base) (Partial.maxTabs over);
     Settings.autoBackupEnabled :=
       default (Settings.autoBackupEnabled base) (Partial.autoBackupEnabled over);
     Settings.backupTime := default (Settings.backupTime base) (Partial.backupTime over);
     Settings.backupDays := default (Settings.backupDays base) (Partial.backupDays over);
     Settings.toleranceHours :=
       default (Settings.toleranceHours base) (Partial.toleranceHours over);
     Settings.excludePrivate :=
       default (Settings.excludePrivate base) (Partial.excludePrivate over);
     Settings.excludePinned :=
       default (Settings.excludePinned base) (Partial.excludePinned over);
     Settings.maxTitleLength :=
       default (Settings.maxTitleLength base) (Partial.maxTitleLength over);
     Settings.theme := default (Settings.theme base) (Partial.theme over);
     Settings.backupInterval :=
       match Partial.backupInterval over with
       | Some i => Some i
       | None => Settings.backupInterval base
       end |}.

(** The persisted key-value store of the extension. *)
Module Storage.
Record t : Type := mk {
  settings : option Partial.t;
  tabData : option (gmap string TrackedTab.t);
  lastAutomaticBackup : option Z
}.
End Storage.

(** Milliseconds in a day, [24 * 60 * 60 * 1000]. *)
Definition MS_PER_DAY : Z := 24 * 60 * 60 * 1000.

(** [(now - createdAt) / (24 * 60 * 60 * 1000)], an exact rational. *)
Definition tabAgeDays (now createdAt : Z) : Q :=
  (inject_Z (now - createdAt) / inject_Z MS_PER_DAY)%Q.

(** [age < minDays] *)
Definition age_lt (age : Q) (minDays : Z) : bool :=
  negb (Qle_bool (inject_Z minDays) age).

(** [http://] or [https://] scheme test shared by the scripts:
    [!url || (!url.startsWith('http://') && !url.startsWith('https://'))]
    is its negation. *)
Definition is_http (u : option string) : bool :=
  match truthy_str u with
  | Some s => startsWith s "http://" || startsWith s "https://"
  | None => false
  end.

(** Title truncation, the same four lines in [handleTabUpdate] and in
    [performBackup]. *)
Definition truncate_title (maxTitleLength : Z) (t : option string) : string :=
  let title := or_str t "" in
  if JS.length title >? maxTitleLength
  then substring0 title maxTitleLength +:+ "..."
  else title.

(** What the host answers during one handler run. *)
Module Host.
Record t : Type := mk {
  (** [browser.tabs.query({})]; [None] when the call rejects *)
  openTabs : option (list Tab.t);
  (** whether [browser.storage.local.set] is accepted; one answer for all
      the writes of a handler run *)
  writable : bool
}.
End Host.

(** The [alarmInfo] given to [browser.alarms.create].  A table of alarms
    ([gmap string Alarm.t]) holds, for each name, the [alarmInfo] of the
    last [create] call that no [clear] has followed: what the scripts
    have asked for.  Whether the browser accepts a given [alarmInfo]
    (one whose period is [NaN], say) is the browser's business and is
    not part of the table. *)
Module Alarm.
Record t : Type := mk {
  when : JsNum;
  periodInMinutes : JsNum
}.
End Alarm.

(** ** Date arithmetic of the schedulers

    Local time is modelled with a fixed offset [tz] (milliseconds east of
    UTC): no daylight-saving transitions. *)
Module Date.

Definition MS_PER_HOUR : Z := 60 * 60 * 1000.
Definition MS_PER_MINUTE : Z := 60 * 1000.

(** Midnight (local time) of the day of instant [t]. *)
Definition startOfDay (tz t : Z) : Z :=
  (t + tz) - (t + tz) mod MS_PER_DAY - tz.

(** [d.setHours(hours, minutes, 0, 0)]; [None] is the invalid date. *)
Definition setHours (tz : Z) (d : Z) (hours minutes : JsNum) : option Z :=
  match hours, minutes with
  | Num h, Num m => Some (startOfDay tz d + h * MS_PER_HOUR + m * MS_PER_MINUTE)
  | _, _ => None
  end.

(** [d.setDate(d.getDate() + 1)] *)
Definition nextDay (d : option Z) : option Z :=
  match d with
  | Some t => Some (t + MS_PER_DAY)
  | None => None
  end.

(** [d <= now]; a comparison with the invalid date is false. *)
Definition le (d : option Z) (now : Z) : bool :=
  match d with
  | Some t => t <=? now
  | None => false
  end.

(** [d.getTime()] *)
Definition getTime (d : option Z) : JsNum :=
  match d with
  | Some t => Num t
  | None => NaN
  end.

(** Value of a decimal digit, if it is one. *)
Definition digit (c : ascii) : option Z :=
  let n := Z.of_nat (nat_of_ascii c) in
  if (48 <=? n) && (n <=? 57) then Some (n - 48) else None.

Fixpoint digits (acc : Z) (s : string) : JsNum :=
  match s with
  | EmptyString => Num acc
  | String c s' =>
      match digit c with
      | Some d => digits (acc * 10 + d) s'
      | None => NaN
      end
  end.

(** White space that [Number] strips: tab, line feed, vertical tab, form
    feed, carriage return, space and the no-break space. *)
Definition is_blank (c : ascii) : bool :=
  let n := Z.of_nat (nat_of_ascii c) in
  ((9 <=? n) && (n <=? 13)) || (n =? 32) || (n =? 160).

Fixpoint skip_blanks (s : string) : string :=
  match s with
  | String c s' => if is_blank c then skip_blanks s' else s
  | EmptyString => EmptyString
  end.

Definition trim (s : string) : string :=
  String.rev (skip_blanks (String.rev (skip_blanks s))).

(** Value of a digit in the given radix (2, 8 or 16), if it is one. *)
Definition radix_digit (radix : Z) (c : ascii) : option Z :=
  let n := Z.of_nat (nat_of_ascii c) in
  let v := if (48 <=? n) && (n <=? 57) then n - 48
           else if (97 <=? n) && (n <=? 102) then n - 87
           else if (65 <=? n) && (n <=? 70) then n - 55
           else radix in
  if v <? radix then Some v else None.

Fixpoint radix_digits (radix acc : Z) (s : string) : JsNum :=
  match s with
  | EmptyString => Num acc
  | String c s' =>
      match radix_digit radix c with
      | Some d => radix_digits radix (acc * radix + d) s'
      | None => NaN
      end
  end.

(** A literal after its prefix or sign: at least one digit. *)
Definition nonempty (read : string → JsNum) (s : string) : JsNum :=
  match s with
  | EmptyString => NaN
  | _ => read s
  end.

Definition negate (x : JsNum) : JsNum :=
  match x with
  | Num z => Num (- z)
  | NaN => NaN
  end.

(** [Number(s)] on the integer literals: white space around the literal
    is stripped, the empty string is [0], a decimal literal may carry a
    sign, and [0x], [0o] and [0b] introduce an unsigned hexadecimal,
    octal or binary literal.  A string that holds no number is [NaN], as
    in JavaScript.  The model is exact where JavaScript numbers are:
    for integers up to [2^53] in magnitude.  Literals written with a
    decimal point or an exponent, and [Infinity], are outside the model
    (they read as [NaN] here); the statements that depend on the parsed
    time of day assume a time written in digits, as the time field of
    the options page writes it. *)
Definition Number (s : string) : JsNum :=
  match trim s with
  | String "-" r => negate (nonempty (digits 0) r)
  | String "+" r => nonempty (digits 0) r
  | String "0" (String "x" r) | String "0" (String "X" r) =>
      nonempty (radix_digits 16 0) r
  | String "0" (String "o" r) | String "0" (String "O" r) =>
      nonempty (radix_digits 8 0) r
  | String "0" (String "b" r) | String "0" (String "B" r) =>
      nonempty (radix_digits 2 0) r
  | t => digits 0 t
  end.

(** [s.split(':')] *)
Fixpoint split_colon (cur : string) (s : string) : list string :=
  match s with
  | EmptyString => [String.rev cur]
  | String c s' =>
      if Ascii.eqb c ":"%char
      then String.rev cur :: split_colon EmptyString s'
      else split_colon (String c cur) s'
  end.

(** [const [hours, minutes] = backupTime.split(':').map(Number)];
    a missing component is [undefined], which [setHours] reads as
    [NaN]. *)
Definition parseBackupTime (backupTime : string) : JsNum * JsNum :=
  let parts := map Number (split_colon EmptyString backupTime) in
  (nth 0 parts NaN, nth 1 parts NaN).

(** The next fire instant both schedulers compute. *)
Definition nextBackup (tz now : Z) (backupTime : string) : option Z :=
  let '(hours, minutes) := parseBackupTime backupTime in
  let next := setHours tz now hours minutes in
  if le next now then nextDay next else next.

End Date.

(** ** The background script *)

Module Background.

Definition DEFAULT_SETTINGS : Settings.t :=
  {| Settings.minDays := 7;
     Settings.maxTabs := 1000;
     Settings.autoBackupEnabled := false;
     Settings.backupTime := "05:00";
     Settings.backupDays := ["Mon"];
     Settings.toleranceHours := 12;
     Settings.excludePrivate := true;
     Settings.excludePinned := false;
     Settings.maxTitleLength := 100;
     Settings.theme := "auto";
     Settings.backupInterval := None |}.

(** The module-level variables of the script. *)
Record t : Type := mk {
  currentSettings : Settings.t;
  tabData : gmap string TrackedTab.t;
  lastAutomaticBackup : option Z
}.

Definition initial : t :=
  {| currentSettings := DEFAULT_SETTINGS;
     tabData := ∅;
     lastAutomaticBackup := None |}.

Definition set_tabData (bg : t) (td : gmap string TrackedTab.t) : t :=
  {| currentSettings := currentSettings bg;
     tabData := td;
     lastAutomaticBackup := lastAutomaticBackup bg |}.

Definition set_lastAutomaticBackup (bg : t) (l : option Z) : t :=
  {| currentSettings := currentSettings bg;
     tabData := tabData bg;
     lastAutomaticBackup := l |}.

Definition set_currentSettings (bg : t) (s : Settings.t) : t :=
  {| currentSettings := s;
     tabData := tabData bg;
     lastAutomaticBackup := lastAutomaticBackup bg |}.

Definition set_storage_tabData (sto : Storage.t) (td : gmap string TrackedTab.t)
  : Storage.t :=
  {| Storage.settings := Storage.settings sto;
     Storage.tabData := Some td;
     Storage.lastAutomaticBackup := Storage.lastAutomaticBackup sto |}.

Definition set_storage_lastAutomaticBackup (sto : Storage.t) (l : option Z)
  : Storage.t :=
  {| Storage.settings := Storage.settings sto;
     Storage.tabData := Storage.tabData sto;
     Storage.lastAutomaticBackup := l |}.

(** [loadSettings]: [readable] is whether [storage.local.get] resolves. *)
Definition loadSettings (readable : bool) (sto : Storage.t) (bg : t) : t :=
  if readable then
    match Storage.settings sto with
    | Some stored => set_currentSettings bg (spread DEFAULT_SETTINGS stored)
    | None => bg
    end
  else set_currentSettings bg DEFAULT_SETTINGS.

(** The property key of a tab identifier. *)
Definition key (tabId : Z) : string := pretty tabId.

(** [saveTabData]: [None] when the write is rejected (the function
    rethrows). *)
Definition saveTabData (h : Host.t) (bg : t) (sto : Storage.t) : option Storage.t :=
  if Host.writable h then Some (set_storage_tabData sto (tabData bg)) else None.

(** *** [handleTabUpdate] *)

(** [tabAgeDays >= currentSettings.minDays], where the age is [NaN]
    (and the test false) when the tab has no [createdAt]. *)
Definition old_enough (s : Settings.t) (now : Z) (tab : Tab.t) : bool :=
  match Tab.createdAt tab with
  | Some c => Qle_bool (inject_Z (Settings.minDays s)) (tabAgeDays now c)
  | None => false
  end.

Definition tracked_record (s : Settings.t) (now : Z) (tab : Tab.t) : TrackedTab.t :=
  {| TrackedTab.title := Some (truncate_title (Settings.maxTitleLength s) (Tab.title tab));
     TrackedTab.url := Tab.url tab;
     TrackedTab.createdAt := Tab.createdAt tab;
     TrackedTab.lastUpdated := Some now;
     TrackedTab.favIconUrl := None;
     TrackedTab.domain := None |}.

Definition handleTabUpdate (h : Host.t) (now : Z)
    (tabId : Z) (status : option string) (tab : Tab.t)
    (bg : t) (sto : Storage.t) : t * Storage.t :=
  let s := currentSettings bg in
  if negb (bool_decide (status = Some "complete")) || negb (is_truthy_str (Tab.url tab))
  then (bg, sto)
  else if Settings.excludePrivate s && Tab.incognito tab then (bg, sto)
  else if Settings.excludePinned s && Tab.pinned tab then (bg, sto)
  else if negb (is_http (Tab.url tab)) then (bg, sto)
  else if old_enough s now tab then
    let bg' := set_tabData bg (<[key tabId := tracked_record s now tab]> (tabData bg)) in
    match saveTabData h bg' sto with
    | Some sto' => (bg', sto')
    | None => (bg', sto)
    end
  else (bg, sto).

(** *** [handleTabRemoved] *)

Definition handleTabRemoved (h : Host.t) (tabId : Z) (bg : t) (sto : Storage.t)
  : t * Storage.t :=
  match tabData bg !! key tabId with
  | Some _ =>
      let bg' := set_tabData bg (delete (key tabId) (tabData bg)) in
      match saveTabData h bg' sto with
      | Some sto' => (bg', sto')
      | None => (bg', sto)
      end
  | None => (bg, sto)
  end.

(** *** [performBackup] *)

(** The three [continue] tests on the tab alone: private, pinned, and
    not an http(s) URL. *)
Definition excluded (s : Settings.t) (tab : Tab.t) : bool :=
  (Settings.excludePrivate s && Tab.incognito tab)
  || (Settings.excludePinned s && Tab.pinned tab)
  || negb (is_http (Tab.url tab)).

(** [tabData[tab.id]?.createdAt || tabData[tab.id]?.lastUpdated || now] *)
Definition seen_since (now : Z) (r : option TrackedTab.t) : Z :=
  match r with
  | Some rec => or_num (TrackedTab.createdAt rec) (or_num (TrackedTab.lastUpdated rec) now)
  | None => now
  end.

(** The age test: made only for [minDays >= 0]. *)
Definition too_young (s : Settings.t) (now : Z)
    (td : gmap string TrackedTab.t) (tab : Tab.t) : bool :=
  if Settings.minDays s >=? 0
  then age_lt (tabAgeDays now (seen_since now (td !! key (Tab.id tab)))) (Settings.minDays s)
  else false.

Definition fresh_record (title : string) (now : Z) (tab : Tab.t) : TrackedTab.t :=
  {| TrackedTab.title := Some title;
     TrackedTab.url := Tab.url tab;
     TrackedTab.createdAt := Some now;
     TrackedTab.lastUpdated := Some now;
     TrackedTab.favIconUrl := Some (or_str (Tab.favIconUrl tab) "");
     TrackedTab.domain := None |}.

Definition refreshed_record (old : TrackedTab.t) (title : string) (now : Z) (tab : Tab.t)
  : TrackedTab.t :=
  {| TrackedTab.title := Some title;
     TrackedTab.url := Tab.url tab;
     TrackedTab.createdAt := TrackedTab.createdAt old;
     TrackedTab.lastUpdated := Some now;
     TrackedTab.favIconUrl :=
       Some (or_str (Tab.favIconUrl tab) (or_str (TrackedTab.favIconUrl old) ""));
     TrackedTab.domain := TrackedTab.domain old |}.

(** The record assigned to [tabData[tab.id]]. *)
Definition upserted_record (s : Settings.t) (now : Z)
    (old : option TrackedTab.t) (tab : Tab.t) : TrackedTab.t :=
  let title := truncate_title (Settings.maxTitleLength s) (Tab.title tab) in
  match old with
  | Some rec =>
      match truthy_num (TrackedTab.createdAt rec) with
      | Some _ => refreshed_record rec title now tab
      | None => fresh_record title now tab
      end
  | None => fresh_record title now tab
  end.

Definition upsert (s : Settings.t) (now : Z)
    (td : gmap string TrackedTab.t) (tab : Tab.t) : gmap string TrackedTab.t :=
  <[key (Tab.id tab) := upserted_record s now (td !! key (Tab.id tab)) tab]> td.

(** State of the [for] loop.  [written] is the sequence of tabs whose
    record was assigned so far (most recent first); the script keeps
    only its length, in [backupCount]. *)
Record Pass : Type := mkPass {
  pass_tabData : gmap string TrackedTab.t;
  backupCount : Z;
  written : list Tab.t
}.

Definition start (td : gmap string TrackedTab.t) : Pass :=
  {| pass_tabData := td; backupCount := 0; written := [] |}.

(** The body of [for (const tab of tabs)], with its [continue]s and its
    [break]. *)
Fixpoint backup_loop (s : Settings.t) (now : Z) (tabs : list Tab.t) (p : Pass) : Pass :=
  match tabs with
  | [] => p
  | tab :: rest =>
      if excluded s tab then backup_loop s now rest p
      else if too_young s now (pass_tabData p) tab then backup_loop s now rest p
      else
        let p' := {| pass_tabData := upsert s now (pass_tabData p) tab;
                     backupCount := backupCount p + 1;
                     written := tab :: written p |} in
        if backupCount p' >=? Settings.maxTabs s then p'
        else backup_loop s now rest p'
  end.

Inductive Result : Type :=
| Success (count : Z) (message : option string)
| Failure.

Record Outcome : Type := mkOutcome {
  out_bg : t;
  out_storage : Storage.t;
  out_result : Result;
  (** tabs whose record was assigned during the pass, in order *)
  out_written : list Tab.t
}.

Definition performBackup (h : Host.t) (now : Z) (bg : t) (sto : Storage.t) : Outcome :=
  match Host.openTabs h with
  | None => mkOutcome bg sto Failure []
  | Some tabs =>
      let p := backup_loop (currentSettings bg) now tabs (start (tabData bg)) in
      let bg' := set_tabData bg (pass_tabData p) in
      match saveTabData h bg' sto with
      | None => mkOutcome bg' sto Failure (rev (written p))
      | Some sto' =>
          if backupCount p =? 0
          then mkOutcome bg' sto' (Success 0 (Some "No tabs to back up")) (rev (written p))
          else mkOutcome bg' sto' (Success (backupCount p) None) (rev (written p))
      end
  end.

(** *** [handleAlarm] *)

Definition daysOfWeek : list string :=
  ["Sun"; "Mon"; "Tue"; "Wed"; "Thu"; "Fri"; "Sat"].

(** [backupDays.includes(today)]; [today] is [undefined] when the index
    is out of range. *)
Definition includes (days : list string) (today : option string) : bool :=
  match today with
  | Some d => existsb (String.eqb d) days
  | None => false
  end.

(** [lastAutomaticBackup && (now - lastAutomaticBackup) < toleranceMs] *)
Definition too_soon (s : Settings.t) (now : Z) (last : option Z) : bool :=
  match truthy_num last with
  | Some l => now - l <? Settings.toleranceHours s * 60 * 60 * 1000
  | None => false
  end.

(** What a firing leaves: the script's variables, the store, and the
    outcome of the pass it ran, if it ran one. *)
Record Fired : Type := mkFired {
  fired_bg : t;
  fired_storage : Storage.t;
  fired_pass : option Outcome
}.

(** [getDay] is [new Date().getDay()], [now] the handler's [Date.now()],
    and [now'] the later reading taken inside [performBackup]. *)
Definition handleAlarm (h : Host.t) (getDay : nat) (now now' : Z)
    (name : string) (bg : t) (sto : Storage.t) : Fired :=
  if negb (String.eqb name "automaticBackup") then mkFired bg sto None
  else if negb (includes (Settings.backupDays (currentSettings bg)) (daysOfWeek !! getDay))
  then mkFired bg sto None
  else if too_soon (currentSettings bg) now (lastAutomaticBackup bg)
  then mkFired bg sto None
  else
    let o := performBackup h now' bg sto in
    let bg' := set_lastAutomaticBackup (out_bg o) (Some now) in
    if Host.writable h
    then mkFired bg' (set_storage_lastAutomaticBackup (out_storage o) (Some now)) (Some o)
    else mkFired bg' (out_storage o) (Some o).

(** *** [scheduleAutomaticBackup] (background script)

    [alarms] is the table of the alarms the extension has asked for, by
    name: [clear] removes the entry, [create] records the [alarmInfo] it
    is given.  Without a [backupInterval] that [alarmInfo] carries a
    period that is not a number; what the browser does with it is not
    modelled. *)

Definition scheduleAutomaticBackup (tz now : Z) (bg : t)
    (alarms : gmap string Alarm.t) : gmap string Alarm.t :=
  let s := currentSettings bg in
  let cleared := delete "automaticBackup" alarms in
  let next := Date.nextBackup tz now (Settings.backupTime s) in
  <["automaticBackup" :=
     {| Alarm.when := Date.getTime next;
        Alarm.periodInMinutes :=
          jsnum_mul (mul_undefined (Settings.backupInterval s) 24) 60 |}]> cleared.

(** *** [handleMessage], action [updateSettings] *)

(** The settings object as it is written to storage. *)
Definition stored_settings (s : Settings.t) : Partial.t :=
  {| Partial.minDays := Some (Settings.minDays s);
     Partial.maxTabs := Some (Settings.maxTabs s);
     Partial.autoBackupEnabled := Some (Settings.autoBackupEnabled s);
     Partial.backupTime := Some (Settings.backupTime s);
     Partial.backupDays := Some (Settings.backupDays s);
     Partial.toleranceHours := Some (Settings.toleranceHours s);
     Partial.excludePrivate := Some (Settings.excludePrivate s);
     Partial.excludePinned := Some (Settings.excludePinned s);
     Partial.maxTitleLength := Some (Settings.maxTitleLength s);
     Partial.theme := Some (Settings.theme s);
     Partial.backupInterval := Settings.backupInterval s |}.

Definition set_storage_settings (sto : Storage.t) (p : Partial.t) : Storage.t :=
  {| Storage.settings := Some p;
     Storage.tabData := Storage.tabData sto;
     Storage.lastAutomaticBackup := Storage.lastAutomaticBackup sto |}.

Definition updateSettings (h : Host.t) (tz now : Z) (message : Partial.t)
    (bg : t) (sto : Storage.t) (alarms : gmap string Alarm.t)
  : t * Storage.t * gmap string Alarm.t :=
  let bg' := set_currentSettings bg (spread (currentSettings bg) message) in
  if Host.writable h then
    let sto' := set_storage_settings sto (stored_settings (currentSettings bg')) in
    if Settings.autoBackupEnabled (currentSettings bg')
    then (bg', sto', scheduleAutomaticBackup tz now bg' alarms)
    else (bg', sto', delete "automaticBackup" alarms)
  else (bg', sto, alarms).

End Background.

(** ** The options page *)

Module Options.

Definition DEFAULT_SETTINGS : Settings.t :=
  {| Settings.minDays := 7;
     Settings.maxTabs := 1000;
     Settings.autoBackupEnabled := false;
     Settings.backupTime := "05:00";
     Settings.backupDays := ["Mon"];
     Settings.toleranceHours := 12;
     Settings.excludePrivate := true;
     Settings.excludePinned := false;
     Settings.maxTitleLength := 100;
     Settings.theme := "auto";
     Settings.backupInterval := None |}.

(** *** [parseInt(s)], no radix given *)

Definition is_space (c : ascii) : bool :=
  let n := nat_of_ascii c in
  (Nat.eqb n 32 || (Nat.leb 9 n && Nat.leb n 13))%bool.

Fixpoint skip_spaces (s : string) : string :=
  match s with
  | String c s' => if is_space c then skip_spaces s' else s
  | EmptyString => s
  end.

(** Value of a digit in the given radix (10 or 16). *)
Definition digit_in (radix : Z) (c : ascii) : option Z :=
  let n := Z.of_nat (nat_of_ascii c) in
  let v :=
    if (48 <=? n) && (n <=? 57) then Some (n - 48)
    else if (97 <=? n) && (n <=? 102) then Some (n - 87)
    else if (65 <=? n) && (n <=? 70) then Some (n - 55)
    else None in
  match v with
  | Some d => if d <? radix then Some d else None
  | None => None
  end.

(** The longest prefix of digits; [acc] is [None] until a digit is read. *)
Fixpoint digits_prefix (radix : Z) (acc : option Z) (s : string) : option Z :=
  match s with
  | String c s' =>
      match digit_in radix c with
      | Some d => digits_prefix radix (Some (default 0 acc * radix + d)) s'
      | None => acc
      end
  | EmptyString => acc
  end.

Definition parseInt (s : string) : JsNum :=
  let s1 := skip_spaces s in
  let '(sign, s2) :=
    match s1 with
    | String "-" r => (-1, r)
    | String "+" r => (1, r)
    | _ => (1, s1)
    end in
  let magnitude :=
    match s2 with
    | String "0" (String "x" r) => digits_prefix 16 None r
    | String "0" (String "X" r) => digits_prefix 16 None r
    | _ => digits_prefix 10 None s2
    end in
  match magnitude with
  | Some m => Num (sign * m)
  | None => NaN
  end.

(** [parseInt(value) || dflt]: [NaN] and [0] give the default. *)
Definition parseInt_or (value : string) (dflt : Z) : Z :=
  match parseInt value with
  | Num 0 => dflt
  | Num z => z
  | NaN => dflt
  end.

(** The values held by the form's controls. *)
Module Form.
Record t : Type := mk {
  minDays : string;
  maxTabs : string;
  autoBackupEnabled : bool;
  backupTime : string;
  (** values of the checked day boxes, in document order *)
  backupDays : list string;
  toleranceHours : string;
  excludePrivate : bool;
  excludePinned : bool;
  maxTitleLength : string;
  theme : string
}.
End Form.

(** The [settings] object collected from the form.  It has no
    [backupInterval] key. *)
Definition collect (f : Form.t) : Settings.t :=
  {| Settings.minDays := parseInt_or (Form.minDays f) (Settings.minDays DEFAULT_SETTINGS);
     Settings.maxTabs := parseInt_or (Form.maxTabs f) (Settings.maxTabs DEFAULT_SETTINGS);
     Settings.autoBackupEnabled := Form.autoBackupEnabled f;
     Settings.backupTime :=
       or_str (Some (Form.backupTime f)) (Settings.backupTime DEFAULT_SETTINGS);
     Settings.backupDays := Form.backupDays f;
     Settings.toleranceHours :=
       parseInt_or (Form.toleranceHours f) (Settings.toleranceHours DEFAULT_SETTINGS);
     Settings.excludePrivate := Form.excludePrivate f;
     Settings.excludePinned := Form.excludePinned f;
     Settings.maxTitleLength :=
       parseInt_or (Form.maxTitleLength f) (Settings.maxTitleLength DEFAULT_SETTINGS);
     Settings.theme := or_str (Some (Form.theme f)) (Settings.theme DEFAULT_SETTINGS);
     Settings.backupInterval := None |}.

(** [x < lo || x > hi] where [x] may be [undefined]: both comparisons
    are then false. *)
Definition outside (x : option Z) (lo hi : Z) : bool :=
  match x with
  | Some z => (z <? lo) || (z >? hi)
  | None => false
  end.

(** The validation block: the message of the first error thrown. *)
Definition validate (s : Settings.t) : option string :=
  if outside (Some (Settings.minDays s)) 1 365
  then Some "Minimum days must be between 1 and 365"
  else if outside (Some (Settings.maxTabs s)) 1 1000
  then Some "Maximum tabs must be between 1 and 1000"
  else if outside (Settings.backupInterval s) 1 30
  then Some "Backup interval must be between 1 and 30 days"
  else if outside (Some (Settings.toleranceHours s)) 1 24
  then Some "Tolerance hours must be between 1 and 24"
  else None.

(** [scheduleAutomaticBackup(settings)] of the options page. *)
Definition scheduleAutomaticBackup (tz now : Z) (s : Settings.t)
    (alarms : gmap string Alarm.t) : gmap string Alarm.t :=
  let next := Date.nextBackup tz now (Settings.backupTime s) in
  <["automaticBackup" :=
     {| Alarm.when := Date.getTime next;
        Alarm.periodInMinutes := Num (24 * 60) |}]> alarms.

Definition cancelAutomaticBackup (alarms : gmap string Alarm.t) : gmap string Alarm.t :=
  delete "automaticBackup" alarms.

(** What [showStatus] displays. *)
Inductive Status : Type :=
| Saved
| ValidationError (message : string)
| HostError.

(** Everything [saveSettings] can touch. *)
Record World : Type := mkWorld {
  storage : Storage.t;
  background : Background.t;
  alarms : gmap string Alarm.t;
  (** number of [storage.local.set] calls issued so far *)
  writes : nat
}.

Definition saveSettings (h : Host.t) (tz now : Z) (f : Form.t) (w : World)
  : World * Status :=
  let settings := collect f in
  match validate settings with
  | Some message => (w, ValidationError message)
  | None =>
      if Host.writable h then
        let sto1 := Background.set_storage_settings (storage w)
                      (Background.stored_settings settings) in
        let '(bg2, sto2, alarms2) :=
          Background.updateSettings h tz now (Background.stored_settings settings)
            (background w) sto1 (alarms w) in
        let alarms3 :=
          if Settings.autoBackupEnabled settings
          then scheduleAutomaticBackup tz now settings alarms2
          else cancelAutomaticBackup alarms2 in
        (mkWorld sto2 bg2 alarms3 (writes w + 2), Saved)
      else (mkWorld (storage w) (background w) (alarms w) (writes w + 1), HostError)
  end.

End Options.

(** ** The tab-log dashboard *)

Module Dashboard.

(** The defaults compiled into [getSettings]. *)
Definition DEFAULT_SETTINGS : Settings.t :=
  {| Settings.minDays := -1;
     Settings.maxTabs := 1000;
     Settings.autoBackupEnabled := false;
     Settings.backupTime := "05:00";
     Settings.backupDays := ["Mon"];
     Settings.toleranceHours := 12;
     Settings.excludePrivate := true;
     Settings.excludePinned := false;
     Settings.maxTitleLength := 100;
     Settings.theme := "auto";
     Settings.backupInterval := None |}.

(** [{ ...DEFAULT_SETTINGS, ...(result.settings || {}) }] *)
Definition getSettings (sto : Storage.t) : Settings.t :=
  spread DEFAULT_SETTINGS (default Partial.empty (Storage.settings sto)).

(** The identifier of a row: the host's number for an open tab, the
    property key for a logged record. *)
Inductive RowId : Type :=
| OpenTab (id : Z)
| LoggedKey (tabId : string).

Record Row : Type := mkRow {
  url : option string;
  title : option string;
  favIconUrl : option string;
  domain : string;
  ageInDays : JsNum;
  tabId : RowId;
  logged : bool;
  createdAt : option Z
}.

(** [openTabsMap[url] = tab] on an object with string keys: a new key
    goes last, an existing key keeps its place. *)
Fixpoint assign (m : list (string * Tab.t)) (k : string) (v : Tab.t)
  : list (string * Tab.t) :=
  match m with
  | [] => [(k, v)]
  | (k', v') :: m' =>
      if String.eqb k' k then (k', v) :: m' else (k', v') :: assign m' k v
  end.

(** The own property [k] of [openTabsMap], if it has one. *)
Fixpoint get (m : list (string * Tab.t)) (k : string) : option Tab.t :=
  match m with
  | [] => None
  | (k', v) :: m' => if String.eqb k' k then Some v else get m' k
  end.

(** The loop that fills [openTabsMap]. *)
Fixpoint fill (openTabs : list Tab.t) (m : list (string * Tab.t))
  : list (string * Tab.t) :=
  match openTabs with
  | [] => m
  | tab :: rest =>
      if is_http (Tab.url tab)
      then fill rest (assign m (default "" (Tab.url tab)) tab)
      else fill rest m
  end.

Definition openTabsMap (openTabs : list Tab.t) : list (string * Tab.t) :=
  fill openTabs [].

(** [loggedUrlSet.has(url)], the set holding every truthy record URL. *)
Definition loggedUrlSet_has (entries : list (string * TrackedTab.t)) (u : string) : bool :=
  existsb (fun e => match truthy_str (TrackedTab.url (snd e)) with
                    | Some u' => String.eqb u' u
                    | None => false
                    end) entries.

(** The first record, in enumeration order, whose [url] is [u]. *)
Definition loggedEntry (entries : list (string * TrackedTab.t)) (u : string)
  : option TrackedTab.t :=
  snd <$> find (fun e => bool_decide (TrackedTab.url (snd e) = Some u)) entries.

(** [Math.floor((now - createdAt) / (24 * 60 * 60 * 1000))] *)
Definition floorAgeInDays (now : Z) (createdAt : option Z) : JsNum :=
  match createdAt with
  | Some c => Num ((now - c) / MS_PER_DAY)
  | None => NaN
  end.

Section Merge.

(** [getDomain]: the host's URL parser, [''] when it throws. *)
Variable getDomain : string -> string.

Definition openRow (now : Z) (entries : list (string * TrackedTab.t))
    (u : string) (tab : Tab.t) : Row :=
  let isLogged := loggedUrlSet_has entries u in
  let entry := if isLogged then loggedEntry entries u else None in
  {| url := Tab.url tab;
     title := Tab.title tab;
     favIconUrl := Tab.favIconUrl tab;
     domain := getDomain (default "" (Tab.url tab));
     ageInDays :=
       match entry with
       | Some e => floorAgeInDays now (TrackedTab.createdAt e)
       | None => Num 0
       end;
     tabId := OpenTab (Tab.id tab);
     logged := isLogged;
     createdAt :=
       match entry with
       | Some e => TrackedTab.createdAt e
       | None =>
           Some (or_num (Tab.lastAccessed tab) (or_num (Tab.lastModified tab) now))
       end |}.

Definition loggedRow (now : Z) (k : string) (rec : TrackedTab.t) : Row :=
  {| url := TrackedTab.url rec;
     title := TrackedTab.title rec;
     favIconUrl := TrackedTab.favIconUrl rec;
     domain :=
       match TrackedTab.url rec with
       | Some u => getDomain u
       | None => ""
       end;
     ageInDays := floorAgeInDays now (TrackedTab.createdAt rec);
     tabId := LoggedKey k;
     logged := true;
     createdAt := TrackedTab.createdAt rec |}.

(** The properties [openTabsMap], a plain object, inherits from
    [Object.prototype].  Each of them reads as a function (or, for
    [__proto__], as the prototype itself), which is truthy.  No
    [http(s)] URL is among them, so the loop that fills [openTabsMap]
    never assigns one. *)
Definition inherited (k : string) : bool :=
  existsb (String.eqb k)
    ["constructor"; "hasOwnProperty"; "isPrototypeOf"; "propertyIsEnumerable";
     "toLocaleString"; "toString"; "valueOf"; "__proto__";
     "__defineGetter__"; "__defineSetter__"; "__lookupGetter__"; "__lookupSetter__"].

(** [openTabsMap[k]] is truthy: an own property (a tab) or an inherited
    one. *)
Definition truthy_at (m : list (string * Tab.t)) (k : string) : bool :=
  match get m k with
  | Some _ => true
  | None => inherited k
  end.

(** [!openTabsMap[loggedTab.url]]; a missing [url] reads the key
    ['undefined']. *)
Definition not_open (m : list (string * Tab.t)) (rec : TrackedTab.t) : bool :=
  negb (truthy_at m (default "undefined" (TrackedTab.url rec))).

(** [combinedTabs] as [loadTabLog] builds it.  [entries] is the
    [for ... in] enumeration of the stored [tabData] object: its keys
    are distinct, and their order is the host's. *)
Definition loadTabLog (now : Z) (entries : list (string * TrackedTab.t))
    (openTabs : list Tab.t) : list Row :=
  let m := openTabsMap openTabs in
  map (fun kv => openRow now entries (fst kv) (snd kv)) m
  ++ map (fun e => loggedRow now (fst e) (snd e))
       (filter (fun e => Is_true (not_open m (snd e))) entries).

End Merge.

(** Number of rows of the merge that show URL [u]. *)
Definition rows_with_url (rows : list Row) (u : string) : nat :=
  List.length (filter (fun r => url r = Some u) rows).

End Dashboard.

(** ** Start of the background script *)

Module Startup.

(** [loadTabData]; [readable] is whether [storage.local.get] resolves. *)
Definition loadTabData (readable : bool) (sto : Storage.t) (bg : Background.t)
  : Background.t :=
  if readable then
    match Storage.tabData sto with
    | Some td =>
        if Nat.ltb 0 (size td)
        then Background.set_tabData bg td
        else Background.set_tabData bg ∅
    | None => Background.set_tabData bg ∅
    end
  else Background.set_tabData bg ∅.

(** [initialize], without the registration of the listeners: the settings
    and the tab data are loaded, and the alarm is scheduled when automatic
    backup is on.  [lastAutomaticBackup] is not read back. *)
Definition initialize (readable : bool) (tz now : Z) (sto : Storage.t)
    (bg : Background.t) (alarms : gmap string Alarm.t)
  : Background.t * gmap string Alarm.t :=
  let bg1 := Background.loadSettings readable sto bg in
  let bg2 := loadTabData readable sto bg1 in
  if Settings.autoBackupEnabled (Background.currentSettings bg2)
  then (bg2, Background.scheduleAutomaticBackup tz now bg2 alarms)
  else (bg2, alarms).

End Startup.

(** ** Messages to the background script *)

Module Messaging.

(** A request: [message.action], and [message.settings] (the empty object
    when the key is missing, which spreads to nothing). *)
Record Message : Type := mkMessage {
  action : option string;
  settings : Partial.t
}.

(** The object answered to [getBackupStatus]. *)
Record BackupStatus : Type := mkStatus {
  tabCount : nat;
  lastBackup : option Z;
  autoBackupEnabled : bool;
  nextBackup : option Z
}.

(** What is passed to [sendResponse]. *)
Inductive Response : Type :=
| CountIs (count : nat)
| BackupResult (result : Background.Result)
| SettingsAre (settings : Settings.t)
| Updated
| StatusIs (status : BackupStatus)
| UnknownAction
| Thrown.

Record Handled : Type := mkHandled {
  bg : Background.t;
  storage : Storage.t;
  alarms : gmap string Alarm.t;
  response : Response
}.

Definition is_action (m : Message) (name : string) : bool :=
  match action m with
  | Some a => String.eqb a name
  | None => false
  end.

(** [handleMessage].  [got] is what the script reads on the answer of
    [browser.alarms.get('automaticBackup')]: the [scheduledTime]s of an
    array-like answer, or [None] when reading [.length] throws. *)
Definition handleMessage (h : Host.t) (tz now : Z) (got : option (list Z))
    (m : Message) (b : Background.t) (sto : Storage.t)
    (al : gmap string Alarm.t) : Handled :=
  if is_action m "getTabCount" then
    mkHandled b sto al (CountIs (size (Background.tabData b)))
  else if is_action m "performBackup" then
    let o := Background.performBackup h now b sto in
    mkHandled (Background.out_bg o) (Background.out_storage o) al
      (BackupResult (Background.out_result o))
  else if is_action m "getSettings" then
    mkHandled b sto al (SettingsAre (Background.currentSettings b))
  else if is_action m "updateSettings" then
    let '(b', sto', al') := Background.updateSettings h tz now (settings m) b sto al in
    mkHandled b' sto' al' (if Host.writable h then Updated else Thrown)
  else if is_action m "getBackupStatus" then
    let status next :=
      {| tabCount := size (Background.tabData b);
         lastBackup := Background.lastAutomaticBackup b;
         autoBackupEnabled := Settings.autoBackupEnabled (Background.currentSettings b);
         nextBackup := next |} in
    if Settings.autoBackupEnabled (Background.currentSettings b) then
      match got with
      | Some (scheduledTime :: _) => mkHandled b sto al (StatusIs (status (Some scheduledTime)))
      | Some [] => mkHandled b sto al (StatusIs (status None))
      | None => mkHandled b sto al Thrown
      end
    else mkHandled b sto al (StatusIs (status None))
  else mkHandled b sto al UnknownAction.

End Messaging.

(** ** The popup *)

Module Popup.

Section Locale.

(** [date.toLocaleTimeString([], { hour: '2-digit', minute: '2-digit' })]
    and [date.toLocaleDateString()], the host's renderings of an instant. *)
Variable toLocaleTimeString : Z → string.
Variable toLocaleDateString : Z → string.

(** [formatDate(date)] of the popup, [now] being [new Date()]. *)
Definition formatDate (now date : Z) : string :=
  let diffDays := (now - date) / (1000 * 60 * 60 * 24) in
  if diffDays =? 0 then "Today at " +:+ toLocaleTimeString date
  else if diffDays =? 1 then "Yesterday at " +:+ toLocaleTimeString date
  else if diffDays <? 7 then pretty diffDays +:+ " days ago"
  else toLocaleDateString date +:+ " " +:+ toLocaleTimeString date.

End Locale.

End Popup.

(** ** The tab-log dashboard: caption, export, and the add/remove button *)

Module TabLog.

(** The double-quote character. *)
Definition quote : ascii := "034"%char.

(** The line feed. *)
Definition newline : ascii := "010"%char.

(** The days shown in the header caption:
    [Math.max(1, Math.min(365, Math.round(minDays)))], where [minDays] is
    the dashboard's merged setting, or the fallback 7 when reading the
    settings throws. *)
Definition captionDays (readable : bool) (sto : Storage.t) : Z :=
  let minDays := if readable then Settings.minDays (Dashboard.getSettings sto) else 7 in
  Z.max 1 (Z.min 365 minDays).

(** The caption text set by [updateHeaderCaption]. *)
Definition updateHeaderCaption (readable : bool) (sto : Storage.t) : string :=
  let days := captionDays readable sto in
  "This browser extension logs all tabs which stay open for " +:+ pretty days
  +:+ " day" +:+ (if days =? 1 then "" else "s")
  +:+ ". You can review, export, or remove them here.".

(** The global [replace] applied to the title: every double quote is
    doubled. *)
Fixpoint csv_escape (s : string) : string :=
  match s with
  | EmptyString => EmptyString
  | String c s' =>
      if Ascii.eqb c quote then String quote (String quote (csv_escape s'))
      else String c (csv_escape s')
  end.

(** A number inside a template literal. *)
Definition show_num (n : JsNum) : string :=
  match n with
  | Num z => pretty z
  | NaN => "NaN"
  end.

Section CsvExport.

(** [formatDate(ts)] of the dashboard: the host's rendering of the date
    and time of an instant ([undefined] included). *)
Variable formatDate : option Z → string.

(** The fields of a line after the title, from the comma on. *)
Definition csvTail (r : Dashboard.Row) : string :=
  "," +:+ String quote (Dashboard.domain r +:+ String quote
  ("," +:+ String quote (formatDate (Dashboard.createdAt r) +:+ String quote
  ("," +:+ show_num (Dashboard.ageInDays r)
  +:+ "," +:+ String quote (default "undefined" (Dashboard.url r)
  +:+ String quote (String newline EmptyString)))))).

(** One line of [exportCSV]. *)
Definition csvLine (r : Dashboard.Row) : string :=
  String quote (csv_escape (or_str (Dashboard.title r) "")
  +:+ String quote (csvTail r)).

(** The text [exportCSV] hands to the download. *)
Definition exportCSV (tabRows : list Dashboard.Row) : string :=
  "Title,Domain,Opened,Age (days),URL" +:+ String newline EmptyString
  +:+ String.concat "" (map csvLine tabRows).

(** A checked box of the table, with the cells of its row that the
    handler reads. *)
Record Checked : Type := mkChecked {
  (** [checkbox.dataset.url] *)
  box_url : string;
  (** [checkbox.dataset.logged === 'true'] *)
  box_logged : bool;
  (** text of the second cell *)
  cell_title : string;
  (** text of the fourth cell *)
  cell_opened : string
}.

(** The box and the cells [renderTable] builds for a row. *)
Definition rendered (r : Dashboard.Row) : Checked :=
  {| box_url := default "undefined" (Dashboard.url r);
     box_logged := Dashboard.logged r;
     cell_title := or_str (Dashboard.title r) "Untitled";
     cell_opened := formatDate (Dashboard.createdAt r) |}.

End CsvExport.

(** The removal loop: [delete] the first record, in enumeration order,
    whose [url] is [u]; [None] when there is none. *)
Fixpoint remove_first (u : string) (entries : list (string * TrackedTab.t))
  : option (list (string * TrackedTab.t)) :=
  match entries with
  | [] => None
  | (k, rec) :: rest =>
      if bool_decide (TrackedTab.url rec = Some u) then Some rest
      else match remove_first u rest with
           | Some rest' => Some ((k, rec) :: rest')
           | None => None
           end
  end.

(** [loggedTabData[k] = rec]: an existing key keeps its place, a new one
    goes last. *)
Fixpoint put (entries : list (string * TrackedTab.t)) (k : string) (rec : TrackedTab.t)
  : list (string * TrackedTab.t) :=
  match entries with
  | [] => [(k, rec)]
  | (k', rec') :: rest =>
      if String.eqb k' k then (k', rec) :: rest else (k', rec') :: put rest k rec
  end.

(** The record written for a box that is not logged. *)
Definition added_record (c : Checked) (now : Z) : TrackedTab.t :=
  {| TrackedTab.title := Some (cell_title c);
     TrackedTab.url := Some (box_url c);
     TrackedTab.createdAt := Some now;
     TrackedTab.lastUpdated := None;
     TrackedTab.favIconUrl := None;
     TrackedTab.domain := Some (cell_opened c) |}.

(** The loop over the checked boxes.  [supply i] is what the host gives
    while box [i] is handled: the identifier
    [Date.now() + Math.random().toString(36).substr(2, 9)] and the reading
    of [Date.now()]. *)
Fixpoint toggle (supply : nat → string * Z) (i : nat) (checked : list Checked)
    (entries : list (string * TrackedTab.t)) (changesMade : bool)
  : list (string * TrackedTab.t) * bool :=
  match checked with
  | [] => (entries, changesMade)
  | c :: rest =>
      if box_logged c then
        match remove_first (box_url c) entries with
        | Some entries' => toggle supply (S i) rest entries' true
        | None => toggle supply (S i) rest entries changesMade
        end
      else
        toggle supply (S i) rest
          (put entries (fst (supply i)) (added_record c (snd (supply i)))) true
  end.

(** What the handler shows. *)
Inductive Notice : Type :=
| PleaseSelect
| Successfully (n : nat)
| ErrorUpdating
| Nothing.

(** [handleAddRemoveCheckedTabs] on the enumeration [entries] of the
    stored [tabData]: the enumeration the store holds afterwards, and the
    notice. *)
Definition handleAddRemoveCheckedTabs (h : Host.t) (supply : nat → string * Z)
    (checked : list Checked) (entries : list (string * TrackedTab.t))
  : list (string * TrackedTab.t) * Notice :=
  match checked with
  | [] => (entries, PleaseSelect)
  | _ =>
      let '(entries', changesMade) := toggle supply 0 checked entries false in
      if changesMade then
        if Host.writable h then (entries', Successfully (List.length checked))
        else (entries, ErrorUpdating)
      else (entries, Nothing)
  end.

End TabLog.

(** ** The options page: filling the form *)

Module OptionsPage.

Section Controls.

(** The values of the [.backup-day] check boxes, in document order. *)
Variable boxes : list string.

(** [loadSettings] of the options page: the form it leaves.  A number
    assigned to a field is held as its decimal text; [readable] is whether
    [storage.local.get] resolves, and [form] is left as it is otherwise. *)
Definition loadSettings (readable : bool) (sto : Storage.t) (form : Options.Form.t)
  : Options.Form.t :=
  if readable then
    let merged := spread Options.DEFAULT_SETTINGS
                    (default Partial.empty (Storage.settings sto)) in
    {| Options.Form.minDays := pretty (Settings.minDays merged);
       Options.Form.maxTabs := pretty (Settings.maxTabs merged);
       Options.Form.autoBackupEnabled := Settings.autoBackupEnabled merged;
       Options.Form.backupTime := Settings.backupTime merged;
       Options.Form.backupDays :=
         List.filter (fun v => existsb (String.eqb v) (Settings.backupDays merged)) boxes;
       Options.Form.toleranceHours := pretty (Settings.toleranceHours merged);
       Options.Form.excludePrivate := Settings.excludePrivate merged;
       Options.Form.excludePinned := Settings.excludePinned merged;
       Options.Form.maxTitleLength := pretty (Settings.maxTitleLength merged);
       Options.Form.theme := Settings.theme merged |}
  else form.

End Controls.

End OptionsPage.

(** ** Vocabulary of the statements *)

(** The test an open tab passes to be written by [performBackup], read on
    the records [td]. *)
Definition qualifies (s : Settings.t) (now : Z)
    (td : gmap string TrackedTab.t) (tab : Tab.t) : bool :=
  negb (Background.excluded s tab) && negb (Background.too_young s now td tab).

(** The number of assignments after which the loop stops: the test
    [backupCount >= maxTabs] comes after the first assignment. *)
Definition cap (s : Settings.t) : nat := Z.to_nat (Z.max 1 (Settings.maxTabs s)).

(** A record with a [createdAt] keeps it, and its [domain]. *)
Definition keeps (r r' : TrackedTab.t) : Prop :=
  TrackedTab.createdAt r' = TrackedTab.createdAt r
  ∧ TrackedTab.domain r' = TrackedTab.domain r.

(** The store holds the tab data the script has in memory. *)
Definition in_sync (bg : Background.t) (sto : Storage.t) : Prop :=
  Storage.tabData sto = Some (Background.tabData bg).

(** Every record of [td] holds an http(s) URL. *)
Definition all_http (td : gmap string TrackedTab.t) : Prop :=
  ∀ k r, td !! k = Some r → is_http (TrackedTab.url r) = true.

(** A reader of a quoted CSV field, after its opening quote: a doubled
    quote stands for one quote, a single one closes the field.  The
    result is the field and the text after the closing quote. *)
Fixpoint read_quoted (s : string) : option (string * string) :=
  match s with
  | EmptyString => None
  | String c s' =>
      if Ascii.eqb c TabLog.quote then
        match s' with
        | String c' s'' =>
            if Ascii.eqb c' TabLog.quote
            then match read_quoted s'' with
                 | Some (field, rest) => Some (String TabLog.quote field, rest)
                 | None => None
                 end
            else Some (EmptyString, s')
        | EmptyString => Some (EmptyString, EmptyString)
        end
      else match read_quoted s' with
           | Some (field, rest) => Some (String c field, rest)
           | None => None
           end
  end.

(** Number of stored records that hold URL [u]. *)
Definition records_with_url (entries : list (string * TrackedTab.t)) (u : string) : nat :=
  List.length (List.filter (fun e => bool_decide (TrackedTab.url (snd e) = Some u)) entries).

(** Every tab written so far in a pass is an open tab that passed the tests
    on the tab alone, and has a record stamped with the time of the pass. *)
Definition stamped (s : Settings.t) (now : Z) (tabs : list Tab.t)
    (p : Background.Pass) : Prop :=
  ∀ tab, In tab (Background.written p) →
    In tab tabs ∧ Background.excluded s tab = false
    ∧ ∃ r, Background.pass_tabData p !! Background.key (Tab.id tab) = Some r
           ∧ TrackedTab.lastUpdated r = Some now.

(** The pass wrote [tab], and the record under its key in [td] is the one
    assigned for an open tab [from] with that identifier ([tab] itself
    when identifiers are distinct): it holds the URL of [from] and its
    title cut to the limit, and is stamped with the time of the pass. *)
Definition upserted (s : Settings.t) (now : Z) (td : gmap string TrackedTab.t)
    (written : list Tab.t) (tab : Tab.t) : Prop :=
  In tab written
  ∧ ∃ r from, td !! Background.key (Tab.id tab) = Some r
      ∧ In from written ∧ Tab.id from = Tab.id tab
      ∧ TrackedTab.url r = Tab.url from
      ∧ TrackedTab.title r
        = Some (truncate_title (Settings.maxTitleLength s) (Tab.title from))
      ∧ TrackedTab.lastUpdated r = Some now.



(** The settings [s] with the [backupInterval] key replaced. *)
Definition with_interval (s : Settings.t) (i : option Z) : Settings.t :=
  {| Settings.minDays := Settings.minDays s;
     Settings.maxTabs := Settings.maxTabs s;
     Settings.autoBackupEnabled := Settings.autoBackupEnabled s;
     Settings.backupTime := Settings.backupTime s;
     Settings.backupDays := Settings.backupDays s;
     Settings.toleranceHours := Settings.toleranceHours s;
     Settings.excludePrivate := Settings.excludePrivate s;
     Settings.excludePinned := Settings.excludePinned s;
     Settings.maxTitleLength := Settings.maxTitleLength s;
     Settings.theme := Settings.theme s;
     Settings.backupInterval := i |}.

(** The settings [s] with the title limit replaced. *)
Definition with_title_limit (s : Settings.t) (limit : Z) : Settings.t :=
  {| Settings.minDays := Settings.minDays s;
     Settings.maxTabs := Settings.maxTabs s;
     Settings.autoBackupEnabled := Settings.autoBackupEnabled s;
     Settings.backupTime := Settings.backupTime s;
     Settings.backupDays := Settings.backupDays s;
     Settings.toleranceHours := Settings.toleranceHours s;
     Settings.excludePrivate := Settings.excludePrivate s;
     Settings.excludePinned := Settings.excludePinned s;
     Settings.maxTitleLength := limit;
     Settings.theme := Settings.theme s;
     Settings.backupInterval := Settings.backupInterval s |}.


(** Every entry of [openTabsMap] is filed under the URL of its tab, and no
    URL is filed twice. *)
Definition filed (m : list (string * Tab.t)) : Prop :=
  NoDup (map fst m) ∧ ∀ kv, In kv m → Tab.url (snd kv) = Some (fst kv).

(** [performBackup] run once per element of [passes], each with its own
    host answers and clock reading. *)
Fixpoint run_passes (passes : list (Host.t * Z)) (bg : Background.t) (sto : Storage.t)
  : Background.t * Storage.t :=
  match passes with
  | [] => (bg, sto)
  | (h, now) :: rest =>
      let o := Background.performBackup h now bg sto in
      run_passes rest (Background.out_bg o) (Background.out_storage o)
  end.

(** ** Concrete inputs used in the examples *)

Module Examples.

(** An ordinary open tab: not private, not pinned. *)
Definition tab (id : Z) (url title : string) : Tab.t :=
  {| Tab.id := id;
     Tab.url := Some url;
     Tab.title := Some title;
     Tab.incognito := false;
     Tab.pinned := false;
     Tab.favIconUrl := None;
     Tab.createdAt := None;
     Tab.lastAccessed := None;
     Tab.lastModified := None |}.

(** The background defaults with three settings replaced. *)
Definition settings (minDays maxTabs maxTitleLength : Z) : Settings.t :=
  spread Background.DEFAULT_SETTINGS
    {| Partial.minDays := Some minDays;
       Partial.maxTabs := Some maxTabs;
       Partial.autoBackupEnabled := None;
       Partial.backupTime := None;
       Partial.backupDays := None;
       Partial.toleranceHours := None;
       Partial.excludePrivate := None;
       Partial.excludePinned := None;
       Partial.maxTitleLength := Some maxTitleLength;
       Partial.theme := None;
       Partial.backupInterval := None |}.

Definition background (s : Settings.t) (td : gmap string TrackedTab.t) : Background.t :=
  {| Background.currentSettings := s;
     Background.tabData := td;
     Background.lastAutomaticBackup := None |}.

Definition host (tabs : list Tab.t) : Host.t :=
  {| Host.openTabs := Some tabs; Host.writable := true |}.

Definition empty_storage : Storage.t :=
  {| Storage.settings := None;
     Storage.tabData := None;
     Storage.lastAutomaticBackup := None |}.

Definition record (url title : string) (createdAt : Z) : TrackedTab.t :=
  {| TrackedTab.title := Some title;
     TrackedTab.url := Some url;
     TrackedTab.createdAt := Some createdAt;
     TrackedTab.lastUpdated := Some createdAt;
     TrackedTab.favIconUrl := Some "";
     TrackedTab.domain := None |}.

Definition tabA : Tab.t := tab 1 "https://a.example/" "Alpha".
Definition tabB : Tab.t := tab 2 "https://b.example/" "Beta".

(** Ten days, in milliseconds. *)
Definition ten_days : Z := 10 * MS_PER_DAY.

End Examples.

(** A form of the options page, and a world for it to act on. *)
Definition sample_form (minDays : string) (autoBackupEnabled : bool) : Options.Form.t :=
  {| Options.Form.minDays := minDays;
     Options.Form.maxTabs := "50";
     Options.Form.autoBackupEnabled := autoBackupEnabled;
     Options.Form.backupTime := "05:00";
     Options.Form.backupDays := ["Mon"; "Thu"];
     Options.Form.toleranceHours := "12";
     Options.Form.excludePrivate := true;
     Options.Form.excludePinned := false;
     Options.Form.maxTitleLength := "100";
     Options.Form.theme := "dark" |}.

Definition sample_world : Options.World :=
  {| Options.storage := Examples.empty_storage;
     Options.background := Background.initial;
     Options.alarms := ∅;
     Options.writes := 0 |}.

(** * Properties *)

Import Background.

(** ** Arithmetic of the age test *)

Lemma age_lt_iff (now createdAt minDays : Z) :
  age_lt (tabAgeDays now createdAt) minDays = (now - createdAt <? minDays * MS_PER_DAY).
Proof.
  unfold age_lt, tabAgeDays, MS_PER_DAY.
  change (24 * 60 * 60 * 1000) with 86400000.
  unfold Qle_bool, Qdiv, Qmult, Qinv, inject_Z. cbn [Qnum Qden].
  rewrite Pos.mul_1_l, !Z.mul_1_r. by rewrite Z.ltb_antisym.
Qed.

Lemma age_of_unseen (now : Z) : (tabAgeDays now (seen_since now None) == 0)%Q.
Proof.
  unfold tabAgeDays, seen_since. rewrite Z.sub_diag. reflexivity.
Qed.

Lemma too_young_unseen (s : Settings.t) (now : Z) (td : gmap string TrackedTab.t) (tab : Tab.t) :
  td !! key (Tab.id tab) = None →
  too_young s now td tab = (0 <? Settings.minDays s).
Proof.
  intros Hnone. unfold too_young. rewrite Hnone, age_lt_iff. cbn [seen_since].
  rewrite Z.sub_diag. unfold MS_PER_DAY.
  destruct (Settings.minDays s >=? 0) eqn:E; lia.
Qed.

Lemma key_inj (a b : Z) : key a = key b → a = b.
Proof. unfold key. apply (inj pretty). Qed.

(** ** The reconciliation loop *)

Lemma upsert_lookup (s : Settings.t) (now : Z) (td : gmap string TrackedTab.t) (tab : Tab.t) :
  upsert s now td tab !! key (Tab.id tab)
  = Some (upserted_record s now (td !! key (Tab.id tab)) tab).
Proof. unfold upsert. apply lookup_insert_eq. Qed.

Lemma upsert_lookup_ne (s : Settings.t) (now : Z) (td : gmap string TrackedTab.t)
    (tab : Tab.t) (k : string) :
  key (Tab.id tab) ≠ k → upsert s now td tab !! k = td !! k.
Proof. intros Hne. unfold upsert. by rewrite lookup_insert_ne. Qed.


(** A key is left alone when every tab that maps to it is skipped on the
    record the key holds. *)
Lemma backup_loop_untouched (s : Settings.t) (now : Z) (k : string)
    (r : option TrackedTab.t) (tabs : list Tab.t) :
  (∀ tab td, In tab tabs → key (Tab.id tab) = k → td !! k = r →
             excluded s tab = true ∨ too_young s now td tab = true) →
  ∀ p, pass_tabData p !! k = r →
       pass_tabData (backup_loop s now tabs p) !! k = r
       ∧ (∀ tab, In tab (written (backup_loop s now tabs p)) →
                 key (Tab.id tab) = k → In tab (written p)).
Proof.
  induction tabs as [|tab rest IH]; intros Hskip p Hp; cbn [backup_loop]; [by split|].
  assert (Hrest : ∀ tab' td, In tab' rest → key (Tab.id tab') = k → td !! k = r →
                    excluded s tab' = true ∨ too_young s now td tab' = true)
    by (intros tab' td Hin; apply Hskip; by right).
  destruct (excluded s tab) eqn:Hex; [by apply IH|].
  destruct (too_young s now (pass_tabData p) tab) eqn:Hyoung; [by apply IH|].
  assert (Hne : key (Tab.id tab) ≠ k).
  { intros Heq. destruct (Hskip tab (pass_tabData p) (or_introl eq_refl) Heq Hp); congruence. }
  set (p' := {| pass_tabData := upsert s now (pass_tabData p) tab;
                backupCount := backupCount p + 1;
                written := tab :: written p |}).
  assert (Hp' : pass_tabData p' !! k = r)
    by (cbn [p' pass_tabData]; by rewrite upsert_lookup_ne).
  assert (Hw : ∀ t, In t (written p') → key (Tab.id t) = k → In t (written p)).
  { cbn [p' written]. intros t [<-|Hin] Hk; [done|exact Hin]. }
  destruct (backupCount p' >=? Settings.maxTabs s); [by split|].
  destruct (IH Hrest p' Hp') as [Hl Hin]. split; [exact Hl|].
  intros t Ht Hk. apply Hw; [|exact Hk]. by apply Hin.
Qed.

Lemma upserted_record_keeps (s : Settings.t) (now : Z) (r : TrackedTab.t) (tab : Tab.t) :
  is_Some (truthy_num (TrackedTab.createdAt r)) →
  keeps r (upserted_record s now (Some r) tab).
Proof.
  intros [c Hc]. unfold upserted_record. rewrite Hc. by split.
Qed.

Lemma backup_loop_keeps (s : Settings.t) (now : Z) (k : string) (r : TrackedTab.t)
    (tabs : list Tab.t) :
  is_Some (truthy_num (TrackedTab.createdAt r)) →
  ∀ p r0, pass_tabData p !! k = Some r0 → keeps r r0 →
          ∃ r', pass_tabData (backup_loop s now tabs p) !! k = Some r' ∧ keeps r r'.
Proof.
  intros Hc. induction tabs as [|tab rest IH]; intros p r0 Hp Hk; cbn [backup_loop]; [by eauto|].
  destruct (excluded s tab); [by eapply IH|].
  destruct (too_young s now (pass_tabData p) tab); [by eapply IH|].
  set (p' := {| pass_tabData := upsert s now (pass_tabData p) tab;
                backupCount := backupCount p + 1;
                written := tab :: written p |}).
  assert (Hp' : ∃ r1, pass_tabData p' !! k = Some r1 ∧ keeps r r1).
  { cbn [p' pass_tabData]. destruct (decide (key (Tab.id tab) = k)) as [<-|Hne].
    - rewrite upsert_lookup, Hp. eexists; split; [done|].
      destruct Hk as [Hk1 Hk2].
      assert (Hc0 : is_Some (truthy_num (TrackedTab.createdAt r0))) by (by rewrite Hk1).
      destruct (upserted_record_keeps s now r0 tab Hc0) as [H1 H2].
      split; congruence.
    - rewrite upsert_lookup_ne by done. eauto. }
  destruct Hp' as (r1 & Hr1 & Hk1).
  destruct (backupCount p' >=? Settings.maxTabs s); [by eauto|].
  by eapply IH.
Qed.

(** The loop never removes a key. *)
Lemma backup_loop_is_Some (s : Settings.t) (now : Z) (k : string) (tabs : list Tab.t) :
  ∀ p, is_Some (pass_tabData p !! k) →
       is_Some (pass_tabData (backup_loop s now tabs p) !! k).
Proof.
  induction tabs as [|tab rest IH]; intros p Hp; cbn [backup_loop]; [done|].
  destruct (excluded s tab); [by apply IH|].
  destruct (too_young s now (pass_tabData p) tab); [by apply IH|].
  set (p' := {| pass_tabData := upsert s now (pass_tabData p) tab;
                backupCount := backupCount p + 1;
                written := tab :: written p |}).
  assert (Hp' : is_Some (pass_tabData p' !! k)).
  { cbn [p' pass_tabData]. unfold upsert. rewrite lookup_insert.
    case_decide; [by eexists|done]. }
  destruct (backupCount p' >=? Settings.maxTabs s); [done|]. by apply IH.
Qed.

Lemma backup_loop_written_mono (s : Settings.t) (now : Z) (tabs : list Tab.t) :
  ∀ p tab, In tab (written p) → In tab (written (backup_loop s now tabs p)).
Proof.
  induction tabs as [|t rest IH]; intros p tab Hin; cbn [backup_loop]; [done|].
  destruct (excluded s t); [by apply IH|].
  destruct (too_young s now (pass_tabData p) t); [by apply IH|].
  cbn [backupCount].
  destruct (backupCount p + 1 >=? Settings.maxTabs s); [by right|].
  apply IH. by right.
Qed.

(** Only the keys of written tabs are assigned. *)
Lemma backup_loop_frame (s : Settings.t) (now : Z) (k : string) (tabs : list Tab.t) :
  ∀ p, (∀ tab, In tab (written (backup_loop s now tabs p)) → key (Tab.id tab) ≠ k) →
       pass_tabData (backup_loop s now tabs p) !! k = pass_tabData p !! k.
Proof.
  induction tabs as [|t rest IH]; intros p; cbn [backup_loop]; [done|].
  destruct (excluded s t); [by apply IH|].
  destruct (too_young s now (pass_tabData p) t); [by apply IH|].
  set (p' := {| pass_tabData := upsert s now (pass_tabData p) t;
                backupCount := backupCount p + 1;
                written := t :: written p |}).
  assert (Hstep : key (Tab.id t) ≠ k → pass_tabData p' !! k = pass_tabData p !! k)
    by (intros Hne; cbn [p' pass_tabData]; by rewrite upsert_lookup_ne).
  destruct (backupCount p' >=? Settings.maxTabs s).
  - intros Hw. apply Hstep, Hw. by left.
  - intros Hw. rewrite IH by done. apply Hstep, Hw.
    apply backup_loop_written_mono. by left.
Qed.


Lemma take_cap_cons {A : Type} (m c : Z) (x : A) (l : list A) :
  c + 1 < m →
  take (Z.to_nat (Z.max 1 (m - c))) (x :: l)
  = x :: take (Z.to_nat (Z.max 1 (m - (c + 1)))) l.
Proof.
  intros Hlt. replace (Z.max 1 (m - c)) with (Z.succ (Z.max 1 (m - (c + 1)))) by lia.
  rewrite Z2Nat.inj_succ by lia. done.
Qed.

Lemma take_cap_one {A : Type} (m c : Z) (x : A) (l : list A) :
  m <= c + 1 →
  take (Z.to_nat (Z.max 1 (m - c))) (x :: l) = [x].
Proof.
  intros Hle. replace (Z.max 1 (m - c)) with 1 by lia. done.
Qed.


(** The same without the age test ([minDays < 0]): no assumption on the
    identifiers is needed. *)
Lemma backup_loop_written_debug (s : Settings.t) (now : Z) (tabs : list Tab.t) :
  Settings.minDays s < 0 →
  ∀ p, rev (written (backup_loop s now tabs p))
       = rev (written p)
         ++ take (Z.to_nat (Z.max 1 (Settings.maxTabs s - backupCount p)))
              (List.filter (fun tab => negb (excluded s tab)) tabs).
Proof.
  intros Hneg.
  assert (Hold : ∀ td tab, too_young s now td tab = false).
  { intros td tab. unfold too_young.
    destruct (Settings.minDays s >=? 0) eqn:E; [lia|done]. }
  induction tabs as [|tab rest IH]; intros p; cbn [backup_loop List.filter].
  { by rewrite take_nil, app_nil_r. }
  rewrite Hold.
  destruct (excluded s tab); cbn [negb]; [by apply IH|].
  cbn [backupCount].
  destruct (backupCount p + 1 >=? Settings.maxTabs s) eqn:Hcap.
  - cbn [written rev]. rewrite take_cap_one by lia. done.
  - rewrite IH; cbn [written backupCount rev].
    rewrite take_cap_cons by lia. by rewrite <- app_assoc.
Qed.

Lemma age_lt_Qlt (age : Q) (minDays : Z) :
  age_lt age minDays = true ↔ (age < inject_Z minDays)%Q.
Proof.
  unfold age_lt. rewrite negb_true_iff. split.
  - intros Hb. apply Qnot_le_lt. intros Hle.
    apply Qle_bool_iff in Hle. congruence.
  - intros Hlt. destruct (Qle_bool (inject_Z minDays) age) eqn:E; [|done].
    apply Qle_bool_iff in E. by apply Qlt_not_le in Hlt.
Qed.

(** The instant the age is counted from: the record's [createdAt] when it
    has one, the present for a tab never seen. *)
Lemma seen_since_createdAt (now c : Z) (r : TrackedTab.t) :
  TrackedTab.createdAt r = Some c → c ≠ 0 → seen_since now (Some r) = c.
Proof.
  intros Hc Hnz. unfold seen_since, or_num, truthy_num. rewrite Hc.
  destruct (c =? 0) eqn:E; [lia|done].
Qed.

Lemma seen_since_lastUpdated (now u : Z) (r : TrackedTab.t) :
  truthy_num (TrackedTab.createdAt r) = None →
  TrackedTab.lastUpdated r = Some u → u ≠ 0 → seen_since now (Some r) = u.
Proof.
  intros Hc Hu Hnz. unfold seen_since, or_num. rewrite Hc, Hu. cbn [truthy_num].
  destruct (u =? 0) eqn:E; [lia|done].
Qed.

Lemma seen_since_unseen (now : Z) : seen_since now None = now.
Proof. reflexivity. Qed.

(** What an assignment of the pass puts in the record. *)
Lemma upserted_record_fields (s : Settings.t) (now : Z) (old : option TrackedTab.t)
    (tab : Tab.t) :
  TrackedTab.url (upserted_record s now old tab) = Tab.url tab
  ∧ TrackedTab.title (upserted_record s now old tab)
    = Some (truncate_title (Settings.maxTitleLength s) (Tab.title tab))
  ∧ TrackedTab.lastUpdated (upserted_record s now old tab) = Some now.
Proof.
  unfold upserted_record.
  destruct old as [rec|]; [destruct (truthy_num (TrackedTab.createdAt rec))|]; done.
Qed.

(** Every tab the loop has written has its record in the map the loop
    leaves. *)
Lemma backup_loop_upserted (s : Settings.t) (now : Z) (tabs : list Tab.t) :
  ∀ p, (∀ t, In t (written p) → upserted s now (pass_tabData p) (written p) t) →
       ∀ t, In t (written (backup_loop s now tabs p)) →
            upserted s now (pass_tabData (backup_loop s now tabs p))
              (written (backup_loop s now tabs p)) t.
Proof.
  induction tabs as [|tab rest IH]; intros p Hp; cbn [backup_loop]; [exact Hp|].
  destruct (excluded s tab); [by apply IH|].
  destruct (too_young s now (pass_tabData p) tab); [by apply IH|].
  set (p' := {| pass_tabData := upsert s now (pass_tabData p) tab;
                backupCount := backupCount p + 1;
                written := tab :: written p |}).
  assert (Hp' : ∀ t, In t (written p') →
                  upserted s now (pass_tabData p') (written p') t).
  { intros t Ht. split; [exact Ht|]. cbn [p' pass_tabData written] in *.
    destruct (decide (key (Tab.id tab) = key (Tab.id t))) as [Hk|Hk].
    - exists (upserted_record s now (pass_tabData p !! key (Tab.id tab)) tab), tab.
      destruct (upserted_record_fields s now (pass_tabData p !! key (Tab.id tab)) tab)
        as (Hu & Hti & Hl).
      rewrite <- Hk, upsert_lookup.
      split; [done|]. split; [by left|]. split; [by apply key_inj|]. done.
    - destruct Ht as [->|Ht]; [done|].
      destruct (Hp t Ht) as (_ & r & from & Hr & Hfrom & Hid & Hfields).
      exists r, from. rewrite upsert_lookup_ne by done.
      split; [done|]. split; [by right|]. done. }
  destruct (backupCount p' >=? Settings.maxTabs s); [exact Hp'|by apply IH].
Qed.


(** ** The minimum age in a pass *)

(** C1, first half as stated and second half as the code has it.  With a
    non-negative minimum, an open tab whose age in days is strictly below
    the minimum is not written and its key is left as it was; the age is
    counted from the record's [createdAt], failing that from its
    [lastUpdated], and is zero for a tab without a record.  With a negative
    minimum the age is not looked at: the pass writes the tabs that pass
    the private/pinned/URL tests in order, up to the point where the
    counter meets [maxTabs], and each of them then has its record in
    [tabData], with its URL, its title cut to the limit and the time of
    the pass; hence all of them when they are no more than that. *)
Theorem performBackup_minimum_age (h : Host.t) (now : Z) (bg : Background.t)
    (sto : Storage.t) (tabs : list Tab.t) :
  Host.openTabs h = Some tabs →
  let s := currentSettings bg in
  let o := performBackup h now bg sto in
  let passing := List.filter (fun tab => negb (excluded s tab)) tabs in
  (0 <= Settings.minDays s →
   ∀ tab, In tab tabs →
     (tabAgeDays now (seen_since now (tabData bg !! key (Tab.id tab)))
      < inject_Z (Settings.minDays s))%Q →
     ¬ In tab (out_written o)
     ∧ tabData (out_bg o) !! key (Tab.id tab) = tabData bg !! key (Tab.id tab))
  ∧ (Settings.minDays s < 0 →
     out_written o = take (cap s) passing
     ∧ ∀ tab, In tab (take (cap s) passing) →
         upserted s now (tabData (out_bg o)) (out_written o) tab)
  ∧ (Settings.minDays s < 0 → (List.length passing <= cap s)%nat →
     ∀ tab, In tab tabs → excluded s tab = false →
       upserted s now (tabData (out_bg o)) (out_written o) tab).
Proof.
  intros Htabs s o passing.
  set (p := backup_loop s now tabs (start (tabData bg))).
  assert (Hw : out_written o = rev (written p)).
  { subst o p s. unfold performBackup. rewrite Htabs.
    destruct (saveTabData _ _ _); [|done]. by destruct (backupCount _ =? 0). }
  assert (Htd : tabData (out_bg o) = pass_tabData p).
  { subst o p s. unfold performBackup. rewrite Htabs.
    destruct (saveTabData _ _ _); [|done]. by destruct (backupCount _ =? 0). }
  assert (Hdebug : Settings.minDays s < 0 → out_written o = take (cap s) passing).
  { intros Hneg. rewrite Hw. subst p.
    rewrite (backup_loop_written_debug s now tabs Hneg). cbn [start written rev backupCount].
    rewrite app_nil_l, Z.sub_0_r. done. }
  assert (Hstored : ∀ tab, In tab (out_written o) →
            upserted s now (tabData (out_bg o)) (out_written o) tab).
  { intros tab Hin. rewrite Hw in Hin. apply in_rev in Hin.
    destruct (backup_loop_upserted s now tabs (start (tabData bg))
                ltac:(by intros t []) tab Hin)
      as (_ & r & from & Hr & Hfrom & Hrest).
    fold p in Hr, Hfrom. rewrite Hw, Htd.
    split; [by apply in_rev in Hin|].
    exists r, from. split; [done|]. split; [by apply in_rev in Hfrom|done]. }
  split; [|split].
  - intros Hmin tab Hin Hage. rewrite Hw, Htd.
    destruct (backup_loop_untouched s now (key (Tab.id tab))
                (tabData bg !! key (Tab.id tab)) tabs) with (p := start (tabData bg))
      as [Hl Hnw]; [|done|].
    + intros t td _ Hk Hr. right. unfold too_young.
      rewrite Hk, Hr.
      destruct (Settings.minDays s >=? 0) eqn:E; [|lia].
      by apply age_lt_Qlt.
    + split; [|exact Hl]. intros Hin'. apply in_rev in Hin'.
      by apply (Hnw tab Hin' eq_refl).
  - intros Hneg. split; [by apply Hdebug|].
    intros tab Hin. apply Hstored. by rewrite (Hdebug Hneg).
  - intros Hneg Hlen tab Hin Hex. apply Hstored. rewrite (Hdebug Hneg).
    rewrite firstn_all2 by exact Hlen. subst passing.
    apply filter_In. by rewrite Hex.
Qed.

(** The theorem at two tabs.  With a minimum of seven days, the tab
    without a record is not written.  With a negative minimum the same
    tab is written, and its record is in [tabData]. *)
Lemma performBackup_minimum_age_witness :
  let tabs := [Examples.tabA; Examples.tabB] in
  let td := {[ key 1 := Examples.record "https://a.example/" "Alpha" 1000 ]} in
  let bg := Examples.background (Examples.settings 7 1000 100) td in
  let o := performBackup (Examples.host tabs) (1000 + Examples.ten_days) bg
             Examples.empty_storage in
  let bg' := Examples.background (Examples.settings (-1) 1000 100) ∅ in
  let o' := performBackup (Examples.host tabs) 1000 bg' Examples.empty_storage in
  (¬ In Examples.tabB (out_written o)
   ∧ tabData (out_bg o) !! key 2 = tabData bg !! key 2)
  ∧ upserted (Examples.settings (-1) 1000 100) 1000 (tabData (out_bg o'))
      (out_written o') Examples.tabB.
Proof.
  intros tabs td bg o bg' o'. split.
  - destruct (performBackup_minimum_age (Examples.host tabs) (1000 + Examples.ten_days) bg
                Examples.empty_storage tabs eq_refl) as [Hyoung _].
    apply (Hyoung ltac:(vm_compute; discriminate) Examples.tabB).
    + right. by left.
    + vm_compute. reflexivity.
  - destruct (performBackup_minimum_age (Examples.host tabs) 1000 bg'
                Examples.empty_storage tabs eq_refl) as (_ & _ & Hall).
    apply (Hall ltac:(vm_compute; reflexivity) ltac:(vm_compute; lia) Examples.tabB).
    + right. by left.
    + vm_compute. reflexivity.
Defined.

(** C1 as stated fails on its second half: with a negative minimum and
    [maxTabs = 1], the second of two ordinary http tabs passes the
    private/pinned/URL tests and is not written: the first tab has its
    record in [tabData], the second has none. *)
Lemma debug_mode_stops_at_cap :
  let s := Examples.settings (-1) 1 100 in
  let tabs := [Examples.tabA; Examples.tabB] in
  let bg := Examples.background s ∅ in
  let o := performBackup (Examples.host tabs) 1000 bg Examples.empty_storage in
  Settings.minDays s < 0
  ∧ In Examples.tabB tabs
  ∧ excluded s Examples.tabB = false
  ∧ out_written o = [Examples.tabA]
  ∧ ¬ In Examples.tabB (out_written o)
  ∧ tabData (out_bg o) !! key 1
    = Some (upserted_record s 1000 None Examples.tabA)
  ∧ tabData (out_bg o) !! key 2 = None.
Proof.
  cbv zeta. split; [done|]. split; [right; by left|]. split; [done|].
  assert (Hw : out_written
                 (performBackup (Examples.host [Examples.tabA; Examples.tabB]) 1000
                    (Examples.background (Examples.settings (-1) 1 100) ∅)
                    Examples.empty_storage) = [Examples.tabA])
    by (vm_compute; reflexivity).
  split; [exact Hw|]. split; [|split].
  - rewrite Hw. intros [Heq|[]]. discriminate Heq.
  - vm_compute. reflexivity.
  - vm_compute. reflexivity.
Qed.

(** What [performBackup] leaves in memory and in its trace, in terms of
    the loop. *)
Lemma performBackup_loop (h : Host.t) (now : Z) (bg : Background.t) (sto : Storage.t)
    (tabs : list Tab.t) :
  Host.openTabs h = Some tabs →
  let p := backup_loop (currentSettings bg) now tabs (start (tabData bg)) in
  let o := performBackup h now bg sto in
  out_written o = rev (written p)
  ∧ tabData (out_bg o) = pass_tabData p
  ∧ currentSettings (out_bg o) = currentSettings bg
  ∧ lastAutomaticBackup (out_bg o) = lastAutomaticBackup bg
  ∧ (Host.writable h = true →
     out_result o = if backupCount p =? 0
                    then Success 0 (Some "No tabs to back up")
                    else Success (backupCount p) None)
  ∧ (Host.writable h = false → out_result o = Failure ∧ out_storage o = sto).
Proof.
  intros Htabs p o. subst o p. unfold performBackup, saveTabData. rewrite Htabs.
  cbn [tabData set_tabData].
  destruct (Host.writable h); [destruct (backupCount _ =? 0)|]; cbn; by repeat split.
Qed.

Lemma performBackup_no_tabs (h : Host.t) (now : Z) (bg : Background.t) (sto : Storage.t) :
  Host.openTabs h = None →
  performBackup h now bg sto = mkOutcome bg sto Failure [].
Proof. intros Hnone. unfold performBackup. by rewrite Hnone. Qed.

(** ** A positive minimum creates no record *)

(** C9.  With a minimum age strictly above zero, an open tab that has no
    record is not written and still has none after the pass; the keys of
    [tabData] after the pass are the keys before it. *)
Theorem positive_minimum_creates_no_record (h : Host.t) (now : Z)
    (bg : Background.t) (sto : Storage.t) :
  0 < Settings.minDays (currentSettings bg) →
  let o := performBackup h now bg sto in
  (∀ tabs tab, Host.openTabs h = Some tabs → In tab tabs →
     tabData bg !! key (Tab.id tab) = None →
     ¬ In tab (out_written o) ∧ tabData (out_bg o) !! key (Tab.id tab) = None)
  ∧ dom (tabData (out_bg o)) = dom (tabData bg).
Proof.
  intros Hmin o.
  assert (Hnone : ∀ tabs k, tabData bg !! k = None →
            pass_tabData (backup_loop (currentSettings bg) now tabs (start (tabData bg))) !! k
            = None
            ∧ ∀ tab, In tab (written (backup_loop (currentSettings bg) now tabs
                                        (start (tabData bg)))) →
                     key (Tab.id tab) = k → False).
  { intros tabs k Hk.
    destruct (backup_loop_untouched (currentSettings bg) now k None tabs)
      with (p := start (tabData bg)) as [Hl Hw]; [|done|].
    - intros tab td _ Hkey Htd. right. subst k. rewrite too_young_unseen by done. lia.
    - split; [done|]. intros tab Hin Hkey. exact (Hw tab Hin Hkey). }
  destruct (Host.openTabs h) as [tabs|] eqn:Htabs.
  - destruct (performBackup_loop h now bg sto tabs Htabs) as (Hw & Htd & _).
    fold o in Hw, Htd. split.
    + intros tabs' tab [= <-] Hin Hk. destruct (Hnone tabs _ Hk) as [Hl Hnw].
      rewrite Hw, Htd. split; [|done].
      intros Hin'. apply in_rev in Hin'. by apply (Hnw tab Hin').
    + rewrite Htd. apply set_eq. intros k. rewrite !elem_of_dom. split.
      * intros Hsome. destruct (tabData bg !! k) eqn:Hk; [by eexists|].
        destruct (Hnone tabs k Hk) as [Hl _]. rewrite Hl in Hsome. by destruct Hsome.
      * intros Hsome. by apply backup_loop_is_Some.
  - subst o. rewrite performBackup_no_tabs by done. split; [|done].
    intros tabs tab Habs. discriminate Habs.
Qed.

(** The theorem with a minimum of seven days, at a tab without a record. *)
Lemma positive_minimum_creates_no_record_witness :
  let tabs := [Examples.tabA; Examples.tabB] in
  let td := {[ key 1 := Examples.record "https://a.example/" "Alpha" 1000 ]} in
  let bg := Examples.background (Examples.settings 7 1000 100) td in
  let o := performBackup (Examples.host tabs) (1000 + Examples.ten_days) bg
             Examples.empty_storage in
  (¬ In Examples.tabB (out_written o) ∧ tabData (out_bg o) !! key 2 = None)
  ∧ dom (tabData (out_bg o)) = dom td.
Proof.
  intros tabs td bg o.
  destruct (positive_minimum_creates_no_record (Examples.host tabs)
              (1000 + Examples.ten_days) bg Examples.empty_storage)
    as [Hnew Hdom]; [vm_compute; reflexivity|].
  split; [|exact Hdom].
  apply (Hnew tabs Examples.tabB eq_refl).
  - right. by left.
  - vm_compute. reflexivity.
Defined.

(** ** What a pass keeps of a record *)

Lemma performBackup_keeps (h : Host.t) (now : Z) (bg : Background.t) (sto : Storage.t)
    (k : string) (r r0 : TrackedTab.t) :
  is_Some (truthy_num (TrackedTab.createdAt r)) →
  tabData bg !! k = Some r0 → keeps r r0 →
  ∃ r', tabData (out_bg (performBackup h now bg sto)) !! k = Some r' ∧ keeps r r'.
Proof.
  intros Hc Hk Hkeeps. destruct (Host.openTabs h) as [tabs|] eqn:Htabs.
  - destruct (performBackup_loop h now bg sto tabs Htabs) as (_ & Htd & _).
    rewrite Htd. by eapply backup_loop_keeps.
  - rewrite performBackup_no_tabs by done. eauto.
Qed.

(** C2, as the code has it.  A record that holds a non-zero [createdAt]
    keeps that [createdAt], and its [domain], through any number of
    passes, whatever the hosts answer and whichever tabs are written;
    the fields a pass may change are [title], [url], [lastUpdated] and
    [favIconUrl]. *)
Theorem createdAt_preserved (passes : list (Host.t * Z)) (bg : Background.t)
    (sto : Storage.t) (k : string) (r : TrackedTab.t) :
  tabData bg !! k = Some r →
  is_Some (truthy_num (TrackedTab.createdAt r)) →
  ∃ r', tabData (fst (run_passes passes bg sto)) !! k = Some r'
        ∧ TrackedTab.createdAt r' = TrackedTab.createdAt r
        ∧ TrackedTab.domain r' = TrackedTab.domain r.
Proof.
  intros Hk Hc.
  assert (Hgen : ∀ bg0 sto0 r0, tabData bg0 !! k = Some r0 → keeps r r0 →
            ∃ r', tabData (fst (run_passes passes bg0 sto0)) !! k = Some r' ∧ keeps r r').
  { induction passes as [|[h now] rest IH]; intros bg0 sto0 r0 Hk0 Hkeeps;
      cbn [run_passes fst]; [by eauto|].
    destruct (performBackup_keeps h now bg0 sto0 k r r0 Hc Hk0 Hkeeps) as (r1 & Hk1 & Hkeeps1).
    by eapply IH. }
  destruct (Hgen bg sto r Hk) as (r' & Hr' & Hc' & Hd'); [by split|].
  by exists r'.
Qed.

(** The theorem at a record created at instant 1000 and refreshed by two
    passes. *)
Lemma createdAt_preserved_witness :
  let td := {[ key 1 := Examples.record "https://a.example/" "Alpha" 1000 ]} in
  let bg := Examples.background (Examples.settings 7 1000 100) td in
  let passes := [(Examples.host [Examples.tabA], 1000 + Examples.ten_days);
                 (Examples.host [Examples.tabA], 1000 + 2 * Examples.ten_days)] in
  ∃ r', tabData (fst (run_passes passes bg Examples.empty_storage)) !! key 1 = Some r'
        ∧ TrackedTab.createdAt r' = Some 1000
        ∧ TrackedTab.domain r' = None.
Proof.
  intros td bg passes.
  apply (createdAt_preserved passes bg Examples.empty_storage (key 1)
           (Examples.record "https://a.example/" "Alpha" 1000)).
  - vm_compute. reflexivity.
  - vm_compute. eexists. reflexivity.
Defined.

(** C2 as stated fails on "only lastUpdated, title and favicon change":
    a pass also overwrites [url].  The record of tab 1 holds
    [https://a.example/]; the tab now shows [https://b.example/]. *)
Lemma pass_overwrites_url :
  let r := Examples.record "https://a.example/" "Alpha" 1000 in
  let td := {[ key 1 := r ]} in
  let bg := Examples.background (Examples.settings 7 1000 100) td in
  let moved := Examples.tab 1 "https://b.example/" "Alpha" in
  let o := performBackup (Examples.host [moved]) (1000 + Examples.ten_days) bg
             Examples.empty_storage in
  tabData bg !! key 1 = Some r
  ∧ out_written o = [moved]
  ∧ ∃ r', tabData (out_bg o) !! key 1 = Some r'
          ∧ TrackedTab.createdAt r' = TrackedTab.createdAt r
          ∧ TrackedTab.url r = Some "https://a.example/"
          ∧ TrackedTab.url r' = Some "https://b.example/"
          ∧ TrackedTab.url r' ≠ TrackedTab.url r.
Proof.
  cbv zeta. split; [vm_compute; reflexivity|]. split; [vm_compute; reflexivity|].
  eexists. split; [vm_compute; reflexivity|].
  cbn. repeat split. discriminate.
Qed.

(** ** The cap on a pass *)





(** The cap is tested after the first assignment.  A [maxTabs] of zero,
    which the options page never stores (an empty or zero field falls
    back to the default, and values below one are refused), would let
    one tab through. *)
Lemma zero_cap_writes_one :
  let s := Examples.settings (-1) 0 100 in
  let tabs := [Examples.tabA; Examples.tabB] in
  let bg := Examples.background s ∅ in
  let o := performBackup (Examples.host tabs) 1000 bg Examples.empty_storage in
  Settings.maxTabs s = 0
  ∧ List.length (List.filter (qualifies s 1000 (tabData bg)) tabs) = 2%nat
  ∧ out_written o = [Examples.tabA]
  ∧ Z.of_nat (List.length (out_written o)) ≠ Settings.maxTabs s
  ∧ out_result o = Success 1 None.
Proof.
  cbv zeta. repeat split; try (vm_compute; reflexivity).
  vm_compute. discriminate.
Qed.

(** ** Stored titles *)

Lemma length_append (a b : string) :
  String.length (a +:+ b) = (String.length a + String.length b)%nat.
Proof.
  induction a as [|c a IH]; [done|].
  change (String c a +:+ b) with (String c (a +:+ b)).
  cbn [String.length Nat.add]. by rewrite IH.
Qed.

Lemma length_substring0 (n : nat) (s : string) :
  String.length (String.substring 0 n s) = Nat.min n (String.length s).
Proof.
  revert n. induction s as [|c s IH]; intros [|n]; cbn; try done.
  by rewrite IH.
Qed.

Lemma truncate_long (maxTitleLength : Z) (t : string) :
  maxTitleLength < JS.length t →
  truncate_title maxTitleLength (Some t) = substring0 t maxTitleLength +:+ "..."
  ∧ JS.length (truncate_title maxTitleLength (Some t)) = Z.max 0 maxTitleLength + 3.
Proof.
  intros Hlong.
  assert (Hor : or_str (Some t) "" = t) by (by destruct t).
  assert (Heq : truncate_title maxTitleLength (Some t)
                = substring0 t maxTitleLength +:+ "...").
  { unfold truncate_title. rewrite Hor.
    destruct (JS.length t >? maxTitleLength) eqn:E; [done|lia]. }
  split; [exact Heq|]. rewrite Heq. unfold JS.length, substring0 in *.
  rewrite length_append, length_substring0. cbn [String.length]. lia.
Qed.

Lemma truncate_short (maxTitleLength : Z) (t : string) :
  JS.length t <= maxTitleLength →
  truncate_title maxTitleLength (Some t) = t.
Proof.
  intros Hshort.
  assert (Hor : or_str (Some t) "" = t) by (by destruct t).
  unfold truncate_title. rewrite Hor.
  destruct (JS.length t >? maxTitleLength) eqn:E; [lia|done].
Qed.

Lemma upserted_record_title (s : Settings.t) (now : Z) (old : option TrackedTab.t)
    (tab : Tab.t) :
  TrackedTab.title (upserted_record s now old tab)
  = Some (truncate_title (Settings.maxTitleLength s) (Tab.title tab)).
Proof.
  unfold upserted_record. destruct old as [rec|]; [|done].
  by destruct (truthy_num (TrackedTab.createdAt rec)).
Qed.

(** The tracker assigns [tracked_record] when the event qualifies. *)
Lemma handleTabUpdate_tracks (h : Host.t) (now tabId : Z) (tab : Tab.t)
    (bg : Background.t) (sto : Storage.t) :
  is_http (Tab.url tab) = true →
  Settings.excludePrivate (currentSettings bg) && Tab.incognito tab = false →
  Settings.excludePinned (currentSettings bg) && Tab.pinned tab = false →
  old_enough (currentSettings bg) now tab = true →
  tabData (fst (handleTabUpdate h now tabId (Some "complete") tab bg sto)) !! key tabId
  = Some (tracked_record (currentSettings bg) now tab).
Proof.
  intros Hhttp Hpriv Hpin Hold. unfold handleTabUpdate.
  rewrite Hhttp, Hpriv, Hpin, Hold.
  assert (Hurl : is_truthy_str (Tab.url tab) = true).
  { unfold is_http in Hhttp. unfold is_truthy_str.
    by destruct (truthy_str (Tab.url tab)). }
  rewrite Hurl. rewrite bool_decide_eq_true_2 by done. cbn [negb orb].
  destruct (saveTabData _ _ _); cbn [fst tabData set_tabData]; apply lookup_insert_eq.
Qed.

(** C7, as the code has it.  The tracker (the record [handleTabUpdate]
    assigns) and a pass (the record an upsert leaves under the tab's key)
    store the same title.  A title longer than [maxTitleLength] is stored
    as its first [maxTitleLength] characters followed by the
    three-character marker ["..."], so the stored title is
    [max 0 maxTitleLength + 3] characters long, three more than the
    configured maximum; a title at or under the limit is stored
    unchanged. *)
Theorem stored_title_truncation (s : Settings.t) (now : Z)
    (td : gmap string TrackedTab.t) (tab : Tab.t) (t : string) :
  Tab.title tab = Some t →
  let limit := Settings.maxTitleLength s in
  ∃ stored,
    TrackedTab.title (tracked_record s now tab) = Some stored
    ∧ (TrackedTab.title <$> upsert s now td tab !! key (Tab.id tab)) = Some (Some stored)
    ∧ (limit < JS.length t →
       stored = substring0 t limit +:+ "..."
       ∧ JS.length stored = Z.max 0 limit + 3)
    ∧ (JS.length t <= limit → stored = t).
Proof.
  intros Ht limit. exists (truncate_title limit (Some t)).
  rewrite upsert_lookup. cbn [fmap option_fmap option_map].
  rewrite upserted_record_title. cbn [tracked_record TrackedTab.title]. rewrite Ht.
  repeat split; try done.
  - by apply truncate_long.
  - by apply truncate_long.
  - by apply truncate_short.
Qed.

(** The theorem at the five-character title of [tabA] with a limit of
    three. *)
Lemma stored_title_truncation_witness :
  let s := Examples.settings 7 1000 3 in
  ∃ stored,
    TrackedTab.title (tracked_record s 1000 Examples.tabA) = Some stored
    ∧ (TrackedTab.title <$> upsert s 1000 ∅ Examples.tabA !! key 1) = Some (Some stored)
    ∧ (3 < JS.length "Alpha" →
       stored = substring0 "Alpha" 3 +:+ "..." ∧ JS.length stored = Z.max 0 3 + 3)
    ∧ (JS.length "Alpha" <= 3 → stored = "Alpha").
Proof.
  intros s.
  apply (stored_title_truncation s 1000 ∅ Examples.tabA "Alpha").
  reflexivity.
Defined.

(** C7 as stated fails on the bound: the marker is appended after the
    cut.  With a limit of five, the eight-character title ["abcdefgh"] is
    stored by a pass, and by the tracker, as ["abcde..."], which is eight
    characters long. *)
Lemma stored_title_exceeds_limit :
  let s := Examples.settings (-1) 1000 5 in
  let opened := Examples.tab 1 "https://a.example/" "abcdefgh" in
  let seen_long_ago :=
    {| Tab.id := 1;
       Tab.url := Some "https://a.example/";
       Tab.title := Some "abcdefgh";
       Tab.incognito := false;
       Tab.pinned := false;
       Tab.favIconUrl := None;
       Tab.createdAt := Some 0;
       Tab.lastAccessed := None;
       Tab.lastModified := None |} in
  let bg := Examples.background s ∅ in
  let o := performBackup (Examples.host [opened]) 1000 bg Examples.empty_storage in
  let u := handleTabUpdate (Examples.host [opened]) 1000 1 (Some "complete") seen_long_ago
             bg Examples.empty_storage in
  (TrackedTab.title <$> tabData (out_bg o) !! key 1) = Some (Some "abcde...")
  ∧ (TrackedTab.title <$> tabData (fst u) !! key 1) = Some (Some "abcde...")
  ∧ JS.length "abcde..." = 8
  ∧ Settings.maxTitleLength s = 5.
Proof. cbv zeta. repeat split; vm_compute; reflexivity. Qed.

(** ** The tolerance window of the alarm handler *)

(** A firing inside the tolerance window returns before the pass. *)
Lemma handleAlarm_too_soon (h : Host.t) (getDay : nat) (now now' : Z) (name : string)
    (bg : Background.t) (sto : Storage.t) :
  too_soon (currentSettings bg) now (lastAutomaticBackup bg) = true →
  handleAlarm h getDay now now' name bg sto = mkFired bg sto None.
Proof.
  intros Hsoon. unfold handleAlarm. rewrite Hsoon.
  destruct (negb (name =? "automaticBackup")%string); [done|].
  by destruct (negb (includes _ _)).
Qed.

(** A firing that passes both guards runs the pass and records its own
    clock reading. *)
Lemma handleAlarm_runs (h : Host.t) (getDay : nat) (now now' : Z)
    (bg : Background.t) (sto : Storage.t) :
  includes (Settings.backupDays (currentSettings bg)) (daysOfWeek !! getDay) = true →
  too_soon (currentSettings bg) now (lastAutomaticBackup bg) = false →
  let f := handleAlarm h getDay now now' "automaticBackup" bg sto in
  fired_pass f = Some (performBackup h now' bg sto)
  ∧ lastAutomaticBackup (fired_bg f) = Some now
  ∧ currentSettings (fired_bg f) = currentSettings bg.
Proof.
  intros Hday Hsoon f. subst f. unfold handleAlarm. rewrite Hday, Hsoon.
  cbn [negb String.eqb].
  assert (Hs : currentSettings (out_bg (performBackup h now' bg sto)) = currentSettings bg).
  { destruct (Host.openTabs h) as [tabs|] eqn:Htabs.
    - by destruct (performBackup_loop h now' bg sto tabs Htabs) as (_ & _ & Hs & _).
    - by rewrite performBackup_no_tabs. }
  replace ("automaticBackup" =? "automaticBackup")%string with true by done.
  cbn [negb]. by destruct (Host.writable h).
Qed.

(** Within one run of the background script.  The clock reads a time
    after the epoch.  A first firing of the automatic-backup alarm passes
    the weekday and tolerance guards, so it runs the pass and records its
    time [now1].  A second firing less than [toleranceHours] hours after
    [now1] runs no pass and returns the script's variables ([tabData],
    [lastAutomaticBackup], the settings) and the store exactly as the first
    firing left them. *)
Lemma second_fire_within_tolerance_is_noop (h1 h2 : Host.t) (day1 day2 : nat)
    (now1 now1' now2 now2' : Z) (bg : Background.t) (sto : Storage.t) :
  0 < now1 →
  includes (Settings.backupDays (currentSettings bg)) (daysOfWeek !! day1) = true →
  too_soon (currentSettings bg) now1 (lastAutomaticBackup bg) = false →
  now2 - now1 < Settings.toleranceHours (currentSettings bg) * (60 * 60 * 1000) →
  let first := handleAlarm h1 day1 now1 now1' "automaticBackup" bg sto in
  let second := handleAlarm h2 day2 now2 now2' "automaticBackup"
                  (fired_bg first) (fired_storage first) in
  fired_pass first = Some (performBackup h1 now1' bg sto)
  ∧ lastAutomaticBackup (fired_bg first) = Some now1
  ∧ fired_pass second = None
  ∧ fired_bg second = fired_bg first
  ∧ fired_storage second = fired_storage first.
Proof.
  intros Hepoch Hday Hguard Hwindow first second.
  destruct (handleAlarm_runs h1 day1 now1 now1' bg sto Hday Hguard) as (Hpass & Hlast & Hs).
  fold first in Hpass, Hlast, Hs.
  assert (Hsecond : second = mkFired (fired_bg first) (fired_storage first) None).
  { subst second. apply handleAlarm_too_soon. rewrite Hlast, Hs.
    unfold too_soon, truthy_num. destruct (now1 =? 0) eqn:E; lia. }
  rewrite Hsecond. by repeat split.
Qed.

(** The lemma on a Monday: a first firing at instant 1000000 and a
    second one hour later, with the default tolerance of twelve hours. *)
Lemma second_fire_within_tolerance_is_noop_witness :
  let bg := Examples.background Background.DEFAULT_SETTINGS ∅ in
  let h := Examples.host [Examples.tabA] in
  let first := handleAlarm h 1 1000000 1000001 "automaticBackup" bg Examples.empty_storage in
  let second := handleAlarm h 1 4600000 4600001 "automaticBackup"
                  (fired_bg first) (fired_storage first) in
  fired_pass first = Some (performBackup h 1000001 bg Examples.empty_storage)
  ∧ lastAutomaticBackup (fired_bg first) = Some 1000000
  ∧ fired_pass second = None
  ∧ fired_bg second = fired_bg first
  ∧ fired_storage second = fired_storage first.
Proof.
  intros bg h.
  apply (second_fire_within_tolerance_is_noop h h 1 1 1000000 1000001 4600000 4600001 bg
           Examples.empty_storage).
  - lia.
  - vm_compute. reflexivity.
  - vm_compute. reflexivity.
  - vm_compute. reflexivity.
Defined.





(** ** Scheduling the automatic backup *)

Lemma startOfDay_bounds (tz t : Z) :
  Date.startOfDay tz t <= t < Date.startOfDay tz t + MS_PER_DAY.
Proof.
  unfold Date.startOfDay, MS_PER_DAY.
  pose proof (Z.mod_pos_bound (t + tz) (24 * 60 * 60 * 1000) ltac:(lia)). lia.
Qed.

(** The instant both schedulers compute: the configured time of day on
    the current date, or on the next day when that is not after [now]. *)
Lemma nextBackup_parsed (tz now : Z) (backupTime : string) (hours minutes : Z) :
  Date.parseBackupTime backupTime = (Num hours, Num minutes) →
  let today := Date.startOfDay tz now + hours * Date.MS_PER_HOUR
               + minutes * Date.MS_PER_MINUTE in
  Date.nextBackup tz now backupTime
  = Some (if today <=? now then today + MS_PER_DAY else today).
Proof.
  intros Hparse today. unfold Date.nextBackup. rewrite Hparse.
  cbn [Date.setHours Date.le Date.nextDay]. fold today.
  by destruct (today <=? now).
Qed.

(** For a time of day within the day, the fire instant is after [now]
    and at most a day away. *)
Lemma nextBackup_future (tz now : Z) (backupTime : string) (hours minutes : Z) :
  Date.parseBackupTime backupTime = (Num hours, Num minutes) →
  0 <= hours * Date.MS_PER_HOUR + minutes * Date.MS_PER_MINUTE < MS_PER_DAY →
  ∃ t, Date.nextBackup tz now backupTime = Some t ∧ now < t <= now + MS_PER_DAY.
Proof.
  intros Hparse Hrange. rewrite (nextBackup_parsed tz now backupTime hours minutes Hparse).
  pose proof (startOfDay_bounds tz now) as Hday.
  eexists. split; [done|].
  destruct (_ <=? now) eqn:E; lia.
Qed.


(** The options page registers the alarm with a period of one day. *)
Lemma options_schedule_daily (tz now : Z) (s : Settings.t) (alarms : gmap string Alarm.t) :
  Options.scheduleAutomaticBackup tz now s alarms !! "automaticBackup"
  = Some {| Alarm.when := Date.getTime (Date.nextBackup tz now (Settings.backupTime s));
            Alarm.periodInMinutes := Num 1440 |}
  ∧ ∀ name, name ≠ "automaticBackup" →
            Options.scheduleAutomaticBackup tz now s alarms !! name = alarms !! name.
Proof.
  unfold Options.scheduleAutomaticBackup. split.
  - by rewrite lookup_insert_eq.
  - intros name Hne. by rewrite lookup_insert_ne.
Qed.

(** The background script asks for it with the period
    [backupInterval * 24 * 60], which is [NaN] when the settings have no
    [backupInterval]. *)
Lemma background_schedule_period (tz now : Z) (bg : Background.t)
    (alarms : gmap string Alarm.t) :
  Background.scheduleAutomaticBackup tz now bg alarms !! "automaticBackup"
  = Some {| Alarm.when :=
              Date.getTime (Date.nextBackup tz now (Settings.backupTime (currentSettings bg)));
            Alarm.periodInMinutes :=
              match Settings.backupInterval (currentSettings bg) with
              | Some i => Num (i * 24 * 60)
              | None => NaN
              end |}.
Proof.
  unfold Background.scheduleAutomaticBackup. rewrite lookup_insert_eq.
  by destruct (Settings.backupInterval (currentSettings bg)).
Qed.

(** No settings object this extension writes has a [backupInterval]: the
    defaults have none, the form collects none, and a merge adds none. *)
Lemma no_backupInterval (f : Options.Form.t) (s : Settings.t) :
  Settings.backupInterval s = None →
  Settings.backupInterval Background.DEFAULT_SETTINGS = None
  ∧ Settings.backupInterval (Options.collect f) = None
  ∧ Settings.backupInterval
      (spread s (Background.stored_settings (Options.collect f))) = None.
Proof. intros Hs. repeat split. cbn. exact Hs. Qed.

(** C5, at the input where the code departs from it.  The background
    script starts with the default settings and automatic backup on; the
    clock reads 00:16:40 UTC on the first day.  Its scheduler registers
    the alarm for 05:00 that day, as claimed, but with the period [NaN]
    instead of one day; the scheduler of the options page, on the same
    input, registers the period 1440 minutes. *)
Theorem background_alarm_period_is_NaN :
  let s := spread Background.DEFAULT_SETTINGS
             {| Partial.minDays := None; Partial.maxTabs := None;
                Partial.autoBackupEnabled := Some true;
                Partial.backupTime := None; Partial.backupDays := None;
                Partial.toleranceHours := None; Partial.excludePrivate := None;
                Partial.excludePinned := None; Partial.maxTitleLength := None;
                Partial.theme := None; Partial.backupInterval := None |} in
  Background.scheduleAutomaticBackup 0 1000000 (Examples.background s ∅) ∅
    !! "automaticBackup"
  = Some {| Alarm.when := Num 18000000; Alarm.periodInMinutes := NaN |}
  ∧ Options.scheduleAutomaticBackup 0 1000000 s ∅ !! "automaticBackup"
    = Some {| Alarm.when := Num 18000000; Alarm.periodInMinutes := Num 1440 |}.
Proof. cbv zeta. split; vm_compute; reflexivity. Qed.

(** ** Saving the settings form *)

(** C8.  When the collected [minDays] is outside [1, 365], or [maxTabs]
    outside [1, 1000], or [toleranceHours] outside [1, 24], [saveSettings]
    stops at the validation error: it issues no storage write and leaves
    the store, the background script and the alarms as they were. *)
Theorem invalid_settings_are_not_saved (h : Host.t) (tz now : Z) (f : Options.Form.t)
    (w : Options.World) :
  let s := Options.collect f in
  Settings.minDays s < 1 ∨ 365 < Settings.minDays s
  ∨ Settings.maxTabs s < 1 ∨ 1000 < Settings.maxTabs s
  ∨ Settings.toleranceHours s < 1 ∨ 24 < Settings.toleranceHours s →
  ∃ message,
    Options.saveSettings h tz now f w = (w, Options.ValidationError message)
    ∧ Options.validate s = Some message.
Proof.
  intros s Hbad.
  assert (Hv : ∃ message, Options.validate s = Some message).
  { unfold Options.validate, Options.outside.
    replace (Settings.backupInterval s) with (@None Z) by done.
    destruct ((Settings.minDays s <? 1) || (Settings.minDays s >? 365)) eqn:E1; [by eauto|].
    destruct ((Settings.maxTabs s <? 1) || (Settings.maxTabs s >? 1000)) eqn:E2; [by eauto|].
    destruct ((Settings.toleranceHours s <? 1) || (Settings.toleranceHours s >? 24)) eqn:E3;
      [by eauto|].
    apply orb_false_iff in E1 as [? ?], E2 as [? ?], E3 as [? ?]. lia. }
  destruct Hv as [message Hv]. exists message. split; [|exact Hv].
  unfold Options.saveSettings. fold s. by rewrite Hv.
Qed.

(** The theorem at a form whose minimum-days field holds 400. *)
Lemma invalid_settings_are_not_saved_witness :
  let f := {| Options.Form.minDays := "400";
              Options.Form.maxTabs := "50";
              Options.Form.autoBackupEnabled := true;
              Options.Form.backupTime := "05:00";
              Options.Form.backupDays := ["Mon"];
              Options.Form.toleranceHours := "12";
              Options.Form.excludePrivate := true;
              Options.Form.excludePinned := false;
              Options.Form.maxTitleLength := "100";
              Options.Form.theme := "auto" |} in
  let w := {| Options.storage := Examples.empty_storage;
              Options.background := Background.initial;
              Options.alarms := ∅;
              Options.writes := 0 |} in
  ∃ message,
    Options.saveSettings (Examples.host []) 0 1000000 f w
    = (w, Options.ValidationError message)
    ∧ Options.validate (Options.collect f) = Some message.
Proof.
  intros f w.
  apply (invalid_settings_are_not_saved (Examples.host []) 0 1000000 f w).
  right. left. vm_compute. reflexivity.
Defined.

(** A valid form is saved: the store then holds the collected settings
    merged into the background's. *)
Lemma valid_settings_are_saved :
  let f := {| Options.Form.minDays := "30";
              Options.Form.maxTabs := "50";
              Options.Form.autoBackupEnabled := false;
              Options.Form.backupTime := "05:00";
              Options.Form.backupDays := ["Mon"];
              Options.Form.toleranceHours := "12";
              Options.Form.excludePrivate := true;
              Options.Form.excludePinned := false;
              Options.Form.maxTitleLength := "100";
              Options.Form.theme := "auto" |} in
  let w := {| Options.storage := Examples.empty_storage;
              Options.background := Background.initial;
              Options.alarms := ∅;
              Options.writes := 0 |} in
  let w' := fst (Options.saveSettings (Examples.host []) 0 1000000 f w) in
  snd (Options.saveSettings (Examples.host []) 0 1000000 f w) = Options.Saved
  ∧ (Partial.minDays <$> Storage.settings (Options.storage w')) = Some (Some 30)
  ∧ Settings.minDays (currentSettings (Options.background w')) = 30
  ∧ Options.writes w' = 2%nat.
Proof. cbv zeta. repeat split; vm_compute; reflexivity. Qed.

(** ** The defaults of the dashboard and of the background script *)

(** The two sets of compiled-in defaults agree on every key but [minDays]. *)
Lemma defaults_agree_but_minDays :
  Dashboard.DEFAULT_SETTINGS
  = spread Background.DEFAULT_SETTINGS
      {| Partial.minDays := Some (-1); Partial.maxTabs := None;
         Partial.autoBackupEnabled := None; Partial.backupTime := None;
         Partial.backupDays := None; Partial.toleranceHours := None;
         Partial.excludePrivate := None; Partial.excludePinned := None;
         Partial.maxTitleLength := None; Partial.theme := None;
         Partial.backupInterval := None |}.
Proof. reflexivity. Qed.

(** A stored object that has a [minDays] key is merged to the same
    settings in both contexts. *)
Lemma merged_settings_agree (sto : Storage.t) (stored : Partial.t) (bg : Background.t) :
  Storage.settings sto = Some stored →
  is_Some (Partial.minDays stored) →
  Dashboard.getSettings sto = currentSettings (Background.loadSettings true sto bg).
Proof.
  intros Hsto [m Hm]. unfold Dashboard.getSettings, Background.loadSettings.
  rewrite Hsto. cbn [currentSettings set_currentSettings].
  destruct stored; cbn in Hm; subst. reflexivity.
Qed.

(** C10, at the inputs where the code departs from it: a store without
    settings (a fresh installation) and a stored object without a
    [minDays] key.  The dashboard reads [minDays = -1], the background
    script [minDays = 7]. *)
Theorem dashboard_default_minDays_differs :
  let fresh := Examples.empty_storage in
  let partial := {| Storage.settings := Some Partial.empty;
                    Storage.tabData := None;
                    Storage.lastAutomaticBackup := None |} in
  Settings.minDays (Dashboard.getSettings fresh) = -1
  ∧ Settings.minDays (currentSettings (Background.loadSettings true fresh Background.initial))
    = 7
  ∧ Settings.minDays (Dashboard.getSettings partial) = -1
  ∧ Settings.minDays (currentSettings (Background.loadSettings true partial Background.initial))
    = 7
  ∧ Dashboard.getSettings partial
    ≠ currentSettings (Background.loadSettings true partial Background.initial).
Proof. cbv zeta. repeat split. discriminate. Qed.

(** ** The merged view of the dashboard *)

Section DashboardMerge.

Variable getDomain : string → string.

Lemma assign_keys (m : list (string * Tab.t)) (k : string) (v : Tab.t) (k' : string) :
  In k' (map fst (Dashboard.assign m k v)) ↔ k' = k ∨ In k' (map fst m).
Proof.
  induction m as [|[k0 v0] m IH]; cbn [Dashboard.assign map fst In].
  - intuition congruence.
  - destruct (String.eqb_spec k0 k) as [->|Hne]; cbn [map fst In].
    + intuition congruence.
    + rewrite IH. intuition congruence.
Qed.

Lemma assign_filed (m : list (string * Tab.t)) (k : string) (v : Tab.t) :
  Tab.url v = Some k → filed m → filed (Dashboard.assign m k v).
Proof.
  intros Hv. induction m as [|[k0 v0] m IH]; intros [Hnd Hurl].
  - split; cbn; [apply NoDup_singleton|]. by intros kv [<-|[]].
  - cbn [Dashboard.assign]. cbn [map fst] in Hnd.
    apply NoDup_cons in Hnd as [Hfresh Hnd].
    destruct (String.eqb_spec k0 k) as [->|Hne].
    + split; [cbn [map fst]; by apply NoDup_cons|].
      intros kv [<-|Hin]; [done|]. apply Hurl. by right.
    + destruct IH as [Hnd' Hurl']; [split; [done|]; intros kv Hin; apply Hurl; by right|].
      split.
      * cbn [map fst]. apply NoDup_cons. split; [|done].
        rewrite list_elem_of_In, assign_keys. intros [->|Hin]; [done|].
        by apply Hfresh, list_elem_of_In.
      * intros kv [<-|Hin]; [apply (Hurl (k0, v0)); by left|by apply Hurl'].
Qed.

Lemma is_http_Some (o : option string) :
  is_http o = true → ∃ u, o = Some u.
Proof. destruct o as [u|]; [by eauto|done]. Qed.

Lemma fill_filed (openTabs : list Tab.t) :
  ∀ m, filed m → filed (Dashboard.fill openTabs m).
Proof.
  induction openTabs as [|tab rest IH]; intros m Hm; cbn [Dashboard.fill]; [done|].
  destruct (is_http (Tab.url tab)) eqn:Hhttp; [|by apply IH].
  apply IH, assign_filed; [|done].
  destruct (is_http_Some _ Hhttp) as [u Hu]. by rewrite Hu.
Qed.

Lemma fill_keys_mono (openTabs : list Tab.t) :
  ∀ m k, In k (map fst m) → In k (map fst (Dashboard.fill openTabs m)).
Proof.
  induction openTabs as [|tab rest IH]; intros m k Hk; cbn [Dashboard.fill]; [done|].
  destruct (is_http (Tab.url tab)); apply IH; [|done].
  apply assign_keys. by right.
Qed.

(** An open http(s) tab has its URL among the keys. *)
Lemma fill_keys (openTabs : list Tab.t) (tab : Tab.t) (u : string) :
  In tab openTabs → Tab.url tab = Some u → is_http (Some u) = true →
  ∀ m, In u (map fst (Dashboard.fill openTabs m)).
Proof.
  intros Hin Hu Hhttp.
  induction openTabs as [|t rest IH]; intros m; [by destruct Hin|].
  cbn [Dashboard.fill]. destruct Hin as [->|Hin].
  - rewrite Hu, Hhttp. apply fill_keys_mono, assign_keys. by left.
  - destruct (is_http (Tab.url t)); by apply IH.
Qed.

Lemma get_keys (m : list (string * Tab.t)) (k : string) :
  In k (map fst m) → is_Some (Dashboard.get m k).
Proof.
  induction m as [|[k0 v0] m IH]; cbn [Dashboard.get map fst In]; [done|].
  destruct (String.eqb_spec k0 k) as [->|Hne]; [by eexists|].
  intros [Heq|Hin]; [done|by apply IH].
Qed.

(** Rows of open tabs showing [u]: one when [u] is a key, none otherwise. *)
Lemma open_rows_with_url (now : Z) (entries : list (string * TrackedTab.t))
    (u : string) (m : list (string * Tab.t)) :
  filed m →
  Dashboard.rows_with_url
    (map (fun kv => Dashboard.openRow getDomain now entries (fst kv) (snd kv)) m) u
  = if decide (u ∈ map fst m) then 1%nat else 0%nat.
Proof.
  unfold Dashboard.rows_with_url.
  induction m as [|[k v] m IH]; intros [Hnd Hurl].
  { cbn. destruct (decide (u ∈ [])) as [Hin|_]; [by apply elem_of_nil in Hin|done]. }
  cbn [map fst snd] in *. apply NoDup_cons in Hnd as [Hfresh Hnd].
  assert (Hm : filed m) by (split; [done|]; intros kv Hin; apply Hurl; by right).
  specialize (IH Hm).
  assert (Hk : Tab.url v = Some k) by (apply (Hurl (k, v)); by left).
  destruct (decide (k = u)) as [->|Hne].
  - rewrite filter_cons_True by (cbn; exact Hk). cbn [List.length]. rewrite IH.
    destruct (decide (u ∈ map fst m)) as [Hin|Hnin]; [done|].
    destruct (decide (u ∈ u :: map fst m)) as [_|Hno]; [done|].
    exfalso. apply Hno. by left.
  - rewrite filter_cons_False by (cbn; rewrite Hk; congruence). rewrite IH.
    destruct (decide (u ∈ map fst m)) as [Hin|Hnin];
      destruct (decide (u ∈ k :: map fst m)) as [Hyes|Hno]; try done.
    + exfalso. apply Hno. by right.
    + exfalso. apply elem_of_cons in Hyes as [->|Hin]; [done|by apply Hnin].
Qed.

(** No row of a logged record shows a URL that is open. *)
Lemma logged_rows_with_url (now : Z) (u : string) (m : list (string * Tab.t))
    (entries : list (string * TrackedTab.t)) :
  In u (map fst m) →
  Dashboard.rows_with_url
    (map (fun e => Dashboard.loggedRow getDomain now (fst e) (snd e))
       (filter (fun e => Is_true (Dashboard.not_open m (snd e))) entries)) u
  = 0%nat.
Proof.
  intros Hkey. unfold Dashboard.rows_with_url.
  induction entries as [|[k rec] entries IH]; [done|].
  destruct (decide (Is_true (Dashboard.not_open m rec))) as [Hopen|Hclosed].
  - rewrite filter_cons_True by done. cbn [map fst snd].
    rewrite filter_cons_False; [exact IH|].
    cbn [Dashboard.loggedRow Dashboard.url]. intros Hrec.
    unfold Dashboard.not_open, Dashboard.truthy_at in Hopen.
    rewrite Hrec in Hopen. cbn [default from_option id] in Hopen.
    destruct (get_keys m u Hkey) as [v Hv]. by rewrite Hv in Hopen.
  - rewrite filter_cons_False by done. exact IH.
Qed.

(** The part of C4 that holds: a URL shown by an open http(s) tab has
    exactly one row in the merge, whatever the stored records are, and
    that row is tagged logged exactly when a stored record holds the
    URL. *)
Lemma open_url_has_one_row (now : Z) (entries : list (string * TrackedTab.t))
    (openTabs : list Tab.t) (tab : Tab.t) (u : string) :
  In tab openTabs → Tab.url tab = Some u → is_http (Some u) = true →
  let rows := Dashboard.loadTabLog getDomain now entries openTabs in
  Dashboard.rows_with_url rows u = 1%nat
  ∧ ∀ row, In row rows → Dashboard.url row = Some u →
           Dashboard.logged row = Dashboard.loggedUrlSet_has entries u.
Proof.
  intros Hin Hu Hhttp rows.
  assert (Hfiled : filed (Dashboard.openTabsMap openTabs)).
  { apply fill_filed. split; [apply NoDup_nil_2|]. by intros kv []. }
  assert (Hkey : In u (map fst (Dashboard.openTabsMap openTabs)))
    by (by eapply fill_keys).
  split.
  - subst rows. unfold Dashboard.loadTabLog, Dashboard.rows_with_url.
    rewrite filter_app, length_app.
    pose proof (open_rows_with_url now entries u _ Hfiled) as Hopen.
    pose proof (logged_rows_with_url now u _ entries Hkey) as Hlogged.
    unfold Dashboard.rows_with_url in Hopen, Hlogged.
    rewrite Hopen, Hlogged. apply list_elem_of_In in Hkey.
    by destruct (decide _).
  - subst rows. unfold Dashboard.loadTabLog. intros row Hrow Hurl.
    apply in_app_or in Hrow as [Hrow|Hrow].
    + apply in_map_iff in Hrow as ([k v] & <- & Hkv).
      cbn [fst snd Dashboard.openRow Dashboard.logged Dashboard.url] in *.
      destruct Hfiled as [_ Hf]. specialize (Hf (k, v) Hkv). cbn [fst snd] in Hf.
      congruence.
    + apply in_map_iff in Hrow as ([k rec] & <- & Hrec).
      apply list_elem_of_In, list_elem_of_filter in Hrec as [Hopen _].
      cbn [fst snd Dashboard.loggedRow Dashboard.url] in *.
      unfold Dashboard.not_open, Dashboard.truthy_at in Hopen.
      rewrite Hurl in Hopen. cbn [default from_option id] in Hopen.
      destruct (get_keys _ u Hkey) as [v Hv]. by rewrite Hv in Hopen.
Qed.

End DashboardMerge.

(** C4, at the input where the code departs from it.  A pass in debug
    mode over two open tabs that show the same URL writes two records with
    that URL.  Once the tabs are gone (here: no tab is open), the merge of
    the dashboard lists both records: two rows for the one URL. *)
Theorem two_records_one_url_two_rows :
  let u := "https://a.example/" in
  let tabs := [Examples.tab 1 u "Alpha"; Examples.tab 2 u "Alpha"] in
  let bg := Examples.background (Examples.settings (-1) 1000 100) ∅ in
  let td := tabData (out_bg (performBackup (Examples.host tabs) 1000 bg
                               Examples.empty_storage)) in
  let rows := Dashboard.loadTabLog (fun _ => "a.example") 2000 (map_to_list td) [] in
  (TrackedTab.url <$> td !! key 1) = Some (Some u)
  ∧ (TrackedTab.url <$> td !! key 2) = Some (Some u)
  ∧ List.length rows = 2%nat
  ∧ Dashboard.rows_with_url rows u = 2%nat.
Proof. cbv zeta. repeat split; vm_compute; reflexivity. Qed.

(** * Further properties of the scripts *)

(** ** The tracker and the removal of a tab *)

(** X1.  [handleTabRemoved] leaves no record under the identifier of the
    closed tab and touches no other key; for a tab that has no record it
    changes neither the script's variables nor the store. *)
Theorem tab_removed_deletes_record (h : Host.t) (tabId : Z) (bg : Background.t)
    (sto : Storage.t) :
  let r := handleTabRemoved h tabId bg sto in
  tabData (fst r) !! key tabId = None
  ∧ (∀ k, k ≠ key tabId → tabData (fst r) !! k = tabData bg !! k)
  ∧ (∀ other, other ≠ tabId → tabData (fst r) !! key other = tabData bg !! key other)
  ∧ (tabData bg !! key tabId = None → r = (bg, sto)).
Proof.
  intros r. subst r. unfold handleTabRemoved, saveTabData.
  destruct (tabData bg !! key tabId) as [rec|] eqn:Hrec.
  - assert (Hfst : ∀ x, tabData (fst (match (if Host.writable h
                       then Some (set_storage_tabData sto
                                    (tabData (set_tabData bg (delete (key tabId) (tabData bg)))))
                       else None) with
                     | Some sto' => (set_tabData bg (delete (key tabId) (tabData bg)), sto')
                     | None => (set_tabData bg (delete (key tabId) (tabData bg)), sto)
                     end)) !! x = delete (key tabId) (tabData bg) !! x)
      by (intros x; by destruct (Host.writable h)).
    repeat split.
    + rewrite Hfst. apply lookup_delete_eq.
    + intros k Hk. rewrite Hfst. by apply lookup_delete_ne.
    + intros other Hother. rewrite Hfst. apply lookup_delete_ne.
      intros Heq. by apply key_inj in Heq.
    + discriminate.
  - cbn [fst]. repeat split; try done.
Qed.

(** X2.  [handleTabUpdate] changes no key but the one of the event's tab
    identifier, and keeps the settings and the time of the last automatic
    backup.  An event whose status is not [complete], whose URL is not
    http(s), or whose tab carries no [createdAt] changes nothing at all,
    whatever the minimum age is (a negative one included). *)
Theorem tracker_touches_one_key (h : Host.t) (now tabId : Z) (status : option string)
    (tab : Tab.t) (bg : Background.t) (sto : Storage.t) :
  let r := handleTabUpdate h now tabId status tab bg sto in
  (∀ k, k ≠ key tabId → tabData (fst r) !! k = tabData bg !! k)
  ∧ currentSettings (fst r) = currentSettings bg
  ∧ lastAutomaticBackup (fst r) = lastAutomaticBackup bg
  ∧ (status ≠ Some "complete" ∨ is_http (Tab.url tab) = false ∨ Tab.createdAt tab = None →
     r = (bg, sto)).
Proof.
  intros r. subst r. unfold handleTabUpdate, saveTabData, old_enough.
  destruct (negb (bool_decide (status = Some "complete"))
            || negb (is_truthy_str (Tab.url tab))) eqn:Hfirst.
  { repeat split; try done. }
  apply orb_false_iff in Hfirst as [Hstatus _].
  apply negb_false_iff, bool_decide_eq_true in Hstatus.
  destruct (Settings.excludePrivate (currentSettings bg) && Tab.incognito tab);
    [by repeat split|].
  destruct (Settings.excludePinned (currentSettings bg) && Tab.pinned tab);
    [by repeat split|].
  destruct (is_http (Tab.url tab)) eqn:Hhttp; cbn [negb]; [|by repeat split].
  destruct (Tab.createdAt tab) as [c|] eqn:Hc; [|by repeat split].
  destruct (Qle_bool _ _); [|by repeat split].
  destruct (Host.writable h); cbn [fst tabData set_tabData currentSettings
                                     lastAutomaticBackup].
  - repeat split; try done.
    + intros k Hk. by rewrite lookup_insert_ne.
    + intros [Hs|[Hs|Hs]]; [done|discriminate|discriminate].
  - repeat split; try done.
    + intros k Hk. by rewrite lookup_insert_ne.
    + intros [Hs|[Hs|Hs]]; [done|discriminate|discriminate].
Qed.

(** X3.  Tracking a tab that had no record and then closing it gives back
    the tab data the script started with. *)
Theorem track_then_remove (h h' : Host.t) (now tabId : Z) (status : option string)
    (tab : Tab.t) (bg : Background.t) (sto : Storage.t) :
  tabData bg !! key tabId = None →
  let tracked := handleTabUpdate h now tabId status tab bg sto in
  tabData (fst (handleTabRemoved h' tabId (fst tracked) (snd tracked))) = tabData bg.
Proof.
  intros Hnone tracked.
  assert (Hcases : tabData (fst tracked) = tabData bg
                   ∨ tabData (fst tracked)
                     = <[key tabId := tracked_record (currentSettings bg) now tab]> (tabData bg)).
  { subst tracked. unfold handleTabUpdate, saveTabData.
    repeat (match goal with
            | |- context [if ?b then _ else _] => destruct b
            end; cbn [fst tabData set_tabData]; auto). }
  unfold handleTabRemoved, saveTabData.
  destruct Hcases as [Hsame|Hins].
  - rewrite Hsame, Hnone. cbn [fst]. exact Hsame.
  - rewrite Hins, lookup_insert_eq.
    destruct (Host.writable h'); cbn [fst tabData set_tabData];
      by apply delete_insert_id.
Qed.

(** The theorem at a tab that qualifies: created at the epoch, seen ten
    days later with the default minimum of seven days. *)
Lemma track_then_remove_witness :
  let tab := {| Tab.id := 1; Tab.url := Some "https://a.example/";
                Tab.title := Some "Alpha"; Tab.incognito := false;
                Tab.pinned := false; Tab.favIconUrl := None;
                Tab.createdAt := Some 1; Tab.lastAccessed := None;
                Tab.lastModified := None |} in
  let bg := Examples.background Background.DEFAULT_SETTINGS ∅ in
  let h := Examples.host [] in
  let tracked := handleTabUpdate h Examples.ten_days 1 (Some "complete") tab bg
                   Examples.empty_storage in
  is_Some (tabData (fst tracked) !! key 1)
  ∧ tabData (fst (handleTabRemoved h 1 (fst tracked) (snd tracked))) = tabData bg.
Proof.
  intros tab bg h tracked. split.
  - vm_compute. by eexists.
  - apply (track_then_remove h h Examples.ten_days 1 (Some "complete") tab bg
             Examples.empty_storage).
    vm_compute. reflexivity.
Defined.

(** ** The store and the memory of the background script *)

(** X4.  While the host accepts the writes, the store follows the memory:
    if the stored tab data is the script's before a tab update, a tab
    removal, a pass or an alarm, it is the script's after it. *)
Theorem store_follows_memory (h : Host.t) (bg : Background.t) (sto : Storage.t) :
  Host.writable h = true →
  in_sync bg sto →
  (∀ now tabId status tab,
     let r := handleTabUpdate h now tabId status tab bg sto in in_sync (fst r) (snd r))
  ∧ (∀ tabId, let r := handleTabRemoved h tabId bg sto in in_sync (fst r) (snd r))
  ∧ (∀ now, let o := performBackup h now bg sto in in_sync (out_bg o) (out_storage o))
  ∧ (∀ day now now' name,
       let f := handleAlarm h day now now' name bg sto in
       in_sync (fired_bg f) (fired_storage f)).
Proof.
  intros Hw Hsync.
  assert (Hpass : ∀ now, in_sync (out_bg (performBackup h now bg sto))
                           (out_storage (performBackup h now bg sto))).
  { intros now. unfold performBackup, saveTabData. rewrite Hw.
    destruct (Host.openTabs h) as [tabs|]; [|exact Hsync].
    by destruct (backupCount _ =? 0). }
  repeat split.
  - intros now tabId status tab. unfold handleTabUpdate, saveTabData. rewrite Hw.
    repeat (match goal with
            | |- context [if ?b then _ else _] => destruct b
            end; cbn [fst snd]; try exact Hsync). reflexivity.
  - intros tabId. unfold handleTabRemoved, saveTabData. rewrite Hw.
    by destruct (tabData bg !! key tabId).
  - exact Hpass.
  - intros day now now' name. unfold handleAlarm. rewrite Hw.
    repeat (match goal with
            | |- context [if ?b then _ else _] => destruct b
            end; cbn [fired_bg fired_storage]; try exact Hsync).
    exact (Hpass now').
Qed.

(** The theorem at a pass that writes one tab. *)
Lemma store_follows_memory_witness :
  let bg := Examples.background (Examples.settings (-1) 1000 100) ∅ in
  let sto := Background.set_storage_tabData Examples.empty_storage ∅ in
  let o := performBackup (Examples.host [Examples.tabA]) 1000 bg sto in
  in_sync (out_bg o) (out_storage o).
Proof.
  intros bg sto o.
  destruct (store_follows_memory (Examples.host [Examples.tabA]) bg sto eq_refl eq_refl)
    as (_ & _ & Hpass & _).
  apply Hpass.
Defined.

(** X5.  A restart restores what was stored: when the store holds the
    script's tab data, [initialize] on a readable store gives a script with
    the same tab data, whatever its variables held before; on an unreadable
    store it starts empty. *)
Theorem restart_restores_tabData (tz now : Z) (bg bg0 : Background.t) (sto : Storage.t)
    (alarms : gmap string Alarm.t) :
  in_sync bg sto →
  tabData (fst (Startup.initialize true tz now sto bg0 alarms)) = tabData bg
  ∧ tabData (fst (Startup.initialize false tz now sto bg0 alarms)) = ∅.
Proof.
  intros Hsync. unfold Startup.initialize.
  assert (Hload : ∀ b, tabData (Startup.loadTabData true sto b) = tabData bg).
  { intros b. unfold Startup.loadTabData. rewrite Hsync.
    destruct (Nat.ltb 0 (size (tabData bg))) eqn:E; [done|].
    apply Nat.ltb_ge in E. cbn [tabData set_tabData].
    symmetry. apply map_size_empty_iff. lia. }
  split.
  - by destruct (Settings.autoBackupEnabled _); cbn [fst].
  - by destruct (Settings.autoBackupEnabled _); cbn [fst].
Qed.

(** The theorem after a pass that wrote one tab. *)
Lemma restart_restores_tabData_witness :
  let bg := Examples.background (Examples.settings (-1) 1000 100) ∅ in
  let o := performBackup (Examples.host [Examples.tabA]) 1000 bg Examples.empty_storage in
  tabData (fst (Startup.initialize true 0 2000 (out_storage o) Background.initial ∅))
  = tabData (out_bg o)
  ∧ tabData (fst (Startup.initialize false 0 2000 (out_storage o) Background.initial ∅)) = ∅.
Proof.
  intros bg o.
  apply (restart_restores_tabData 0 2000 (out_bg o) Background.initial (out_storage o) ∅).
  vm_compute. reflexivity.
Defined.

(** ** Settings in memory, in the store and after a restart *)

Lemma spread_stored_settings (s : Settings.t) :
  spread Background.DEFAULT_SETTINGS (stored_settings s) = s
  ∧ spread Dashboard.DEFAULT_SETTINGS (stored_settings s) = s.
Proof. destruct s as [? ? ? ? ? ? ? ? ? ? [i|]]; by split. Qed.

(** X6.  Settings written by [updateSettings] read back the same
    everywhere: with the write accepted, a restarted background script
    ([loadSettings] on any previous variables) and the dashboard
    ([getSettings]) both obtain the settings the script holds in memory. *)
Theorem settings_survive_restart (h : Host.t) (tz now : Z) (message : Partial.t)
    (bg bg0 : Background.t) (sto : Storage.t) (alarms : gmap string Alarm.t) :
  Host.writable h = true →
  let r := updateSettings h tz now message bg sto alarms in
  currentSettings (Background.loadSettings true (snd (fst r)) bg0)
  = currentSettings (fst (fst r))
  ∧ Dashboard.getSettings (snd (fst r)) = currentSettings (fst (fst r))
  ∧ currentSettings (fst (fst r)) = spread (currentSettings bg) message.
Proof.
  intros Hw r. subst r. unfold updateSettings. rewrite Hw.
  cbn [currentSettings set_currentSettings].
  destruct (spread_stored_settings (spread (currentSettings bg) message)) as [Hb Hd].
  destruct (Settings.autoBackupEnabled (spread (currentSettings bg) message));
    cbn [fst snd]; unfold Background.loadSettings, Dashboard.getSettings;
    cbn [Storage.settings set_storage_settings default from_option id
         currentSettings set_currentSettings]; by repeat split.
Qed.

(** The theorem at a message that sets a minimum of thirty days. *)
Lemma settings_survive_restart_witness :
  let message := Background.stored_settings (Examples.settings 30 50 80) in
  let r := updateSettings (Examples.host []) 0 1000 message Background.initial
             Examples.empty_storage ∅ in
  currentSettings (Background.loadSettings true (snd (fst r)) Background.initial)
  = currentSettings (fst (fst r))
  ∧ Dashboard.getSettings (snd (fst r)) = currentSettings (fst (fst r))
  ∧ currentSettings (fst (fst r))
    = spread (currentSettings Background.initial) message.
Proof.
  intros message.
  apply (settings_survive_restart (Examples.host []) 0 1000 message Background.initial
           Background.initial Examples.empty_storage ∅).
  reflexivity.
Defined.

(** X7.  After an [updateSettings] message, a [getSettings] message
    answers the previous settings with the message's keys laid over them,
    whether or not the host accepted the write.  When it did not, the
    answer to [updateSettings] is an error and the store and the alarms
    are as before: the memory is ahead of the store. *)
Theorem updateSettings_then_getSettings (h h2 : Host.t) (tz now tz2 now2 : Z)
    (got got2 : option (list Z)) (p : Partial.t) (bg : Background.t) (sto : Storage.t)
    (alarms : gmap string Alarm.t) :
  let m := Messaging.handleMessage h tz now got
             (Messaging.mkMessage (Some "updateSettings") p) bg sto alarms in
  let g := Messaging.handleMessage h2 tz2 now2 got2
             (Messaging.mkMessage (Some "getSettings") Partial.empty)
             (Messaging.bg m) (Messaging.storage m) (Messaging.alarms m) in
  Messaging.response g = Messaging.SettingsAre (spread (currentSettings bg) p)
  ∧ (Host.writable h = true → Messaging.response m = Messaging.Updated)
  ∧ (Host.writable h = false →
     Messaging.response m = Messaging.Thrown
     ∧ Messaging.storage m = sto
     ∧ Messaging.alarms m = alarms).
Proof.
  intros m g. subst g m. unfold Messaging.handleMessage, Messaging.is_action.
  cbn [Messaging.action Messaging.settings String.eqb Ascii.eqb Bool.eqb].
  unfold updateSettings.
  destruct (Host.writable h);
    [destruct (Settings.autoBackupEnabled _)|];
    cbn [Messaging.bg Messaging.storage Messaging.alarms Messaging.response
         currentSettings set_currentSettings]; repeat split; try done.
Qed.



(** ** More on the alarm handler *)

(** X9.  A firing of another alarm, or on a weekday that is not among
    [backupDays], runs no pass and changes nothing; with no backup day
    selected no firing ever runs a pass. *)
Theorem alarm_skips_other_days (h : Host.t) (day : nat) (now now' : Z) (name : string)
    (bg : Background.t) (sto : Storage.t) :
  (name ≠ "automaticBackup" → handleAlarm h day now now' name bg sto = mkFired bg sto None)
  ∧ (includes (Settings.backupDays (currentSettings bg)) (daysOfWeek !! day) = false →
     handleAlarm h day now now' name bg sto = mkFired bg sto None)
  ∧ (Settings.backupDays (currentSettings bg) = [] →
     handleAlarm h day now now' name bg sto = mkFired bg sto None).
Proof.
  assert (Hday : includes (Settings.backupDays (currentSettings bg)) (daysOfWeek !! day) = false →
                 handleAlarm h day now now' name bg sto = mkFired bg sto None).
  { intros Hd. unfold handleAlarm. rewrite Hd. by destruct (negb _). }
  repeat split.
  - intros Hname. unfold handleAlarm.
    destruct (String.eqb_spec name "automaticBackup") as [->|_]; done.
  - exact Hday.
  - intros Hempty. apply Hday. rewrite Hempty. unfold includes. by destruct (_ !! _).
Qed.

(** X10.  A pass that fails because the host does not list the tabs still
    counts as the last automatic backup: the firing records its time, the
    tab data is unchanged, and a second firing inside the tolerance window
    runs no pass, even if the host answers by then. *)
Theorem failed_backup_is_not_retried (h1 h2 : Host.t) (day1 day2 : nat)
    (now1 now1' now2 now2' : Z) (bg : Background.t) (sto : Storage.t) :
  0 < now1 →
  Host.openTabs h1 = None →
  includes (Settings.backupDays (currentSettings bg)) (daysOfWeek !! day1) = true →
  too_soon (currentSettings bg) now1 (lastAutomaticBackup bg) = false →
  now2 - now1 < Settings.toleranceHours (currentSettings bg) * (60 * 60 * 1000) →
  let first := handleAlarm h1 day1 now1 now1' "automaticBackup" bg sto in
  (out_result <$> fired_pass first) = Some Failure
  ∧ tabData (fired_bg first) = tabData bg
  ∧ lastAutomaticBackup (fired_bg first) = Some now1
  ∧ fired_pass (handleAlarm h2 day2 now2 now2' "automaticBackup"
                  (fired_bg first) (fired_storage first)) = None.
Proof.
  intros Hepoch Hnone Hday Hguard Hwindow first.
  destruct (handleAlarm_runs h1 day1 now1 now1' bg sto Hday Hguard) as (Hpass & Hlast & Hs).
  fold first in Hpass, Hlast, Hs.
  assert (Htd : tabData (fired_bg first) = tabData bg).
  { subst first. unfold handleAlarm. rewrite Hday, Hguard. cbn [negb String.eqb].
    replace ("automaticBackup" =? "automaticBackup")%string with true by done.
    cbn [negb]. rewrite performBackup_no_tabs by done.
    by destruct (Host.writable h1). }
  repeat split; try done.
  - rewrite Hpass. cbn. by rewrite performBackup_no_tabs.
  - rewrite handleAlarm_too_soon; [done|]. rewrite Hlast, Hs.
    unfold too_soon, truthy_num. destruct (now1 =? 0) eqn:E; lia.
Qed.

(** The theorem on a Monday, with a host that lists no tabs at the first
    firing and one tab an hour later. *)
Lemma failed_backup_is_not_retried_witness :
  let bg := Examples.background Background.DEFAULT_SETTINGS ∅ in
  let down := {| Host.openTabs := None; Host.writable := true |} in
  let first := handleAlarm down 1 1000000 1000001 "automaticBackup" bg
                 Examples.empty_storage in
  (out_result <$> fired_pass first) = Some Failure
  ∧ tabData (fired_bg first) = tabData bg
  ∧ lastAutomaticBackup (fired_bg first) = Some 1000000
  ∧ fired_pass (handleAlarm (Examples.host [Examples.tabA]) 1 4600000 4600001
                  "automaticBackup" (fired_bg first) (fired_storage first)) = None.
Proof.
  intros bg down.
  apply (failed_backup_is_not_retried down (Examples.host [Examples.tabA]) 1 1
           1000000 1000001 4600000 4600001 bg Examples.empty_storage).
  - lia.
  - reflexivity.
  - vm_compute. reflexivity.
  - vm_compute. reflexivity.
  - vm_compute. reflexivity.
Defined.

(** X11.  Once the tolerance window has passed since the recorded last
    automatic backup, a firing on a backup day runs the pass again and
    records its own time, in memory and, when the write is accepted, in
    the store. *)
Theorem alarm_runs_after_tolerance (h : Host.t) (day : nat) (now now' last : Z)
    (bg : Background.t) (sto : Storage.t) :
  includes (Settings.backupDays (currentSettings bg)) (daysOfWeek !! day) = true →
  lastAutomaticBackup bg = Some last →
  Settings.toleranceHours (currentSettings bg) * (60 * 60 * 1000) <= now - last →
  let f := handleAlarm h day now now' "automaticBackup" bg sto in
  fired_pass f = Some (performBackup h now' bg sto)
  ∧ lastAutomaticBackup (fired_bg f) = Some now
  ∧ (Host.writable h = true → Storage.lastAutomaticBackup (fired_storage f) = Some now).
Proof.
  intros Hday Hlast Htol f.
  assert (Hguard : too_soon (currentSettings bg) now (lastAutomaticBackup bg) = false).
  { rewrite Hlast. unfold too_soon, truthy_num. destruct (last =? 0); [done|]. lia. }
  destruct (handleAlarm_runs h day now now' bg sto Hday Hguard) as (Hpass & Hl & _).
  split; [exact Hpass|]. split; [exact Hl|].
  intros Hw. subst f. unfold handleAlarm. rewrite Hday, Hguard, Hw.
  replace ("automaticBackup" =? "automaticBackup")%string with true by done.
  reflexivity.
Qed.

(** The theorem thirteen hours after a recorded backup, with the default
    tolerance of twelve hours. *)
Lemma alarm_runs_after_tolerance_witness :
  let bg := {| currentSettings := Background.DEFAULT_SETTINGS;
               tabData := ∅;
               lastAutomaticBackup := Some 1000000 |} in
  let h := Examples.host [Examples.tabA] in
  let f := handleAlarm h 1 47800000 47800001 "automaticBackup" bg Examples.empty_storage in
  fired_pass f = Some (performBackup h 47800001 bg Examples.empty_storage)
  ∧ lastAutomaticBackup (fired_bg f) = Some 47800000
  ∧ (Host.writable h = true → Storage.lastAutomaticBackup (fired_storage f) = Some 47800000).
Proof.
  intros bg h.
  apply (alarm_runs_after_tolerance h 1 47800000 47800001 1000000 bg Examples.empty_storage).
  - vm_compute. reflexivity.
  - reflexivity.
  - vm_compute. discriminate.
Defined.

(** X12.  [initialize] does not read the stored time of the last
    automatic backup: the script's variable is what it was (empty at the
    start of the script), so the first firing on a backup day after a
    restart runs the pass whatever time the store records. *)
Theorem restart_forgets_last_backup (readable : bool) (tz now0 : Z) (sto : Storage.t)
    (bg0 : Background.t) (alarms : gmap string Alarm.t)
    (h : Host.t) (day : nat) (now now' : Z) :
  let bg := fst (Startup.initialize readable tz now0 sto bg0 alarms) in
  lastAutomaticBackup bg = lastAutomaticBackup bg0
  ∧ (lastAutomaticBackup bg0 = None →
     includes (Settings.backupDays (currentSettings bg)) (daysOfWeek !! day) = true →
     fired_pass (handleAlarm h day now now' "automaticBackup" bg sto)
     = Some (performBackup h now' bg sto)).
Proof.
  intros bg.
  assert (Hlast : lastAutomaticBackup bg = lastAutomaticBackup bg0).
  { subst bg. unfold Startup.initialize, Startup.loadTabData, Background.loadSettings.
    destruct readable; [destruct (Storage.settings sto), (Storage.tabData sto)|];
      repeat (match goal with
              | |- context [if ?b then _ else _] => destruct b
              end); reflexivity. }
  split; [exact Hlast|]. intros Hnone Hday.
  apply handleAlarm_runs; [exact Hday|]. by rewrite Hlast, Hnone.
Qed.

(** ** The message handler *)

(** X13.  Every message other than [performBackup] and [updateSettings]
    leaves the script's variables, the store and the alarms as they are;
    [getTabCount] answers the number of records, and an action that is
    none of the five known ones (a missing action included) answers the
    unknown-action error. *)
Theorem other_messages_change_nothing (h : Host.t) (tz now : Z) (got : option (list Z))
    (m : Messaging.Message) (bg : Background.t) (sto : Storage.t)
    (alarms : gmap string Alarm.t) :
  Messaging.is_action m "performBackup" = false →
  Messaging.is_action m "updateSettings" = false →
  let r := Messaging.handleMessage h tz now got m bg sto alarms in
  Messaging.bg r = bg ∧ Messaging.storage r = sto ∧ Messaging.alarms r = alarms
  ∧ (Messaging.is_action m "getTabCount" = true →
     Messaging.response r = Messaging.CountIs (size (tabData bg)))
  ∧ (Messaging.is_action m "getTabCount" = false →
     Messaging.is_action m "getSettings" = false →
     Messaging.is_action m "getBackupStatus" = false →
     Messaging.response r = Messaging.UnknownAction).
Proof.
  intros Hp Hu r. subst r. unfold Messaging.handleMessage. rewrite Hp, Hu.
  destruct (Messaging.is_action m "getTabCount"); [by repeat split|].
  destruct (Messaging.is_action m "getSettings"); [by repeat split|].
  destruct (Messaging.is_action m "getBackupStatus"); [|by repeat split].
  destruct (Settings.autoBackupEnabled (currentSettings bg)); [|by repeat split].
  destruct got as [[|t l]|]; by repeat split.
Qed.

(** The theorem at a message without an action. *)
Lemma other_messages_change_nothing_witness :
  let m := Messaging.mkMessage None Partial.empty in
  let r := Messaging.handleMessage (Examples.host []) 0 1000 None m Background.initial
             Examples.empty_storage ∅ in
  Messaging.bg r = Background.initial
  ∧ Messaging.response r = Messaging.UnknownAction.
Proof.
  intros m.
  destruct (other_messages_change_nothing (Examples.host []) 0 1000 None m
              Background.initial Examples.empty_storage ∅ eq_refl eq_refl)
    as (Hbg & _ & _ & _ & Hunknown).
  split; [exact Hbg|]. by apply Hunknown.
Defined.

(** ** More on the reconciliation pass *)

Lemma backup_loop_nothing (s : Settings.t) (now : Z) (tabs : list Tab.t) (p : Pass) :
  (∀ tab, In tab tabs → qualifies s now (pass_tabData p) tab = false) →
  backup_loop s now tabs p = p.
Proof.
  induction tabs as [|tab rest IH]; intros Hnone; cbn [backup_loop]; [done|].
  assert (Hrest : ∀ t, In t rest → qualifies s now (pass_tabData p) t = false)
    by (intros t Ht; apply Hnone; by right).
  pose proof (Hnone tab (or_introl eq_refl)) as Htab. unfold qualifies in Htab.
  destruct (excluded s tab); [by apply IH|].
  destruct (too_young s now (pass_tabData p) tab); [by apply IH|done].
Qed.

(** X14.  A pass over open tabs none of which qualifies (no open tab at
    all included) writes nothing and leaves the tab data as it is; it is
    reported as a success with count zero and the message that there is
    nothing to back up, and the unchanged tab data is still written to the
    store. *)
Theorem pass_with_nothing_to_back_up (h : Host.t) (now : Z) (bg : Background.t)
    (sto : Storage.t) (tabs : list Tab.t) :
  Host.openTabs h = Some tabs →
  (∀ tab, In tab tabs → qualifies (currentSettings bg) now (tabData bg) tab = false) →
  let o := performBackup h now bg sto in
  out_written o = []
  ∧ tabData (out_bg o) = tabData bg
  ∧ (Host.writable h = true →
     out_result o = Success 0 (Some "No tabs to back up")
     ∧ Storage.tabData (out_storage o) = Some (tabData bg)).
Proof.
  intros Htabs Hnone o. subst o. unfold performBackup, saveTabData. rewrite Htabs.
  rewrite backup_loop_nothing by exact Hnone.
  cbn [start backupCount pass_tabData written rev tabData set_tabData].
  destruct (Host.writable h); cbn; repeat split; done.
Qed.

(** The theorem at a private tab and a tab without a record, with the
    default minimum of seven days. *)
Lemma pass_with_nothing_to_back_up_witness :
  let private := {| Tab.id := 9; Tab.url := Some "https://p.example/";
                    Tab.title := Some "Private"; Tab.incognito := true;
                    Tab.pinned := false; Tab.favIconUrl := None;
                    Tab.createdAt := None; Tab.lastAccessed := None;
                    Tab.lastModified := None |} in
  let tabs := [private; Examples.tabA] in
  let bg := Examples.background Background.DEFAULT_SETTINGS ∅ in
  let o := performBackup (Examples.host tabs) 1000 bg Examples.empty_storage in
  out_written o = []
  ∧ tabData (out_bg o) = tabData bg
  ∧ (Host.writable (Examples.host tabs) = true →
     out_result o = Success 0 (Some "No tabs to back up")
     ∧ Storage.tabData (out_storage o) = Some (tabData bg)).
Proof.
  intros private tabs bg.
  apply (pass_with_nothing_to_back_up (Examples.host tabs) 1000 bg Examples.empty_storage
           tabs eq_refl).
  intros tab [<-|[<-|[]]]; vm_compute; reflexivity.
Defined.

Lemma upserted_record_facts (s : Settings.t) (now : Z) (old : option TrackedTab.t)
    (tab : Tab.t) :
  TrackedTab.url (upserted_record s now old tab) = Tab.url tab
  ∧ TrackedTab.lastUpdated (upserted_record s now old tab) = Some now.
Proof.
  unfold upserted_record. destruct old as [rec|]; [|done].
  by destruct (truthy_num (TrackedTab.createdAt rec)).
Qed.

Lemma excluded_false_http (s : Settings.t) (tab : Tab.t) :
  excluded s tab = false → is_http (Tab.url tab) = true.
Proof.
  unfold excluded. intros Hex. apply orb_false_iff in Hex as [_ Hex].
  by apply negb_false_iff in Hex.
Qed.

Lemma backup_loop_all_http (s : Settings.t) (now : Z) (tabs : list Tab.t) :
  ∀ p, all_http (pass_tabData p) → all_http (pass_tabData (backup_loop s now tabs p)).
Proof.
  induction tabs as [|tab rest IH]; intros p Hp; cbn [backup_loop]; [done|].
  destruct (excluded s tab) eqn:Hex; [by apply IH|].
  destruct (too_young s now (pass_tabData p) tab); [by apply IH|].
  set (p' := {| pass_tabData := upsert s now (pass_tabData p) tab;
                backupCount := backupCount p + 1;
                written := tab :: written p |}).
  assert (Hp' : all_http (pass_tabData p')).
  { cbn [p' pass_tabData]. intros k r. unfold upsert. rewrite lookup_insert.
    case_decide as Hk; [|by apply Hp]. intros [= <-].
    destruct (upserted_record_facts s now (pass_tabData p !! key (Tab.id tab)) tab) as [-> _].
    by eapply excluded_false_http. }
  destruct (backupCount p' >=? Settings.maxTabs s); [done|]. by apply IH.
Qed.

(** X15.  The background script only ever records http(s) URLs: if every
    record holds one, so does every record after a tab update, after a tab
    removal and after a pass. *)
Theorem records_hold_http_urls (h : Host.t) (bg : Background.t) (sto : Storage.t) :
  all_http (tabData bg) →
  (∀ now tabId status tab,
     all_http (tabData (fst (handleTabUpdate h now tabId status tab bg sto))))
  ∧ (∀ tabId, all_http (tabData (fst (handleTabRemoved h tabId bg sto))))
  ∧ (∀ now, all_http (tabData (out_bg (performBackup h now bg sto)))).
Proof.
  intros Hall. repeat split.
  - intros now tabId status tab. unfold handleTabUpdate, saveTabData.
    destruct (negb (bool_decide (status = Some "complete"))
              || negb (is_truthy_str (Tab.url tab))); [done|].
    destruct (Settings.excludePrivate (currentSettings bg) && Tab.incognito tab); [done|].
    destruct (Settings.excludePinned (currentSettings bg) && Tab.pinned tab); [done|].
    destruct (is_http (Tab.url tab)) eqn:Hhttp; cbn [negb]; [|done].
    destruct (old_enough (currentSettings bg) now tab); [|done].
    assert (Hins : all_http (<[key tabId := tracked_record (currentSettings bg) now tab]>
                               (tabData bg))).
    { intros k r. rewrite lookup_insert. case_decide; [|by apply Hall].
      by intros [= <-]. }
    by destruct (Host.writable h).
  - intros tabId. unfold handleTabRemoved, saveTabData.
    destruct (tabData bg !! key tabId); [|done].
    assert (Hdel : all_http (delete (key tabId) (tabData bg))).
    { intros k r Hk. apply lookup_delete_Some in Hk as [_ Hk]. by eapply Hall. }
    by destruct (Host.writable h).
  - intros now. destruct (Host.openTabs h) as [tabs|] eqn:Htabs.
    + destruct (performBackup_loop h now bg sto tabs Htabs) as (_ & -> & _).
      by apply backup_loop_all_http.
    + by rewrite performBackup_no_tabs.
Qed.

(** The theorem from the empty tab data. *)
Lemma records_hold_http_urls_witness :
  all_http (tabData (out_bg (performBackup (Examples.host [Examples.tabA]) 1000
                               (Examples.background (Examples.settings (-1) 1000 100) ∅)
                               Examples.empty_storage))).
Proof.
  destruct (records_hold_http_urls (Examples.host [Examples.tabA])
              (Examples.background (Examples.settings (-1) 1000 100) ∅)
              Examples.empty_storage) as (_ & _ & Hpass).
  - intros k r Hk. cbn in Hk. by rewrite lookup_empty in Hk.
  - apply Hpass.
Defined.

Lemma backup_loop_stamped (s : Settings.t) (now : Z) (all : list Tab.t) (tabs : list Tab.t) :
  (∀ tab, In tab tabs → In tab all) →
  ∀ p, stamped s now all p → stamped s now all (backup_loop s now tabs p).
Proof.
  induction tabs as [|tab rest IH]; intros Hsub p Hp; cbn [backup_loop]; [done|].
  assert (Hrest : ∀ t, In t rest → In t all) by (intros t Ht; apply Hsub; by right).
  destruct (excluded s tab) eqn:Hex; [by apply IH|].
  destruct (too_young s now (pass_tabData p) tab); [by apply IH|].
  set (p' := {| pass_tabData := upsert s now (pass_tabData p) tab;
                backupCount := backupCount p + 1;
                written := tab :: written p |}).
  assert (Hp' : stamped s now all p').
  { intros t Ht. cbn [p' written pass_tabData] in *.
    assert (Hnew : ∃ r, upsert s now (pass_tabData p) tab !! key (Tab.id tab) = Some r
                        ∧ TrackedTab.lastUpdated r = Some now).
    { rewrite upsert_lookup. eexists. split; [done|].
      apply upserted_record_facts. }
    destruct Ht as [<-|Ht].
    - split; [apply Hsub; by left|]. by split.
    - destruct (Hp t Ht) as (Hin & Hext & r & Hr & Hstamp).
      split; [done|]. split; [done|].
      destruct (decide (key (Tab.id tab) = key (Tab.id t))) as [Heq|Hne].
      + rewrite <- Heq. exact Hnew.
      + rewrite upsert_lookup_ne by done. eauto. }
  destruct (backupCount p' >=? Settings.maxTabs s); [done|]. by apply IH.
Qed.

(** X16.  After a pass, every tab it wrote is one of the open tabs, is
    neither excluded as private or pinned nor without an http(s) URL, and
    has a record under its identifier whose [lastUpdated] is the time of
    the pass; a key that belongs to no written tab holds what it held
    before. *)
Theorem written_tabs_are_stamped (h : Host.t) (now : Z) (bg : Background.t)
    (sto : Storage.t) (tabs : list Tab.t) :
  Host.openTabs h = Some tabs →
  let o := performBackup h now bg sto in
  (∀ tab, In tab (out_written o) →
     In tab tabs ∧ excluded (currentSettings bg) tab = false
     ∧ ∃ r, tabData (out_bg o) !! key (Tab.id tab) = Some r
            ∧ TrackedTab.lastUpdated r = Some now)
  ∧ (∀ k, (∀ tab, In tab (out_written o) → key (Tab.id tab) ≠ k) →
          tabData (out_bg o) !! k = tabData bg !! k).
Proof.
  intros Htabs o.
  destruct (performBackup_loop h now bg sto tabs Htabs) as (Hw & Htd & _).
  fold o in Hw, Htd. rewrite Hw, Htd. split.
  - intros tab Hin. apply in_rev in Hin.
    apply (backup_loop_stamped (currentSettings bg) now tabs tabs); [done| |done].
    intros t [].
  - intros k Hk. apply backup_loop_frame. intros tab Hin. apply Hk. by apply in_rev in Hin.
Qed.

(** The theorem at a pass in debug mode over two tabs. *)
Lemma written_tabs_are_stamped_witness :
  let tabs := [Examples.tabA; Examples.tabB] in
  let bg := Examples.background (Examples.settings (-1) 1000 100) ∅ in
  let o := performBackup (Examples.host tabs) 1000 bg Examples.empty_storage in
  In Examples.tabB (out_written o)
  ∧ ∃ r, tabData (out_bg o) !! key 2 = Some r ∧ TrackedTab.lastUpdated r = Some 1000.
Proof.
  intros tabs bg o.
  assert (Hin : In Examples.tabB (out_written o)) by (vm_compute; right; by left).
  split; [exact Hin|].
  destruct (written_tabs_are_stamped (Examples.host tabs) 1000 bg Examples.empty_storage
              tabs eq_refl) as [Hstamp _].
  by destruct (Hstamp Examples.tabB Hin) as (_ & _ & Hr).
Defined.

(** X17.  When the host rejects the write at the end of a pass, the pass
    reports a failure and the store is what it was, but nothing is rolled
    back in memory: every tab the pass wrote has its record in the
    script's tab data. *)
Theorem rejected_write_is_not_rolled_back (h : Host.t) (now : Z) (bg : Background.t)
    (sto : Storage.t) (tabs : list Tab.t) :
  Host.openTabs h = Some tabs →
  Host.writable h = false →
  let o := performBackup h now bg sto in
  out_result o = Failure
  ∧ out_storage o = sto
  ∧ ∀ tab, In tab (out_written o) → is_Some (tabData (out_bg o) !! key (Tab.id tab)).
Proof.
  intros Htabs Hw o.
  destruct (performBackup_loop h now bg sto tabs Htabs) as (Hwr & Htd & _ & _ & _ & Hrej).
  destruct (Hrej Hw) as [Hres Hsto]. fold o in Hwr, Htd, Hres, Hsto.
  repeat split; try done.
  intros tab Hin. rewrite Hwr in Hin. apply in_rev in Hin. rewrite Htd.
  destruct (backup_loop_stamped (currentSettings bg) now tabs tabs (λ _ H, H)
              (start (tabData bg)) (λ t (F : In t []), match F with end) tab Hin)
    as (_ & _ & r & Hr & _).
  by eexists.
Qed.

(** The theorem at a host that rejects the write, for one tab in debug
    mode. *)
Lemma rejected_write_is_not_rolled_back_witness :
  let h := {| Host.openTabs := Some [Examples.tabA]; Host.writable := false |} in
  let bg := Examples.background (Examples.settings (-1) 1000 100) ∅ in
  let o := performBackup h 1000 bg Examples.empty_storage in
  out_result o = Failure
  ∧ out_storage o = Examples.empty_storage
  ∧ In Examples.tabA (out_written o)
  ∧ is_Some (tabData (out_bg o) !! key 1).
Proof.
  intros h bg o.
  destruct (rejected_write_is_not_rolled_back h 1000 bg Examples.empty_storage
              [Examples.tabA] eq_refl eq_refl) as (H1 & H2 & H3).
  assert (Hin : In Examples.tabA (out_written o)) by (vm_compute; by left).
  split; [exact H1|]. split; [exact H2|]. split; [exact Hin|].
  exact (H3 Examples.tabA Hin).
Defined.

(** ** More on the merged view of the dashboard *)

Section DashboardView.

Variable getDomain : string → string.

Lemma get_In (m : list (string * Tab.t)) (k : string) (v : Tab.t) :
  Dashboard.get m k = Some v → In (k, v) m.
Proof.
  induction m as [|[k0 v0] m IH]; cbn [Dashboard.get]; [done|].
  destruct (String.eqb_spec k0 k) as [->|Hne].
  - intros [= ->]. by left.
  - intros Hget. right. by apply IH.
Qed.

Lemma assign_In (m : list (string * Tab.t)) (k : string) (v : Tab.t) (kv : string * Tab.t) :
  In kv (Dashboard.assign m k v) → kv = (k, v) ∨ In kv m.
Proof.
  induction m as [|[k0 v0] m IH]; cbn [Dashboard.assign].
  - intros [<-|[]]. by left.
  - destruct (String.eqb_spec k0 k) as [->|Hne].
    + intros [<-|Hin]; [by left|right; by right].
    + intros [<-|Hin]; [right; by left|].
      destruct (IH Hin) as [->|Hin']; [by left|right; by right].
Qed.

(** Every value of [openTabsMap] is an open tab with an http(s) URL. *)
Lemma fill_open_http (all openTabs : list Tab.t) :
  (∀ tab, In tab openTabs → In tab all) →
  ∀ m, (∀ kv, In kv m → In (snd kv) all ∧ is_http (Tab.url (snd kv)) = true) →
       ∀ kv, In kv (Dashboard.fill openTabs m) →
             In (snd kv) all ∧ is_http (Tab.url (snd kv)) = true.
Proof.
  induction openTabs as [|tab rest IH]; intros Hsub m Hm kv; cbn [Dashboard.fill].
  { intros Hin. by apply Hm. }
  assert (Hrest : ∀ t, In t rest → In t all) by (intros t Ht; apply Hsub; by right).
  destruct (is_http (Tab.url tab)) eqn:Ht; [|by apply IH].
  apply IH; [done|]. intros kv' Hkv'. apply assign_In in Hkv' as [->|Hkv'].
  - cbn [snd]. split; [apply Hsub; by left|done].
  - by apply Hm.
Qed.

Lemma openTabsMap_facts (openTabs : list Tab.t) (k : string) (v : Tab.t) :
  In (k, v) (Dashboard.openTabsMap openTabs) →
  In v openTabs ∧ Tab.url v = Some k ∧ is_http (Some k) = true.
Proof.
  intros Hin.
  assert (Hfiled : filed (Dashboard.openTabsMap openTabs)).
  { apply (fill_filed getDomain). split; [apply NoDup_nil_2|]. by intros kv []. }
  destruct (fill_open_http openTabs openTabs (λ _ H, H) []
              (λ kv (F : In kv []), match F with end) (k, v) Hin) as [Hopen Hhttp].
  destruct Hfiled as [_ Hurl]. specialize (Hurl (k, v) Hin). cbn [fst snd] in *.
  split; [done|]. split; [done|]. by rewrite <- Hurl.
Qed.

(** X18.  With nothing stored, the merge lists the open http(s) tabs and
    nothing else: the URL of every open http(s) tab has exactly one row,
    and every row shows the URL of an open http(s) tab and carries its
    identifier, is not tagged logged, and has age zero. *)
Theorem empty_log_lists_open_tabs (now : Z) (openTabs : list Tab.t) :
  let rows := Dashboard.loadTabLog getDomain now [] openTabs in
  (∀ tab u, In tab openTabs → Tab.url tab = Some u → is_http (Some u) = true →
     Dashboard.rows_with_url rows u = 1%nat)
  ∧ ∀ row, In row rows →
      Dashboard.logged row = false
      ∧ Dashboard.ageInDays row = Num 0
      ∧ is_http (Dashboard.url row) = true
      ∧ ∃ tab, In tab openTabs ∧ Tab.url tab = Dashboard.url row
               ∧ Dashboard.tabId row = Dashboard.OpenTab (Tab.id tab).
Proof.
  intros rows. split.
  { intros tab u Hin Hu Hhttp.
    by destruct (open_url_has_one_row getDomain now [] openTabs tab u Hin Hu Hhttp). }
  subst rows. unfold Dashboard.loadTabLog.
  rewrite filter_nil. cbn [map]. rewrite app_nil_r.
  intros row Hrow. apply in_map_iff in Hrow as ([k v] & <- & Hkv).
  destruct (openTabsMap_facts openTabs k v Hkv) as (Hopen & Hurl & Hhttp).
  cbn [fst snd Dashboard.openRow Dashboard.loggedUrlSet_has existsb Dashboard.logged
       Dashboard.ageInDays Dashboard.url Dashboard.tabId].
  repeat split; try done.
  - by rewrite Hurl.
  - by exists v.
Qed.

Lemma loggedUrlSet_has_In (entries : list (string * TrackedTab.t)) (k u : string)
    (rec : TrackedTab.t) :
  In (k, rec) entries → TrackedTab.url rec = Some u → u ≠ "" →
  Dashboard.loggedUrlSet_has entries u = true.
Proof.
  intros Hin Hu Hne. unfold Dashboard.loggedUrlSet_has. apply existsb_exists.
  exists (k, rec). split; [done|]. cbn [snd]. rewrite Hu.
  destruct u as [|c u]; [done|]. cbn [truthy_str]. apply String.eqb_refl.
Qed.

(** No http(s) URL is the name of an inherited property. *)
Lemma http_is_not_inherited (u : string) :
  is_http (Some u) = true → Dashboard.inherited u = false.
Proof.
  intros Hhttp. destruct (Dashboard.inherited u) eqn:E; [|done].
  unfold Dashboard.inherited in E. apply existsb_exists in E as (x & Hin & Heq).
  apply String.eqb_eq in Heq. subst x.
  cbn [In] in Hin. repeat (destruct Hin as [<-|Hin]; [by vm_compute in Hhttp|]).
  done.
Qed.

(** X19.  The merge loses no stored record whose URL is not the name of
    a property that [openTabsMap] inherits (no http(s) URL is one): such
    a record either has a row of its own, tagged logged and carrying its
    key, or holds the URL of an open tab, whose row is then tagged
    logged. *)
Theorem every_record_is_shown (now : Z) (entries : list (string * TrackedTab.t))
    (openTabs : list Tab.t) (k : string) (rec : TrackedTab.t) :
  In (k, rec) entries →
  Dashboard.inherited (default "undefined" (TrackedTab.url rec)) = false →
  let rows := Dashboard.loadTabLog getDomain now entries openTabs in
  (∃ row, In row rows
          ∧ Dashboard.tabId row = Dashboard.LoggedKey k
          ∧ Dashboard.url row = TrackedTab.url rec
          ∧ Dashboard.logged row = true)
  ∨ (∃ row tab, In row rows
                ∧ In tab openTabs
                ∧ Dashboard.tabId row = Dashboard.OpenTab (Tab.id tab)
                ∧ Dashboard.url row = TrackedTab.url rec
                ∧ Dashboard.logged row = true).
Proof.
  intros Hin Hown rows. subst rows. unfold Dashboard.loadTabLog.
  destruct (Dashboard.not_open (Dashboard.openTabsMap openTabs) rec) eqn:Hopen.
  - left. exists (Dashboard.loggedRow getDomain now k rec).
    split; [|by repeat split].
    apply in_or_app. right. apply in_map_iff. exists (k, rec). split; [done|].
    apply list_elem_of_In, list_elem_of_filter. split; [cbn [snd]; by rewrite Hopen|].
    by apply list_elem_of_In.
  - right. unfold Dashboard.not_open, Dashboard.truthy_at in Hopen.
    rewrite Hown in Hopen.
    destruct (Dashboard.get (Dashboard.openTabsMap openTabs)
                (default "undefined" (TrackedTab.url rec))) as [v|] eqn:Hget; [|done].
    apply get_In in Hget.
    destruct (openTabsMap_facts openTabs _ v Hget) as (Hv & Hurl & Hhttp).
    destruct (TrackedTab.url rec) as [u|] eqn:Hu; [|done]. cbn [default from_option id] in *.
    exists (Dashboard.openRow getDomain now entries u v), v.
    split; [|repeat split; try done].
    + apply in_or_app. left. apply in_map_iff. by exists (u, v).
    + cbn [Dashboard.openRow Dashboard.logged].
      apply (loggedUrlSet_has_In entries k u rec Hin Hu).
      intros ->. done.
Qed.

End DashboardView.

(** The theorem at a record whose tab is closed. *)
Lemma every_record_is_shown_witness :
  let rec := Examples.record "https://a.example/" "Alpha" 1000 in
  let rows := Dashboard.loadTabLog (fun _ => "a.example") 2000 [("7", rec)]
                [Examples.tabB] in
  (∃ row, In row rows
          ∧ Dashboard.tabId row = Dashboard.LoggedKey "7"
          ∧ Dashboard.url row = TrackedTab.url rec
          ∧ Dashboard.logged row = true)
  ∨ (∃ row tab, In row rows
                ∧ In tab [Examples.tabB]
                ∧ Dashboard.tabId row = Dashboard.OpenTab (Tab.id tab)
                ∧ Dashboard.url row = TrackedTab.url rec
                ∧ Dashboard.logged row = true).
Proof.
  intros rec.
  apply (every_record_is_shown (fun _ => "a.example") 2000 [("7", rec)] [Examples.tabB]
           "7" rec).
  - by left.
  - vm_compute. reflexivity.
Defined.

(** ** Adding and removing rows from the dashboard *)

Lemma remove_first_Some (u : string) (entries entries' : list (string * TrackedTab.t)) :
  TabLog.remove_first u entries = Some entries' →
  records_with_url entries u = S (records_with_url entries' u)
  ∧ ∀ u', u' ≠ u → records_with_url entries u' = records_with_url entries' u'.
Proof.
  unfold records_with_url. revert entries'.
  induction entries as [|[k rec] entries IH]; intros entries'; cbn [TabLog.remove_first];
    [done|].
  cbn [List.filter snd]. case_bool_decide as Hu.
  - intros [= <-]. cbn [List.length]. split; [done|].
    intros u' Hne. rewrite bool_decide_eq_false_2; [done|]. congruence.
  - destruct (TabLog.remove_first u entries) as [rest'|]; [|done].
    intros [= <-]. destruct (IH rest' eq_refl) as [IH1 IH2].
    cbn [List.filter snd]. rewrite bool_decide_eq_false_2 by done. split; [done|].
    intros u' Hne. destruct (bool_decide (TrackedTab.url rec = Some u'));
      cbn [List.length]; by rewrite IH2.
Qed.

Lemma remove_first_None (u : string) (entries : list (string * TrackedTab.t)) :
  TabLog.remove_first u entries = None ↔ records_with_url entries u = 0%nat.
Proof.
  unfold records_with_url.
  induction entries as [|[k rec] entries IH]; cbn [TabLog.remove_first List.filter snd];
    [done|].
  case_bool_decide as Hu; cbn [List.length]; [done|].
  destruct (TabLog.remove_first u entries); [|done].
  split; [done|]. intros H0. by apply IH in H0.
Qed.

Lemma put_In (entries : list (string * TrackedTab.t)) (k : string) (rec : TrackedTab.t) :
  In (k, rec) (TabLog.put entries k rec).
Proof.
  induction entries as [|[k0 r0] entries IH]; cbn [TabLog.put]; [by left|].
  destruct (String.eqb_spec k0 k) as [->|Hne]; [by left|by right].
Qed.

Lemma put_fresh (entries : list (string * TrackedTab.t)) (k : string) (rec : TrackedTab.t) :
  ¬ In k (map fst entries) → TabLog.put entries k rec = entries ++ [(k, rec)].
Proof.
  induction entries as [|[k0 r0] entries IH]; cbn [TabLog.put map fst In]; [done|].
  intros Hfresh. destruct (String.eqb_spec k0 k) as [->|Hne].
  - exfalso. apply Hfresh. by left.
  - cbn [app]. rewrite IH; [done|]. intros Hin. apply Hfresh. by right.
Qed.

Lemma remove_first_last (u k : string) (rec : TrackedTab.t)
    (entries : list (string * TrackedTab.t)) :
  records_with_url entries u = 0%nat → TrackedTab.url rec = Some u →
  TabLog.remove_first u (entries ++ [(k, rec)]) = Some entries.
Proof.
  unfold records_with_url. intros Hnone Hu.
  induction entries as [|[k0 r0] entries IH]; cbn [app TabLog.remove_first].
  - by rewrite bool_decide_eq_true_2.
  - cbn [List.filter snd] in Hnone. case_bool_decide; [done|]. by rewrite IH.
Qed.

(** The box [renderTable] draws for a row carries the row's URL and its
    logged tag, which is what the handler reads back. *)
Lemma rendered_box (formatDate : option Z → string) (row : Dashboard.Row) (u : string) :
  Dashboard.url row = Some u →
  TabLog.box_url (TabLog.rendered formatDate row) = u
  ∧ TabLog.box_logged (TabLog.rendered formatDate row) = Dashboard.logged row
  ∧ TabLog.cell_opened (TabLog.rendered formatDate row)
    = formatDate (Dashboard.createdAt row).
Proof. intros Hu. unfold TabLog.rendered. cbn. by rewrite Hu. Qed.

(** X20.  Adding a row that is not logged: with the write accepted, the
    handler stores a record holding the row's URL (created at the host's
    clock reading), announces one updated tab, and every row that the
    merge then shows for that URL, open or not, is tagged logged. *)
Theorem adding_a_row_logs_its_url (h : Host.t) (supply : nat → string * Z)
    (c : TabLog.Checked) (entries : list (string * TrackedTab.t)) :
  Host.writable h = true →
  TabLog.box_logged c = false →
  TabLog.box_url c ≠ "" →
  let r := TabLog.handleAddRemoveCheckedTabs h supply [c] entries in
  snd r = TabLog.Successfully 1
  ∧ In (fst (supply 0%nat), TabLog.added_record c (snd (supply 0%nat))) (fst r)
  ∧ (1 <= records_with_url (fst r) (TabLog.box_url c))%nat
  ∧ ∀ getDomain now openTabs row,
      In row (Dashboard.loadTabLog getDomain now (fst r) openTabs) →
      Dashboard.url row = Some (TabLog.box_url c) →
      Dashboard.logged row = true.
Proof.
  intros Hw Hlogged Hurl r. subst r. unfold TabLog.handleAddRemoveCheckedTabs.
  cbn [TabLog.toggle]. rewrite Hlogged, Hw. cbn [fst snd List.length].
  set (k := fst (supply 0%nat)). set (rec := TabLog.added_record c (snd (supply 0%nat))).
  pose proof (put_In entries k rec) as Hin.
  split; [done|]. split; [exact Hin|]. split.
  - unfold records_with_url.
    assert (Hf : In (k, rec) (List.filter
                   (fun e => bool_decide (TrackedTab.url (snd e) = Some (TabLog.box_url c)))
                   (TabLog.put entries k rec))).
    { apply filter_In. split; [done|]. by apply bool_decide_eq_true_2. }
    destruct (List.filter _ _); [by destruct Hf|cbn [List.length]; lia].
  - intros getDomain now openTabs row Hrow Hu. unfold Dashboard.loadTabLog in Hrow.
    apply in_app_or in Hrow as [Hrow|Hrow].
    + apply in_map_iff in Hrow as ([u v] & <- & Hkv).
      cbn [fst snd Dashboard.openRow Dashboard.logged Dashboard.url] in *.
      pose proof (openTabsMap_facts getDomain openTabs u v Hkv) as (_ & Hv & _).
      assert (u = TabLog.box_url c) as -> by congruence.
      by apply (loggedUrlSet_has_In _ k _ rec Hin).
    + by apply in_map_iff in Hrow as ([k' rec'] & <- & _).
Qed.

(** The theorem at the row of an open tab, with a day-old clock and a
    fresh identifier. *)
Lemma adding_a_row_logs_its_url_witness :
  let c := {| TabLog.box_url := "https://a.example/"; TabLog.box_logged := false;
              TabLog.cell_title := "Alpha"; TabLog.cell_opened := "1/2/1970" |} in
  let r := TabLog.handleAddRemoveCheckedTabs (Examples.host [])
             (fun _ => ("86400000k3x9", 86400000)) [c] [] in
  snd r = TabLog.Successfully 1
  ∧ In ("86400000k3x9", TabLog.added_record c 86400000) (fst r)
  ∧ (1 <= records_with_url (fst r) "https://a.example/")%nat.
Proof.
  intros c.
  destruct (adding_a_row_logs_its_url (Examples.host [])
              (fun _ => ("86400000k3x9", 86400000)) c []) as (H1 & H2 & H3 & _);
    [reflexivity | reflexivity | discriminate |].
  by repeat split.
Defined.

(** X21.  Removing a row that is logged deletes exactly one stored record
    holding the row's URL and no record of any other URL, so a URL held by
    two records is still logged afterwards; when no record holds the URL,
    nothing is written and no notice is shown. *)
Theorem removing_a_row_deletes_one_record (h : Host.t) (supply : nat → string * Z)
    (c : TabLog.Checked) (entries : list (string * TrackedTab.t)) :
  Host.writable h = true →
  TabLog.box_logged c = true →
  let r := TabLog.handleAddRemoveCheckedTabs h supply [c] entries in
  records_with_url (fst r) (TabLog.box_url c)
  = Nat.pred (records_with_url entries (TabLog.box_url c))
  ∧ (∀ u, u ≠ TabLog.box_url c → records_with_url (fst r) u = records_with_url entries u)
  ∧ (records_with_url entries (TabLog.box_url c) = 0%nat → r = (entries, TabLog.Nothing))
  ∧ (records_with_url entries (TabLog.box_url c) ≠ 0%nat → snd r = TabLog.Successfully 1).
Proof.
  intros Hw Hlogged r. subst r. unfold TabLog.handleAddRemoveCheckedTabs.
  cbn [TabLog.toggle]. rewrite Hlogged.
  destruct (TabLog.remove_first (TabLog.box_url c) entries) as [entries'|] eqn:Hrem.
  - rewrite Hw. cbn [fst snd List.length].
    destruct (remove_first_Some _ _ _ Hrem) as [Hcount Hother].
    rewrite Hcount. repeat split; try done.
    intros u Hu. symmetry. by apply Hother.
  - cbn [fst snd]. apply remove_first_None in Hrem. rewrite Hrem.
    repeat split; done.
Qed.

(** The theorem at two records that hold the same URL. *)
Lemma removing_a_row_deletes_one_record_witness :
  let rec := Examples.record "https://a.example/" "Alpha" 1000 in
  let entries := [("1", rec); ("2", rec)] in
  let c := {| TabLog.box_url := "https://a.example/"; TabLog.box_logged := true;
              TabLog.cell_title := "Alpha"; TabLog.cell_opened := "1/1/1970" |} in
  let r := TabLog.handleAddRemoveCheckedTabs (Examples.host []) (fun _ => ("x", 0)) [c]
             entries in
  records_with_url (fst r) "https://a.example/" = 1%nat
  ∧ fst r = [("2", rec)].
Proof.
  intros rec entries c.
  destruct (removing_a_row_deletes_one_record (Examples.host []) (fun _ => ("x", 0)) c
              entries eq_refl eq_refl) as (H1 & _).
  split; [exact H1|reflexivity].
Defined.

(** X22.  Adding a row and then removing it gives back the stored records
    as they were, in the same order, when no record held the row's URL
    before and the host's identifier is not a key already in use. *)
Theorem add_then_remove_restores (h h' : Host.t) (supply supply' : nat → string * Z)
    (c : TabLog.Checked) (title opened : string)
    (entries : list (string * TrackedTab.t)) :
  Host.writable h = true →
  Host.writable h' = true →
  TabLog.box_logged c = false →
  records_with_url entries (TabLog.box_url c) = 0%nat →
  ¬ In (fst (supply 0%nat)) (map fst entries) →
  let added := fst (TabLog.handleAddRemoveCheckedTabs h supply [c] entries) in
  let shown := {| TabLog.box_url := TabLog.box_url c; TabLog.box_logged := true;
                  TabLog.cell_title := title; TabLog.cell_opened := opened |} in
  added = entries ++ [(fst (supply 0%nat), TabLog.added_record c (snd (supply 0%nat)))]
  ∧ fst (TabLog.handleAddRemoveCheckedTabs h' supply' [shown] added) = entries.
Proof.
  intros Hw Hw' Hlogged Hnone Hfresh added shown.
  assert (Hadded : added = entries ++ [(fst (supply 0%nat),
                                        TabLog.added_record c (snd (supply 0%nat)))]).
  { subst added. unfold TabLog.handleAddRemoveCheckedTabs. cbn [TabLog.toggle].
    rewrite Hlogged, Hw. cbn [fst]. by apply put_fresh. }
  split; [exact Hadded|]. rewrite Hadded.
  unfold TabLog.handleAddRemoveCheckedTabs. cbn [TabLog.toggle shown TabLog.box_logged
                                                   TabLog.box_url].
  rewrite remove_first_last by done. by rewrite Hw'.
Qed.

(** The theorem at an empty log. *)
Lemma add_then_remove_restores_witness :
  let c := {| TabLog.box_url := "https://a.example/"; TabLog.box_logged := false;
              TabLog.cell_title := "Alpha"; TabLog.cell_opened := "1/2/1970" |} in
  let supply := fun _ : nat => ("86400000k3x9", 86400000) in
  let added := fst (TabLog.handleAddRemoveCheckedTabs (Examples.host []) supply [c] []) in
  let shown := {| TabLog.box_url := "https://a.example/"; TabLog.box_logged := true;
                  TabLog.cell_title := "Alpha"; TabLog.cell_opened := "1/2/1970" |} in
  added = [("86400000k3x9", TabLog.added_record c 86400000)]
  ∧ fst (TabLog.handleAddRemoveCheckedTabs (Examples.host []) supply [shown] added) = [].
Proof.
  intros c supply.
  apply (add_then_remove_restores (Examples.host []) (Examples.host []) supply supply c
           "Alpha" "1/2/1970" []).
  - reflexivity.
  - reflexivity.
  - reflexivity.
  - reflexivity.
  - intros [].
Defined.

(** ** The CSV export *)

Lemma append_cons (c : ascii) (a b : string) : String c a +:+ b = String c (a +:+ b).
Proof. reflexivity. Qed.

Lemma append_nil (b : string) : "" +:+ b = b.
Proof. reflexivity. Qed.

Lemma read_quoted_escape (t rest : string) :
  (∀ r, rest ≠ String TabLog.quote r) →
  read_quoted (TabLog.csv_escape t +:+ String TabLog.quote rest) = Some (t, rest).
Proof.
  intros Hrest. induction t as [|c t IH].
  - cbn [TabLog.csv_escape]. rewrite append_nil. cbn [read_quoted].
    rewrite Ascii.eqb_refl. destruct rest as [|c' r]; [done|].
    destruct (Ascii.eqb_spec c' TabLog.quote) as [->|_]; [by destruct (Hrest r)|done].
  - cbn [TabLog.csv_escape]. destruct (Ascii.eqb_spec c TabLog.quote) as [->|Hne].
    + rewrite !append_cons. cbn [read_quoted]. rewrite !Ascii.eqb_refl.
      by rewrite IH.
    + rewrite append_cons. cbn [read_quoted].
      destruct (Ascii.eqb_spec c TabLog.quote) as [->|_]; [done|]. by rewrite IH.
Qed.

(** X23.  In every line of the CSV export the title field reads back: the
    line opens with a quote, and reading a quoted field after it (a
    doubled quote is a quote, a single one ends the field) yields the
    row's title, whatever quotes the title contains, and leaves the rest
    of the line from the comma on. *)
Theorem csv_title_reads_back (formatDate : option Z → string) (r : Dashboard.Row) :
  ∃ body,
    TabLog.csvLine formatDate r = String TabLog.quote body
    ∧ read_quoted body
      = Some (or_str (Dashboard.title r) "", TabLog.csvTail formatDate r).
Proof.
  eexists. split; [reflexivity|]. apply read_quoted_escape.
  intros r'. unfold TabLog.csvTail. rewrite append_cons. discriminate.
Qed.

(** ** The header caption of the dashboard *)

(** X24.  The number of days in the header caption is always between 1
    and 365, and is the stored minimum when that lies in the range.  On a
    readable store without a [minDays] key the caption announces one day,
    in the singular, while the background script works with seven; when
    the settings cannot be read it announces seven. *)
Theorem caption_days (readable : bool) (sto : Storage.t) :
  1 <= TabLog.captionDays readable sto <= 365
  ∧ (∀ stored m, readable = true → Storage.settings sto = Some stored →
       Partial.minDays stored = Some m → 1 <= m <= 365 →
       TabLog.captionDays readable sto = m)
  ∧ (readable = true → Storage.settings sto ≫= Partial.minDays = None →
     TabLog.updateHeaderCaption readable sto
     = "This browser extension logs all tabs which stay open for 1 day. You can review, export, or remove them here."
     ∧ Settings.minDays
         (currentSettings (Background.loadSettings true sto Background.initial)) = 7)
  ∧ (readable = false → TabLog.captionDays readable sto = 7).
Proof.
  split; [unfold TabLog.captionDays; lia|]. split; [|split].
  - intros stored m -> Hsto Hm Hrange. unfold TabLog.captionDays, Dashboard.getSettings.
    rewrite Hsto. cbn [default from_option id spread Settings.minDays]. rewrite Hm.
    cbn [default from_option id]. lia.
  - intros -> Hnone.
    assert (Hdays : TabLog.captionDays true sto = 1).
    { unfold TabLog.captionDays, Dashboard.getSettings.
      destruct (Storage.settings sto) as [stored|]; cbn in Hnone |- *;
        [rewrite Hnone|]; reflexivity. }
    split.
    + unfold TabLog.updateHeaderCaption. rewrite Hdays. reflexivity.
    + unfold Background.loadSettings.
      destruct (Storage.settings sto) as [stored|]; cbn in Hnone |- *;
        [rewrite Hnone|]; reflexivity.
  - intros ->. reflexivity.
Qed.

(** ** Dates in the popup *)

(** X25.  [formatDate] of the popup goes by elapsed time, not by calendar
    day: less than 24 hours ago is "Today", 24 to 48 hours ago is
    "Yesterday", two to six whole days ago is that number of whole days
    (the elapsed time divided by a day, rounded down), and older
    instants are shown as date and time.  An instant in the future is
    shown as its negative number of whole days, rounded down, "days ago";
    within the coming 24 hours it reads "-1 days ago". *)
Theorem popup_formatDate_by_elapsed_time (toLocaleTimeString toLocaleDateString : Z → string)
    (now date : Z) :
  let elapsed := now - date in
  let shown := Popup.formatDate toLocaleTimeString toLocaleDateString now date in
  (0 <= elapsed < MS_PER_DAY → shown = "Today at " +:+ toLocaleTimeString date)
  ∧ (MS_PER_DAY <= elapsed < 2 * MS_PER_DAY →
     shown = "Yesterday at " +:+ toLocaleTimeString date)
  ∧ (2 * MS_PER_DAY <= elapsed < 7 * MS_PER_DAY →
     shown = pretty (elapsed / MS_PER_DAY) +:+ " days ago"
     ∧ 2 <= elapsed / MS_PER_DAY <= 6)
  ∧ (7 * MS_PER_DAY <= elapsed →
     shown = toLocaleDateString date +:+ " " +:+ toLocaleTimeString date)
  ∧ (elapsed < 0 →
     shown = pretty (elapsed / MS_PER_DAY) +:+ " days ago"
     ∧ elapsed / MS_PER_DAY < 0)
  ∧ (- MS_PER_DAY <= elapsed < 0 → shown = "-1 days ago").
Proof.
  intros elapsed shown. subst shown. unfold Popup.formatDate, MS_PER_DAY. fold elapsed.
  change (1000 * 60 * 60 * 24) with 86400000. change (24 * 60 * 60 * 1000) with 86400000.
  pose proof (Z.div_mod elapsed 86400000 ltac:(lia)) as Hdm.
  pose proof (Z.mod_pos_bound elapsed 86400000 ltac:(lia)) as Hmod.
  set (d := elapsed / 86400000) in *.
  split; [|split; [|split; [|split; [|split]]]].
  - intros Hr. assert (d = 0) as -> by lia. reflexivity.
  - intros Hr. assert (d = 1) as -> by lia. reflexivity.
  - intros Hr. split; [|lia].
    destruct (d =? 0) eqn:E0; [lia|]. destruct (d =? 1) eqn:E1; [lia|].
    destruct (d <? 7) eqn:E7; [done|lia].
  - intros Hr. destruct (d =? 0) eqn:E0; [lia|]. destruct (d =? 1) eqn:E1; [lia|].
    destruct (d <? 7) eqn:E7; [lia|done].
  - intros Hr. split; [|lia].
    destruct (d =? 0) eqn:E0; [lia|]. destruct (d =? 1) eqn:E1; [lia|].
    destruct (d <? 7) eqn:E7; [done|lia].
  - intros Hr. assert (d = -1) as -> by lia. reflexivity.
Qed.

(** ** More on saving the settings form *)

Lemma validate_None (s : Settings.t) :
  Settings.backupInterval s = None →
  Options.validate s = None ↔
  (1 <= Settings.minDays s <= 365 ∧ 1 <= Settings.maxTabs s <= 1000
   ∧ 1 <= Settings.toleranceHours s <= 24).
Proof.
  intros Hi. unfold Options.validate, Options.outside. rewrite Hi.
  destruct ((Settings.minDays s <? 1) || (Settings.minDays s >? 365)) eqn:E1;
    [split; [done|]; apply orb_true_iff in E1; lia|].
  destruct ((Settings.maxTabs s <? 1) || (Settings.maxTabs s >? 1000)) eqn:E2;
    [split; [done|]; apply orb_true_iff in E2; lia|].
  destruct ((Settings.toleranceHours s <? 1) || (Settings.toleranceHours s >? 24)) eqn:E3;
    [split; [done|]; apply orb_true_iff in E3; lia|].
  apply orb_false_iff in E1 as [? ?], E2 as [? ?], E3 as [? ?]. split; [lia|done].
Qed.

Lemma spread_collected (cur : Settings.t) (f : Options.Form.t) :
  spread cur (Background.stored_settings (Options.collect f))
  = with_interval (Options.collect f) (Settings.backupInterval cur).
Proof. reflexivity. Qed.

(** What [saveSettings] does with a form that passes the validation. *)
Lemma saveSettings_valid (h : Host.t) (tz now : Z) (f : Options.Form.t) (w : Options.World) :
  Options.validate (Options.collect f) = None →
  let s := Options.collect f in
  let merged := with_interval s
                  (Settings.backupInterval (currentSettings (Options.background w))) in
  Options.saveSettings h tz now f w
  = if Host.writable h
    then ({| Options.storage :=
               Background.set_storage_settings
                 (Background.set_storage_settings (Options.storage w)
                    (Background.stored_settings s))
                 (Background.stored_settings merged);
             Options.background :=
               Background.set_currentSettings (Options.background w) merged;
             Options.alarms :=
               if Settings.autoBackupEnabled s
               then Options.scheduleAutomaticBackup tz now s
                      (Background.scheduleAutomaticBackup tz now
                         (Background.set_currentSettings (Options.background w) merged)
                         (Options.alarms w))
               else Options.cancelAutomaticBackup
                      (delete "automaticBackup" (Options.alarms w));
             Options.writes := Options.writes w + 2 |}, Options.Saved)
    else ({| Options.storage := Options.storage w;
             Options.background := Options.background w;
             Options.alarms := Options.alarms w;
             Options.writes := Options.writes w + 1 |}, Options.HostError).
Proof.
  intros Hv s merged. subst merged s. unfold Options.saveSettings. rewrite Hv.
  destruct (Host.writable h) eqn:Hw; [|done].
  unfold Background.updateSettings. rewrite Hw, spread_collected.
  cbn [currentSettings set_currentSettings with_interval Settings.autoBackupEnabled].
  by destruct (Settings.autoBackupEnabled (Options.collect f)).
Qed.



(** X27.  Whatever the form holds, settings that [saveSettings] reports
    as saved have a minimum age between 1 and 365 days, a tab cap between 1
    and 1000 and a tolerance between 1 and 24 hours, in the background
    script and in the store: the form cannot save a negative minimum (the
    mode that records every tab) nor a cap of zero. *)
Theorem saved_settings_are_in_range (h : Host.t) (tz now : Z) (f : Options.Form.t)
    (w : Options.World) :
  snd (Options.saveSettings h tz now f w) = Options.Saved →
  let s := currentSettings (Options.background (fst (Options.saveSettings h tz now f w))) in
  1 <= Settings.minDays s <= 365
  ∧ 1 <= Settings.maxTabs s <= 1000
  ∧ 1 <= Settings.toleranceHours s <= 24
  ∧ Storage.settings (Options.storage (fst (Options.saveSettings h tz now f w)))
    = Some (Background.stored_settings s).
Proof.
  intros Hsaved s. subst s.
  destruct (Options.validate (Options.collect f)) as [message|] eqn:Hv.
  { unfold Options.saveSettings in Hsaved. by rewrite Hv in Hsaved. }
  rewrite saveSettings_valid in Hsaved |- * by done.
  destruct (Host.writable h); [|done].
  cbn [fst Options.background Options.storage currentSettings set_currentSettings
       with_interval Settings.minDays Settings.maxTabs Settings.toleranceHours
       Storage.settings set_storage_settings].
  apply validate_None in Hv as (Hm & Ht & Hh); [|done].
  repeat split; try lia.
Qed.

(** The theorem at the form of the previous example. *)
Lemma saved_settings_are_in_range_witness :
  let r := Options.saveSettings (Examples.host []) 0 1000000 (sample_form "30" true)
             sample_world in
  let s := currentSettings (Options.background (fst r)) in
  1 <= Settings.minDays s <= 365
  ∧ 1 <= Settings.maxTabs s <= 1000
  ∧ 1 <= Settings.toleranceHours s <= 24
  ∧ Storage.settings (Options.storage (fst r)) = Some (Background.stored_settings s).
Proof.
  intros r.
  apply (saved_settings_are_in_range (Examples.host []) 0 1000000 (sample_form "30" true)
           sample_world).
  reflexivity.
Defined.

(** X28.  When the form passes the validation but the host rejects the
    write, [saveSettings] reports a host error after that single write
    attempt: the store, the background script (which receives no message)
    and the alarms are as before. *)
Theorem rejected_settings_write (h : Host.t) (tz now : Z) (f : Options.Form.t)
    (w : Options.World) :
  Options.validate (Options.collect f) = None →
  Host.writable h = false →
  let r := Options.saveSettings h tz now f w in
  snd r = Options.HostError
  ∧ Options.storage (fst r) = Options.storage w
  ∧ Options.background (fst r) = Options.background w
  ∧ Options.alarms (fst r) = Options.alarms w
  ∧ Options.writes (fst r) = (Options.writes w + 1)%nat.
Proof.
  intros Hv Hw r. subst r. rewrite saveSettings_valid by done. by rewrite Hw.
Qed.

(** The theorem at a valid form and a host that rejects writes. *)
Lemma rejected_settings_write_witness :
  let h := {| Host.openTabs := Some []; Host.writable := false |} in
  let r := Options.saveSettings h 0 1000000 (sample_form "30" true) sample_world in
  snd r = Options.HostError
  ∧ Options.storage (fst r) = Options.storage sample_world
  ∧ Options.background (fst r) = Options.background sample_world
  ∧ Options.alarms (fst r) = Options.alarms sample_world
  ∧ Options.writes (fst r) = (Options.writes sample_world + 1)%nat.
Proof.
  intros h.
  apply (rejected_settings_write h 0 1000000 (sample_form "30" true) sample_world);
    reflexivity.
Defined.

(** X29.  The title limit is not validated, and a negative limit erases
    every title: validation gives the same verdict whatever the limit is,
    and with a limit below zero the tracker and a pass store the marker
    ["..."] alone for every tab, titled or not. *)
Theorem negative_title_limit (s : Settings.t) (now : Z) (old : option TrackedTab.t)
    (tab : Tab.t) (limit : Z) :
  Options.validate (with_title_limit s limit) = Options.validate s
  ∧ (Settings.maxTitleLength s < 0 →
     TrackedTab.title (upserted_record s now old tab) = Some "..."
     ∧ TrackedTab.title (tracked_record s now tab) = Some "...").
Proof.
  split; [reflexivity|]. intros Hneg.
  assert (Ht : truncate_title (Settings.maxTitleLength s) (Tab.title tab) = "...").
  { unfold truncate_title, substring0.
    assert (Hlen : 0 <= JS.length (or_str (Tab.title tab) ""))
      by (unfold JS.length; lia).
    destruct (JS.length (or_str (Tab.title tab) "") >? Settings.maxTitleLength s) eqn:E;
      [|lia].
    replace (Z.to_nat (Settings.maxTitleLength s)) with 0%nat by lia.
    by destruct (or_str (Tab.title tab) ""). }
  rewrite upserted_record_title. cbn [tracked_record TrackedTab.title]. by rewrite Ht.
Qed.

(** ** Filling the form and collecting it again *)







